(** * Aviator system launcher: a model of [start_aviator_system.py]

    The launcher starts four services, verifies their health over HTTP,
    watches them until a termination signal arrives and shuts them down.
    This file embeds the launcher as Rocq functions over an explicit
    program state (the globals [running_processes] and
    [shutdown_requested], a millisecond clock and the trace of the effects
    performed) and an environment that answers every question the
    launcher asks of the operating system. *)

From Stdlib Require Import String Ascii ZArith List Bool Lia DecimalString.
Import ListNotations.
Local Open Scope string_scope.
Local Open Scope Z_scope.

(** ** Python string primitives used by the launcher *)

Module PyStr.

(** [sub in s] *)
Fixpoint contains (sub s : string) : bool :=
  String.prefix sub s
  || match s with
     | EmptyString => false
     | String _ s' => contains sub s'
     end.

(** [s.endswith(suffix)] *)
Definition endswith (s suffix : string) : bool :=
  let n := String.length s in
  let k := String.length suffix in
  (k <=? n)%nat && String.eqb (String.substring (n - k) k s) suffix.

(** [s.replace(old, new)] for a non-empty [old]: scan from the left; at a
    match emit [new] and skip the matched characters. *)
Fixpoint replace_scan (old new : string) (skip : nat) (s : string) : string :=
  match s with
  | EmptyString => EmptyString
  | String c s' =>
      match skip with
      | S k => replace_scan old new k s'
      | O =>
          if String.prefix old s
          then new ++ replace_scan old new (String.length old - 1) s'
          else String c (replace_scan old new O s')
      end
  end.

(** [s.replace(EmptyString, new)] puts [new] around every character. *)
Fixpoint replace_empty (new s : string) : string :=
  match s with
  | EmptyString => new
  | String c s' => new ++ String c (replace_empty new s')
  end.

Definition replace (s old new : string) : string :=
  match old with
  | EmptyString => replace_empty new s
  | String _ _ => replace_scan old new O s
  end.

(** [str(n)] for an [int] *)
Definition str (n : Z) : string := NilZero.string_of_int (Z.to_int n).

End PyStr.

(** ** The service registry *)

(** One value of the [SERVICES_CONFIG] dictionary. *)
Record ServiceConfig := {
  script : string;
  port : Z;
  health_endpoint : string;
  description : string
}.

(** A Python [dict] keeps insertion order: an association list. *)
Definition dict (V : Type) := list (string * V).

Definition SERVICES_CONFIG : dict ServiceConfig :=
  [ ("realtime_detector",
      {| script := "microservicios/realtime_detector/main.py";
         port := 8002;
         health_endpoint := "/health";
         description := "Detector en Tiempo Real" |});
    ("aviator_patterns_engine",
      {| script := "microservicios/aviator_patterns_engine/main.py";
         port := 8002;
         health_endpoint := "/health";
         description := "Motor de Patrones Aviator" |});
    ("main_dashboard",
      {| script := "dashboards/main_dashboard.py";
         port := 8501;
         health_endpoint := "/health";
         description := "Dashboard Principal" |});
    ("integrated_dashboard",
      {| script := "dashboards/integrated_dashboard.py";
         port := 8502;
         health_endpoint := "/health";
         description := "Dashboard Integrado" |}) ].

(** [key in d] *)
Definition dict_mem {V} (k : string) (d : dict V) : bool :=
  existsb (fun kv => String.eqb (fst kv) k) d.

(** [d[key] = v]: an existing key keeps its place, a new one goes last. *)
Fixpoint dict_set {V} (k : string) (v : V) (d : dict V) : dict V :=
  match d with
  | [] => [(k, v)]
  | (k', v') :: d' =>
      if String.eqb k' k then (k, v) :: d' else (k', v') :: dict_set k v d'
  end.

(** The entries left by [del d[key]]. *)
Definition dict_remove {V} (k : string) (d : dict V) : dict V :=
  filter (fun kv => negb (String.eqb (fst kv) k)) d.

(** The two specs share a port when some port occurs twice. *)
Fixpoint has_duplicate_port (reg : dict ServiceConfig) : bool :=
  match reg with
  | [] => false
  | (_, c) :: reg' =>
      existsb (fun kv => port (snd kv) =? port c) reg' || has_duplicate_port reg'
  end.

(** ** Exceptions, outcomes and effects *)

(** The exception classes the launcher can meet.  [KeyboardInterrupt] and
    [SystemExit] are not subclasses of [Exception]; the others are. *)
Inductive exn :=
| RequestException (msg : string)
| TimeoutExpired (msg : string)
| KeyError (msg : string)
| OtherException (msg : string)
| KeyboardInterrupt
| SystemExit (code : Z).

(** [isinstance(e, Exception)] *)
Definition is_Exception (e : exn) : bool :=
  match e with
  | KeyboardInterrupt | SystemExit _ => false
  | _ => true
  end.

(** [isinstance(e, requests.exceptions.RequestException)] *)
Definition is_RequestException (e : exn) : bool :=
  match e with RequestException _ => true | _ => false end.

(** [isinstance(e, subprocess.TimeoutExpired)] *)
Definition is_TimeoutExpired (e : exn) : bool :=
  match e with TimeoutExpired _ => true | _ => false end.

(** [str(e)] as interpolated into a log line. *)
Definition exn_str (e : exn) : string :=
  match e with
  | RequestException m | TimeoutExpired m | KeyError m | OtherException m => m
  | KeyboardInterrupt => EmptyString
  | SystemExit c => PyStr.str c
  end.

(** How a call ends: it returns, it raises, or (for the loops that are
    run with a bound on their iterations) the bound is exhausted. *)
Inductive outcome (A : Type) :=
| Returns (a : A)
| Raises (e : exn)
| OutOfFuel.
Arguments Returns {A} a.
Arguments Raises {A} e.
Arguments OutOfFuel {A}.

Inductive level := INFO | WARNING | ERROR.

(** The effects the launcher performs, in the order it performs them. *)
Inductive event :=
| Log (lvl : level) (msg : string)
| PopenCall (cmd : list string)
| Sleep (seconds : Z)
| Poll (pid : Z)
| Communicate (pid : Z)
| Terminate (pid : Z)
| WaitTimeout (pid : Z) (seconds : Z)
| Kill (pid : Z)
| Wait (pid : Z)
| HttpGet (url : string) (timeout : Z)
| BrowserOpen (url : string)
| SignalDelivered.

(** How [wait(timeout=10)] ends: the process exits in time, the timeout
    expires, or the call fails with an operating-system error. *)
Inductive wait_result :=
| Exited
| GraceExpired (msg : string)
| WaitFailed (msg : string).

(** A [subprocess.Popen] handle, with the answers its process gives to
    the launcher: [None] for a status means still running; [None] for a
    call means it returned normally, [Some msg] that it raised an
    operating-system error with that message. *)
Record Popen := {
  pid : Z;
  settle_status : option Z;          (* poll() after the settle sleep *)
  captured_stdout : string;          (* communicate() *)
  captured_stderr : string;
  monitor_status : nat -> option Z;  (* poll() at the n-th monitor tick *)
  shutdown_status : option Z;        (* poll() in shutdown_all_services *)
  terminate_raises : option string;  (* terminate() *)
  grace_wait : wait_result;          (* wait(timeout=10) *)
  kill_raises : option string;       (* kill() *)
  final_wait_raises : option string  (* wait() *)
}.

(** The answer to one [requests.get]: how long it took, in milliseconds,
    and how it ended. *)
Inductive reply :=
| Response (status_code : Z)
| Failure (e : exn).

Record attempt := {
  latency : N;
  result : reply
}.

(** How [__import__(package)] ends: the module is imported, the import
    raises [ImportError], or it raises another exception (a module that
    fails while it is loaded), of class [Exception]. *)
Inductive import_result :=
| Imported
| NotFound
| ImportCrashed (msg : string).

(** The world outside the launcher.  A termination signal is delivered
    while the launcher sleeps, which is where it spends its time: during
    the settle sleep of a launch, during a sleep of the health phase (the
    ten-second wait or a sleep between two probes), or during a sleep of
    the monitor loop; three oracles say during which sleeps one arrives. *)
Record Env := {
  sys_executable : string;
  import_package : string -> import_result;  (* __import__(package) *)
  path_exists : string -> bool;              (* Path(p).exists() *)
  path_str : string -> string;               (* str(Path(p)) *)
  spawn : list string -> string + Popen;     (* subprocess.Popen(cmd, ...): an error message or a handle *)
  http_get : string -> Z -> attempt;         (* requests.get(url) issued at a clock value *)
  browser_raises : string -> option string;  (* webbrowser.open(url) *)
  now_stamp : string;                        (* datetime.now().strftime(...) *)
  settle_signal : Z -> bool;                 (* SIGINT or SIGTERM during the settle sleep
                                                of start_service that begins at this clock *)
  health_signal : Z -> bool;                 (* SIGINT or SIGTERM during the sleep of the
                                                health phase that begins at this clock *)
  signal_at : nat -> bool                    (* SIGINT or SIGTERM during the n-th monitor sleep *)
}.

(** [__import__(package)] succeeds. *)
Definition importable (env : Env) (package : string) : bool :=
  match import_package env package with
  | Imported => true
  | _ => false
  end.

(** The launcher's globals, the clock (milliseconds) and the trace. *)
Record State := {
  running_processes : dict Popen;
  shutdown_requested : bool;
  clock : Z;
  trace : list event
}.

Definition initial_state : State :=
  {| running_processes := []; shutdown_requested := false; clock := 0; trace := [] |}.

(** A computation over the state that may raise. *)
Definition M (A : Type) := State -> outcome A * State.

Definition ret {A} (a : A) : M A := fun s => (Returns a, s).

Definition raise {A} (e : exn) : M A := fun s => (Raises e, s).

Definition out_of_fuel {A} : M A := fun s => (OutOfFuel, s).

Definition bind {A B} (m : M A) (k : A -> M B) : M B :=
  fun s =>
    match m s with
    | (Returns a, s') => k a s'
    | (Raises e, s') => (Raises e, s')
    | (OutOfFuel, s') => (OutOfFuel, s')
    end.

Notation "x <- m ;; k" := (bind m (fun x => k))
  (at level 61, m at next level, right associativity).
Notation "m ;; k" := (bind m (fun _ => k))
  (at level 61, right associativity).

(** [try: m  except <classes matched by catches> as e: handler e] *)
Definition try_except {A} (m : M A) (catches : exn -> bool) (handler : exn -> M A) : M A :=
  fun s =>
    match m s with
    | (Raises e, s') => if catches e then handler e s' else (Raises e, s')
    | r => r
    end.

(** [try: m  finally: fin]; an exception of [fin] replaces the outcome. *)
Definition try_finally {A} (m : M A) (fin : M unit) : M A :=
  fun s =>
    match m s with
    | (OutOfFuel, s') => (OutOfFuel, s')
    | (r, s') =>
        match fin s' with
        | (Returns _, s'') => (r, s'')
        | (Raises e, s'') => (Raises e, s'')
        | (OutOfFuel, s'') => (OutOfFuel, s'')
        end
    end.

Definition emit (e : event) : M unit :=
  fun s => (Returns tt,
            {| running_processes := running_processes s;
               shutdown_requested := shutdown_requested s;
               clock := clock s;
               trace := trace s ++ [e] |}).

Definition advance (ms : Z) : M unit :=
  fun s => (Returns tt,
            {| running_processes := running_processes s;
               shutdown_requested := shutdown_requested s;
               clock := clock s + ms;
               trace := trace s |}).

Definition get_running_processes : M (dict Popen) :=
  fun s => (Returns (running_processes s), s).

Definition set_running_processes (d : dict Popen) : M unit :=
  fun s => (Returns tt,
            {| running_processes := d;
               shutdown_requested := shutdown_requested s;
               clock := clock s;
               trace := trace s |}).

Definition get_shutdown_requested : M bool :=
  fun s => (Returns (shutdown_requested s), s).

Definition set_shutdown_requested (b : bool) : M unit :=
  fun s => (Returns tt,
            {| running_processes := running_processes s;
               shutdown_requested := b;
               clock := clock s;
               trace := trace s |}).

(** [time.time()], in milliseconds *)
Definition time_time : M Z := fun s => (Returns (clock s), s).

(** [time.sleep(seconds)] *)
Definition time_sleep (seconds : Z) : M unit :=
  emit (Sleep seconds) ;; advance (1000 * seconds).

Definition logger_info (msg : string) : M unit := emit (Log INFO msg).
Definition logger_warning (msg : string) : M unit := emit (Log WARNING msg).
Definition logger_error (msg : string) : M unit := emit (Log ERROR msg).

(** A call that either returns or raises an operating-system error. *)
Definition call (ev : event) (r : option string) : M unit :=
  emit ev ;; match r with None => ret tt | Some msg => raise (OtherException msg) end.

(** [process.wait(timeout=seconds)] *)
Definition wait_with_timeout (id seconds : Z) (r : wait_result) : M unit :=
  emit (WaitTimeout id seconds) ;;
  match r with
  | Exited => ret tt
  | GraceExpired msg => raise (TimeoutExpired msg)
  | WaitFailed msg => raise (OtherException msg)
  end.

(** [for x in l: body x] *)
Fixpoint for_each {A} (l : list A) (body : A -> M unit) : M unit :=
  match l with
  | [] => ret tt
  | x :: l' => body x ;; for_each l' body
  end.

(** [s * n] *)
Fixpoint repeat_string (s : string) (n : nat) : string :=
  match n with
  | O => EmptyString
  | S n' => s ++ repeat_string s n'
  end.

Definition newline : string := String (ascii_of_nat 10) EmptyString.

(** ** The launcher *)

Section Launcher.

Variable env : Env.

Definition required_packages : list string :=
  ["streamlit"; "fastapi"; "uvicorn"; "requests"].

(** The loop of [check_dependencies]; [false] is its early return.  Only
    [ImportError] is caught: any other exception of the import goes on. *)
Fixpoint check_packages (packages : list string) : M bool :=
  match packages with
  | [] => ret true
  | package :: rest =>
      match import_package env package with
      | Imported =>
          logger_info ("✅ " ++ package ++ ": OK") ;; check_packages rest
      | NotFound =>
          logger_error ("❌ " ++ package ++ ": NO ENCONTRADO") ;;
          logger_error ("Instala con: pip install " ++ package) ;;
          ret false
      | ImportCrashed msg => raise (OtherException msg)
      end
  end.

Definition check_dependencies : M bool :=
  logger_info "🔍 Verificando dependencias del sistema..." ;;
  ok <- check_packages required_packages ;;
  if ok
  then logger_info "✅ Todas las dependencias están instaladas" ;; ret true
  else ret false.

(** The loop of [check_scripts_exist]. *)
Fixpoint check_scripts (items : dict ServiceConfig) : M bool :=
  match items with
  | [] => ret true
  | (service_name, config) :: rest =>
      let script_path := path_str env (script config) in
      if path_exists env (script config)
      then
        logger_info ("✅ " ++ description config ++ ": " ++ script_path) ;;
        check_scripts rest
      else
        logger_error ("❌ " ++ description config ++ ": " ++ script_path
                      ++ " NO ENCONTRADO") ;;
        ret false
  end.

Definition check_scripts_exist (registry : dict ServiceConfig) : M bool :=
  logger_info "📁 Verificando existencia de scripts del sistema..." ;;
  ok <- check_scripts registry ;;
  if ok
  then logger_info "✅ Todos los scripts del sistema están presentes" ;; ret true
  else ret false.

(** The two tests of [start_service] on the script path.  In Python
    [a or b and c] is [a or (b and c)]. *)
Definition streamlit_test (script_path : string) : bool :=
  PyStr.contains "streamlit" script_path
  || (PyStr.endswith script_path ".py" && PyStr.contains "dashboard" script_path).

Definition uvicorn_test (script_path : string) : bool :=
  PyStr.contains "fastapi" script_path || PyStr.contains "main.py" script_path.

(** The module target of the uvicorn command. *)
Definition module_target (script_path : string) : string :=
  PyStr.replace (PyStr.replace script_path "/" ".") ".py" EmptyString ++ ":app".

(** The [cmd] list of [start_service]. *)
Definition build_cmd (config : ServiceConfig) : list string :=
  let script_path := script config in
  if streamlit_test script_path then
    [ sys_executable env; "-m"; "streamlit"; "run";
      script_path;
      "--server.port"; PyStr.str (port config);
      "--server.headless"; "true";
      "--browser.gatherUsageStats"; "false" ]
  else if uvicorn_test script_path then
    [ sys_executable env; "-m"; "uvicorn";
      module_target script_path;
      "--host"; "0.0.0.0";
      "--port"; PyStr.str (port config);
      "--reload" ]
  else
    [ sys_executable env; script_path ].

(** [subprocess.Popen(cmd, ...)] *)
Definition subprocess_Popen (cmd : list string) : M Popen :=
  emit (PopenCall cmd) ;;
  match spawn env cmd with
  | inl msg => raise (OtherException msg)
  | inr process => ret process
  end.

(** The body of the loop of [shutdown_all_services].  A [Popen] object
    is always truthy, so [process and ...] is the liveness test alone. *)
Definition shutdown_one (entry : string * Popen) : M unit :=
  let (service_name, process) := entry in
  emit (Poll (pid process)) ;;
  match shutdown_status process with
  | None =>
      logger_info ("🛑 Cerrando " ++ service_name ++ "...") ;;
      try_except
        (call (Terminate (pid process)) (terminate_raises process) ;;
         wait_with_timeout (pid process) 10 (grace_wait process) ;;
         logger_info ("✅ " ++ service_name ++ " cerrado correctamente"))
        is_Exception
        (fun e =>
           if is_TimeoutExpired e then
             logger_warning ("⚠️ Forzando cierre de " ++ service_name ++ "...") ;;
             call (Kill (pid process)) (kill_raises process) ;;
             call (Wait (pid process)) (final_wait_raises process)
           else
             logger_error ("❌ Error cerrando " ++ service_name ++ ": " ++ exn_str e))
  | Some _ => ret tt
  end.

Definition shutdown_all_services : M unit :=
  logger_info "🔄 Cerrando todos los servicios..." ;;
  items <- get_running_processes ;;
  for_each items shutdown_one ;;
  set_running_processes [] ;;
  logger_info "✅ Todos los servicios han sido cerrados".

(** [sys.exit(0)] raises [SystemExit]. *)
Definition signal_handler : M unit :=
  logger_info (newline ++ "🛑 Señal de cierre recibida. Cerrando servicios...") ;;
  set_shutdown_requested true ;;
  shutdown_all_services ;;
  raise (SystemExit 0).

(** The settle sleep of [start_service], [time.sleep(2)], during which a
    termination signal may run [signal_handler]: [main] registers the
    handler before it launches anything. *)
Definition settle_sleep : M unit :=
  now <- time_time ;;
  time_sleep 2 ;;
  if settle_signal env now then emit SignalDelivered ;; signal_handler else ret tt.

Definition start_service (service_name : string) (config : ServiceConfig)
  : M (option Popen) :=
  logger_info ("🚀 Iniciando " ++ description config ++ "...") ;;
  try_except
    (process <- subprocess_Popen (build_cmd config) ;;
     settle_sleep ;;
     emit (Poll (pid process)) ;;
     match settle_status process with
     | None =>
         logger_info ("✅ " ++ description config ++ " iniciado correctamente (PID: "
                      ++ PyStr.str (pid process) ++ ")") ;;
         ret (Some process)
     | Some _ =>
         emit (Communicate (pid process)) ;;
         logger_error ("❌ Error al iniciar " ++ description config ++ ":") ;;
         logger_error ("STDOUT: " ++ captured_stdout process) ;;
         logger_error ("STDERR: " ++ captured_stderr process) ;;
         ret None
     end)
    is_Exception
    (fun e =>
       logger_error ("❌ Excepción al iniciar " ++ description config ++ ": "
                     ++ exn_str e) ;;
       ret None).

(** The probed URL of [check_service_health]. *)
Definition health_url (config : ServiceConfig) : string :=
  "http://localhost:" ++ PyStr.str (port config) ++ health_endpoint config.

(** [requests.get(url, timeout=5)]; the value is the status code. *)
Definition requests_get (url : string) (timeout : Z) : M Z :=
  emit (HttpGet url timeout) ;;
  now <- time_time ;;
  let a := http_get env url now in
  advance (Z.of_N (latency a)) ;;
  match result a with
  | Response status_code => ret status_code
  | Failure e => raise e
  end.

(** A sleep of the health phase, during which a termination signal may
    run [signal_handler]. *)
Definition health_sleep (seconds : Z) : M unit :=
  now <- time_time ;;
  time_sleep seconds ;;
  if health_signal env now then emit SignalDelivered ;; signal_handler else ret tt.

(** The [while] loop of [check_service_health], run for at most [fuel]
    tests of its condition. *)
Fixpoint health_loop (fuel : nat) (config : ServiceConfig) (url : string)
    (start_time timeout : Z) : M bool :=
  match fuel with
  | O => out_of_fuel
  | S fuel' =>
      now <- time_time ;;
      if now - start_time <? 1000 * timeout then
        found <- try_except
                   (status_code <- requests_get url 5 ;;
                    if status_code =? 200
                    then logger_info ("✅ " ++ description config ++ ": ACTIVO") ;;
                         ret true
                    else ret false)
                   is_RequestException
                   (fun _ => ret false) ;;
        if (found : bool) then ret true
        else health_sleep 2 ;; health_loop fuel' config url start_time timeout
      else
        logger_warning ("⚠️ " ++ description config ++ ": No responde en " ++ url) ;;
        ret false
  end.

(** Every pass through the loop sleeps two seconds, so the condition is
    tested at most [timeout / 2 + 1] times. *)
Definition health_fuel (timeout : Z) : nat := S (Z.to_nat timeout).

Definition check_service_health (service_name : string) (config : ServiceConfig)
    (timeout : Z) : M bool :=
  let url := health_url config in
  logger_info ("🏥 Verificando salud de " ++ description config ++ "...") ;;
  start_time <- time_time ;;
  health_loop (health_fuel timeout) config url start_time timeout.

Definition open_main_dashboard : M unit :=
  let dashboard_url := "http://localhost:8501" in
  logger_info ("🌐 Abriendo dashboard principal en " ++ dashboard_url) ;;
  try_except
    (call (BrowserOpen dashboard_url) (browser_raises env dashboard_url) ;;
     logger_info "✅ Dashboard abierto en el navegador")
    is_Exception
    (fun e =>
       logger_error ("❌ Error abriendo navegador: " ++ exn_str e) ;;
       logger_info ("📱 Accede manualmente a: " ++ dashboard_url)).

(** [del running_processes[service_name]] *)
Definition del_running_process (service_name : string) : M unit :=
  d <- get_running_processes ;;
  if dict_mem service_name d
  then set_running_processes (dict_remove service_name d)
  else raise (KeyError service_name).

(** The launch loop of [main]. *)
Fixpoint launch_all (items : dict ServiceConfig) : M unit :=
  match items with
  | [] => ret tt
  | (service_name, config) :: rest =>
      stop <- get_shutdown_requested ;;
      if (stop : bool) then ret tt
      else
        process <- start_service service_name config ;;
        match process with
        | Some p =>
            d <- get_running_processes ;;
            set_running_processes (dict_set service_name p d) ;;
            logger_info ("📊 " ++ description config ++ ": http://localhost:"
                         ++ PyStr.str (port config))
        | None =>
            logger_error ("❌ No se pudo iniciar " ++ description config)
        end ;;
        launch_all rest
  end.

(** The health loop of [main]; the accumulator is [all_healthy]. *)
Fixpoint verify_health (items : dict ServiceConfig) (all_healthy : bool) : M bool :=
  match items with
  | [] => ret all_healthy
  | (service_name, config) :: rest =>
      d <- get_running_processes ;;
      if dict_mem service_name d then
        healthy <- check_service_health service_name config 30 ;;
        verify_health rest (if (healthy : bool) then all_healthy else false)
      else verify_health rest all_healthy
  end.

(** One pass of the monitor loop of [main]: the sleep, during which a
    termination signal may run [signal_handler], then the liveness
    check over a snapshot of the table. *)
Definition monitor_check (tick : nat) (entry : string * Popen) : M unit :=
  let (service_name, process) := entry in
  emit (Poll (pid process)) ;;
  match monitor_status process tick with
  | Some _ =>
      logger_warning ("⚠️ " ++ service_name ++ " se ha detenido inesperadamente") ;;
      del_running_process service_name
  | None => ret tt
  end.

Definition monitor_sleep (tick : nat) : M unit :=
  time_sleep 1 ;;
  if signal_at env tick then emit SignalDelivered ;; signal_handler else ret tt.

Definition monitor_poll (tick : nat) : M unit :=
  items <- get_running_processes ;;
  for_each items (monitor_check tick).

Definition monitor_tick (tick : nat) : M unit :=
  monitor_sleep tick ;; monitor_poll tick.

(** [while not shutdown_requested: ...], for at most [fuel] tests. *)
Fixpoint monitor_loop (fuel : nat) (tick : nat) : M unit :=
  match fuel with
  | O => out_of_fuel
  | S fuel' =>
      stop <- get_shutdown_requested ;;
      if (stop : bool) then ret tt
      else monitor_tick tick ;; monitor_loop fuel' (S tick)
  end.

Definition is_KeyboardInterrupt (e : exn) : bool :=
  match e with KeyboardInterrupt => true | _ => false end.

(** The branch of [main] taken when [all_healthy] holds. *)
Definition stable_phase (registry : dict ServiceConfig) (fuel : nat) : M unit :=
  logger_info EmptyString ;;
  logger_info "✅ TODOS LOS SERVICIOS ESTÁN ACTIVOS" ;;
  logger_info EmptyString ;;
  logger_info "🔗 ENLACES DE ACCESO:" ;;
  logger_info (repeat_string "-" 30) ;;
  for_each registry
    (fun entry =>
       logger_info ("📊 " ++ description (snd entry) ++ ": http://localhost:"
                    ++ PyStr.str (port (snd entry)))) ;;
  logger_info EmptyString ;;
  logger_info "🌐 Abriendo dashboard principal..." ;;
  open_main_dashboard ;;
  logger_info EmptyString ;;
  logger_info "🎉 SISTEMA AVIATOR INICIADO CORRECTAMENTE" ;;
  logger_info "💡 Presiona Ctrl+C para detener todos los servicios" ;;
  logger_info (repeat_string "=" 60) ;;
  try_except
    (monitor_loop fuel O)
    is_KeyboardInterrupt
    (fun _ => logger_info (newline ++ "🛑 Interrupción de teclado recibida")).

(** The wait for the services and the health loop of [main]; the value
    is [all_healthy]. *)
Definition health_phase (registry : dict ServiceConfig) : M (option bool) :=
  logger_info EmptyString ;;
  logger_info "⏳ Esperando que todos los servicios estén listos..." ;;
  health_sleep 10 ;;
  logger_info EmptyString ;;
  logger_info "🏥 VERIFICACIÓN DE SALUD DE SERVICIOS" ;;
  logger_info (repeat_string "-" 50) ;;
  all_healthy <- verify_health registry true ;;
  ret (Some all_healthy).

(** The outer [try] of [main] up to the health verdict.  [None] is one
    of the two early [return 1] of the prerequisite checks; [Some b] is
    the value of [all_healthy] after the health loop. *)
Definition startup (registry : dict ServiceConfig) : M (option bool) :=
  deps <- check_dependencies ;;
  if negb deps then
    logger_error "❌ Faltan dependencias críticas. Abortando..." ;;
    ret None
  else
    scripts <- check_scripts_exist registry ;;
    if negb scripts then
      logger_error "❌ Faltan scripts del sistema. Abortando..." ;;
      ret None
    else
      logger_info "🎯 Iniciando servicios del sistema Aviator..." ;;
      logger_info EmptyString ;;
      launch_all registry ;;
      health_phase registry.

(** What [main] does with the verdict.  [Some c] is [return c]; [None]
    is falling out of the [try] statement. *)
Definition verdict_branch (registry : dict ServiceConfig) (fuel : nat)
    (verdict : option bool) : M (option Z) :=
  match verdict with
  | None => ret (Some 1)
  | Some true =>
      stable_phase registry fuel ;;
      ret None
  | Some false =>
      logger_error "❌ Algunos servicios no están respondiendo correctamente" ;;
      ret (Some 1)
  end.

(** The body of the outer [try] of [main]. *)
Definition main_try (registry : dict ServiceConfig) (fuel : nat) : M (option Z) :=
  verdict <- startup registry ;;
  verdict_branch registry fuel verdict.

(** The lines logged before the outer [try]. *)
Definition banner : M unit :=
  logger_info (repeat_string "=" 60) ;;
  logger_info "🚀 AVIATOR SYSTEM LAUNCHER V19.3" ;;
  logger_info (repeat_string "=" 60) ;;
  logger_info ("📅 Iniciado: " ++ now_stamp env) ;;
  logger_info EmptyString.

(** The [except Exception] and [finally] clauses of the outer [try]
    of [main], around a body. *)
Definition with_cleanup (body : M (option Z)) : M (option Z) :=
  try_finally
    (try_except
       body
       is_Exception
       (fun e =>
          logger_error ("❌ Error crítico en el launcher: " ++ exn_str e) ;;
          ret (Some 1)))
    (shutdown_all_services ;;
     logger_info "👋 Aviator System Launcher finalizado").

(** The end of [main] after the [try] statement: the value of an inner
    [return], or the final [return 0]. *)
Definition return_code (returned : option Z) : M Z :=
  match returned with
  | Some c => ret c
  | None => ret 0
  end.

(** [main], over a registry; [fuel] bounds the monitor loop.  The
    registration of the two signal handlers leaves no trace: signals
    are delivered by the sleeps, [settle_sleep], [health_sleep] and
    [monitor_sleep]. *)
Definition main_with (registry : dict ServiceConfig) (fuel : nat) : M Z :=
  banner ;;
  returned <- with_cleanup (main_try registry fuel) ;;
  return_code returned.

Definition main (fuel : nat) : M Z := main_with SERVICES_CONFIG fuel.

End Launcher.

(** The exit status of [sys.exit(main())]: the value returned, the code of
    a [SystemExit], 1 for an uncaught [Exception]. *)
Definition exit_status (r : outcome Z) : option Z :=
  match r with
  | Returns c => Some c
  | Raises (SystemExit c) => Some c
  | Raises KeyboardInterrupt => None
  | Raises _ => Some 1
  | OutOfFuel => None
  end.

(** ** Readings of a trace *)

Definition is_PopenCall (e : event) : bool :=
  match e with PopenCall _ => true | _ => false end.

(** The command lines handed to [subprocess.Popen], in order. *)
Fixpoint popen_calls (t : list event) : list (list string) :=
  match t with
  | [] => []
  | PopenCall cmd :: t' => cmd :: popen_calls t'
  | _ :: t' => popen_calls t'
  end.

Definition is_BrowserOpen (e : event) : bool :=
  match e with BrowserOpen _ => true | _ => false end.

(** Only the monitor loop sleeps for one second. *)
Definition is_monitor_sleep (e : event) : bool :=
  match e with Sleep 1 => true | _ => false end.

Definition is_signal (e : event) : bool :=
  match e with Terminate _ | Kill _ => true | _ => false end.

(** ** The launch categories of the specification *)

Inductive category := WebDashboard | HttpApi | GenericScript.

(** The category the launcher infers from a script path. *)
Definition inferred_category (script_path : string) : category :=
  if streamlit_test script_path then WebDashboard
  else if uvicorn_test script_path then HttpApi
  else GenericScript.

(** The category of each shipped service, as the module docstring names
    them: FastAPI microservices (the detector and the patterns engine) and
    Streamlit dashboards (the main and the integrated one). *)
Definition documented_category (service_name : string) : category :=
  if String.eqb service_name "realtime_detector" then HttpApi
  else if String.eqb service_name "aviator_patterns_engine" then HttpApi
  else if String.eqb service_name "main_dashboard" then WebDashboard
  else if String.eqb service_name "integrated_dashboard" then WebDashboard
  else GenericScript.

(** The module a script path names: the path without its [.py] suffix,
    with dots for slashes. *)
Definition module_of_path (script_path : string) : string :=
  let stem :=
    if PyStr.endswith script_path ".py"
    then String.substring 0 (String.length script_path - 3) script_path
    else script_path in
  PyStr.replace stem "/" ".".

(** The argument list the specification gives for each category, for a
    given module target. *)
Definition argv_for_category (env : Env) (c : category) (target : string)
    (config : ServiceConfig) : list string :=
  match c with
  | WebDashboard =>
      [ sys_executable env; "-m"; "streamlit"; "run"; script config;
        "--server.port"; PyStr.str (port config);
        "--server.headless"; "true";
        "--browser.gatherUsageStats"; "false" ]
  | HttpApi =>
      [ sys_executable env; "-m"; "uvicorn";
        target ++ ":app";
        "--host"; "0.0.0.0"; "--port"; PyStr.str (port config); "--reload" ]
  | GenericScript => [ sys_executable env; script config ]
  end.

(** [d.get(key)] *)
Fixpoint dict_get {V} (k : string) (d : dict V) : option V :=
  match d with
  | [] => None
  | (k', v) :: d' => if String.eqb k' k then Some v else dict_get k d'
  end.

(** ** The probe schedule *)

(** The moment the [k]-th probe of a health check is issued when the
    first is issued at [t]: each probe is followed by a two-second sleep. *)
Fixpoint probe_time (env : Env) (url : string) (t : Z) (k : nat) : Z :=
  match k with
  | O => t
  | S k' =>
      probe_time env url (t + Z.of_N (latency (http_get env url t)) + 2000) k'
  end.

(** The moment the answer to the [k]-th probe arrives, or its failure:
    the moment the sleep after that probe begins. *)
Definition answer_time (env : Env) (url : string) (t : Z) (k : nat) : Z :=
  probe_time env url t k
  + Z.of_N (latency (http_get env url (probe_time env url t k))).

(** The requests of a trace, in order: the URL and the request timeout. *)
Fixpoint http_requests (t : list event) : list (string * Z) :=
  match t with
  | [] => []
  | HttpGet url tmo :: t' => (url, tmo) :: http_requests t'
  | _ :: t' => http_requests t'
  end.

(** The state when the answer to a request issued in [s] has arrived. *)
Definition after_probe (env : Env) (url : string) (s : State) : State :=
  {| running_processes := running_processes s;
     shutdown_requested := shutdown_requested s;
     clock := clock s + Z.of_N (latency (http_get env url (clock s)));
     trace := (trace s ++ [HttpGet url 5])%list |}.

(** The state after an undisturbed sleep. *)
Definition after_sleep (seconds : Z) (s : State) : State :=
  {| running_processes := running_processes s;
     shutdown_requested := shutdown_requested s;
     clock := clock s + 1000 * seconds;
     trace := (trace s ++ [Sleep seconds])%list |}.

(** Every failed request to [url] is a transport failure. *)
Definition transport_failures_only (env : Env) (url : string) : Prop :=
  forall t e, result (http_get env url t) = Failure e -> is_RequestException e = true.

(** The requests of a trace all go to [url] with request timeout [tmo]. *)
Definition requests_are (url : string) (tmo : Z) (t : list event) : Prop :=
  Forall (fun e => match e with
                   | HttpGet u x => u = url /\ x = tmo
                   | _ => True
                   end) t.

(** ** Readings of the shutdown *)

(** The processes sent a termination request, in the order of the requests. *)
Fixpoint terminated (t : list event) : list Z :=
  match t with
  | [] => []
  | Terminate p :: t' => p :: terminated t'
  | _ :: t' => terminated t'
  end.

(** The processes sent a forced kill. *)
Fixpoint killed (t : list event) : list Z :=
  match t with
  | [] => []
  | Kill p :: t' => p :: killed t'
  | _ :: t' => killed t'
  end.

(** The events [es] occur in [t], in this order. *)
Fixpoint in_order (es t : list event) : Prop :=
  match es with
  | [] => True
  | e :: es' => exists t1 t2, t = (t1 ++ e :: t2)%list /\ in_order es' t2
  end.

(** [process.poll() is None] when the shutdown reaches the process. *)
Definition alive (p : Popen) : bool :=
  match shutdown_status p with
  | None => true
  | Some _ => false
  end.

(** The grace period of a process ran out: the termination request went
    through and [wait(timeout=10)] raised [TimeoutExpired]. *)
Definition grace_expired (p : Popen) : bool :=
  match terminate_raises p, grace_wait p with
  | None, GraceExpired _ => true
  | _, _ => false
  end.

(** The forced kill of a process and the wait after it do not fail. *)
Definition escalation_succeeds (p : Popen) : Prop :=
  kill_raises p = None /\ final_wait_raises p = None.

(** An event that is neither a process creation, nor the opening of the
    browser, nor a sleep of the monitor loop. *)
Definition quiet (e : event) : Prop :=
  is_PopenCall e = false /\ is_BrowserOpen e = false /\ is_monitor_sleep e = false.

(** The two lines [shutdown_all_services] logs whatever the table holds. *)
Definition shutdown_banner : list event :=
  [ Log INFO "🔄 Cerrando todos los servicios...";
    Log INFO "✅ Todos los servicios han sido cerrados" ].

(** Every event a computation adds to the trace satisfies [Q]. *)
Definition emits {A} (Q : event -> Prop) (m : M A) : Prop :=
  forall s, exists t, trace (snd (m s)) = (trace s ++ t)%list /\ Forall Q t.

(** ** Readings of the monitor *)

(** [process.poll() is None] at monitor tick [tick]. *)
Definition running_at (tick : nat) (entry : string * Popen) : bool :=
  match monitor_status (snd entry) tick with
  | None => true
  | Some _ => false
  end.

(** The warning the monitor logs for a service that has stopped. *)
Definition exit_warning (service_name : string) : event :=
  Log WARNING ("⚠️ " ++ service_name ++ " se ha detenido inesperadamente").

(** What the monitor does about one entry at a tick: it polls, and warns
    when the process has exited. *)
Definition monitor_report (tick : nat) (entry : string * Popen) : list event :=
  Poll (pid (snd entry))
  :: (if running_at tick entry then [] else [exit_warning (fst entry)]).

(** ** Readings of the start *)

(** Both prerequisite checks of [main] pass: every required package can
    be imported and every script of the registry exists. *)
Definition preflight_ok (env : Env) (registry : dict ServiceConfig) : bool :=
  forallb (importable env) required_packages
  && forallb (fun entry => path_exists env (script (snd entry))) registry.

(** The state after a computation that only logs the lines [t]. *)
Definition logged (s : State) (t : list event) : State :=
  {| running_processes := running_processes s;
     shutdown_requested := shutdown_requested s;
     clock := clock s;
     trace := (trace s ++ t)%list |}.

(** The line [main] logs when it takes every service for active. *)
Definition is_all_active_log (e : event) : bool :=
  match e with
  | Log INFO m => String.eqb m "✅ TODOS LOS SERVICIOS ESTÁN ACTIVOS"
  | _ => false
  end.

Definition is_error_log (e : event) : bool :=
  match e with Log ERROR _ => true | _ => false end.

(** An event other than the opening of the browser and the sleep of the
    monitor loop: what a run that never reaches the stable phase emits. *)
Definition not_stable (e : event) : Prop :=
  is_BrowserOpen e = false /\ is_monitor_sleep e = false.

(** ** Sample worlds *)

(** A process that stays up until it is told to stop. *)
Definition live_process (n : Z) : Popen :=
  {| pid := n; settle_status := None;
     captured_stdout := EmptyString; captured_stderr := EmptyString;
     monitor_status := fun _ => None; shutdown_status := None;
     terminate_raises := None; grace_wait := Exited;
     kill_raises := None; final_wait_raises := None |}.

(** A process that has exited with [code] before the settle check. *)
Definition crashed_process (n code : Z) (err : string) : Popen :=
  {| pid := n; settle_status := Some code;
     captured_stdout := EmptyString; captured_stderr := err;
     monitor_status := fun _ => Some code; shutdown_status := Some code;
     terminate_raises := None; grace_wait := Exited;
     kill_raises := None; final_wait_raises := None |}.

(** A process that ignores the termination request. *)
Definition stubborn_process (n : Z) : Popen :=
  {| pid := n; settle_status := None;
     captured_stdout := EmptyString; captured_stderr := EmptyString;
     monitor_status := fun _ => None; shutdown_status := None;
     terminate_raises := None;
     grace_wait := GraceExpired "timed out after 10 seconds";
     kill_raises := None; final_wait_raises := None |}.

(** A world in which everything is installed, every service answers 200
    after 10 ms, the patterns engine dies at once (its port is taken by
    the detector) and a signal arrives during the second monitor sleep. *)
Definition port_clash_env : Env :=
  {| sys_executable := "/usr/bin/python3";
     import_package := fun _ => Imported;
     path_exists := fun _ => true;
     path_str := fun p => p;
     spawn := fun cmd =>
       if String.eqb (nth 3 cmd EmptyString)
                     "microservicios.aviator_patterns_engine.main:app"
       then inr (crashed_process 101 1 "address already in use")
       else inr (live_process (100 + Z.of_nat (String.length (nth 4 cmd EmptyString))));
     http_get := fun _ _ => {| latency := 10; result := Response 200 |};
     browser_raises := fun _ => None;
     now_stamp := "2025-01-24 00:00:00";
     settle_signal := fun _ => false;
     health_signal := fun _ => false;
     signal_at := fun n => Nat.eqb n 1 |}.

(** The shipped spec of a service (an empty spec for an unknown name). *)
Definition shipped (service_name : string) : ServiceConfig :=
  match dict_get service_name SERVICES_CONFIG with
  | Some config => config
  | None => {| script := EmptyString; port := 0;
               health_endpoint := EmptyString; description := EmptyString |}
  end.

(** A world whose services refuse every connection at once. *)
Definition refusing_env : Env :=
  {| sys_executable := "/usr/bin/python3";
     import_package := fun _ => Imported;
     path_exists := fun _ => true;
     path_str := fun p => p;
     spawn := fun _ => inr (live_process 200);
     http_get := fun _ _ =>
       {| latency := 0; result := Failure (RequestException "connection refused") |};
     browser_raises := fun _ => None;
     now_stamp := "2025-01-24 00:00:00";
     settle_signal := fun _ => false;
     health_signal := fun _ => false;
     signal_at := fun _ => true |}.

(** A world whose services refuse connections for the first three
    seconds and answer 200 afterwards. *)
Definition slow_start_env : Env :=
  {| sys_executable := "/usr/bin/python3";
     import_package := fun _ => Imported;
     path_exists := fun _ => true;
     path_str := fun p => p;
     spawn := fun _ => inr (live_process 300);
     http_get := fun _ t =>
       if t <? 3000
       then {| latency := 100;
               result := Failure (RequestException "connection refused") |}
       else {| latency := 20; result := Response 200 |};
     browser_raises := fun _ => None;
     now_stamp := "2025-01-24 00:00:00";
     settle_signal := fun _ => false;
     health_signal := fun _ => false;
     signal_at := fun _ => true |}.

(** A world whose services answer 200, five seconds after each request. *)
Definition late_answer_env : Env :=
  {| sys_executable := "/usr/bin/python3";
     import_package := fun _ => Imported;
     path_exists := fun _ => true;
     path_str := fun p => p;
     spawn := fun _ => inr (live_process 350);
     http_get := fun _ _ => {| latency := 5000; result := Response 200 |};
     browser_raises := fun _ => None;
     now_stamp := "2025-01-24 00:00:00";
     settle_signal := fun _ => false;
     health_signal := fun _ => false;
     signal_at := fun _ => true |}.

(** A world whose services refuse every connection after one second and
    in which a signal arrives during the sleep that begins at the fourth
    second. *)
Definition interrupted_probe_env : Env :=
  {| sys_executable := "/usr/bin/python3";
     import_package := fun _ => Imported;
     path_exists := fun _ => true;
     path_str := fun p => p;
     spawn := fun _ => inr (live_process 360);
     http_get := fun _ _ =>
       {| latency := 1000; result := Failure (RequestException "connection refused") |};
     browser_raises := fun _ => None;
     now_stamp := "2025-01-24 00:00:00";
     settle_signal := fun _ => false;
     health_signal := fun t => t =? 4000;
     signal_at := fun _ => true |}.

(** A table with a process that stops when asked, one that has already
    exited and one that must be killed. *)
Definition sample_table : dict Popen :=
  [ ("realtime_detector", live_process 11);
    ("main_dashboard", crashed_process 12 1 EmptyString);
    ("integrated_dashboard", stubborn_process 13) ].

Definition sample_state : State :=
  {| running_processes := sample_table;
     shutdown_requested := false;
     clock := 0;
     trace := [] |}.

(** A world in which every process exits with [code] before the settle
    check, leaving the same output whatever the code. *)
Definition crash_env (code : Z) : Env :=
  {| sys_executable := "/usr/bin/python3";
     import_package := fun _ => Imported;
     path_exists := fun _ => true;
     path_str := fun p => p;
     spawn := fun _ => inr (crashed_process 400 code "Traceback (most recent call last)");
     http_get := fun _ _ => {| latency := 0; result := Response 200 |};
     browser_raises := fun _ => None;
     now_stamp := "2025-01-24 00:00:00";
     settle_signal := fun _ => false;
     health_signal := fun _ => false;
     signal_at := fun _ => true |}.

(** ** Readings and sample worlds for the further properties *)

(** The line [check_dependencies] logs for a package it could import. *)
Definition import_ok (package : string) : event :=
  Log INFO ("✅ " ++ package ++ ": OK").

(** The level of a log line; [None] for an effect that is no log line. *)
Definition log_level (e : event) : option level :=
  match e with
  | Log lvl _ => Some lvl
  | _ => None
  end.

Definition is_log (e : event) : bool :=
  match e with
  | Log _ _ => true
  | _ => false
  end.

(** [m] leaves the reading [f] of the state as it found it. *)
Definition keeps {A B} (f : State -> B) (m : M A) : Prop :=
  forall s, f (snd (m s)) = f s.

(** Whenever [m] returns, it has left the reading [f] of the state as it
    found it. *)
Definition keeps_on_return {A B} (f : State -> B) (m : M A) : Prop :=
  forall s a s', m s = (Returns a, s') -> f s' = f s.

(** Entered with no shutdown requested, [m] does not return to its
    caller: it raises, or it is still running when its bound is reached. *)
Definition never_returns {A} (m : M A) : Prop :=
  forall s, shutdown_requested s = false -> forall a s', m s <> (Returns a, s').

(** The outcome of [main] for an outcome of the body of its [try], when
    the [finally] clause goes through: an inner [return] gives its value,
    falling out of the [try] gives the final [return 0], an [Exception]
    is turned into [return 1], anything else that is raised goes on. *)
Definition main_outcome (r : outcome (option Z)) : outcome Z :=
  match r with
  | Returns (Some c) => Returns c
  | Returns None => Returns 0
  | Raises e => if is_Exception e then Returns 1 else Raises e
  | OutOfFuel => OutOfFuel
  end.

(** The line the [except Exception] clause of [main] logs. *)
Definition critical_log (r : outcome (option Z)) : list event :=
  match r with
  | Raises e =>
      if is_Exception e
      then [Log ERROR ("❌ Error crítico en el launcher: " ++ exn_str e)]
      else []
  | _ => []
  end.

(** The last line [main] logs. *)
Definition farewell : event := Log INFO "👋 Aviator System Launcher finalizado".

(** A world whose services are up but whose health requests fail with an
    error that is no [RequestException]. *)
Definition broken_probe_env : Env :=
  {| sys_executable := "/usr/bin/python3";
     import_package := fun _ => Imported;
     path_exists := fun _ => true;
     path_str := fun p => p;
     spawn := fun _ => inr (live_process 500);
     http_get := fun _ _ =>
       {| latency := 0; result := Failure (OtherException "invalid URL") |};
     browser_raises := fun _ => None;
     now_stamp := "2025-01-24 00:00:00";
     settle_signal := fun _ => false;
     health_signal := fun _ => false;
     signal_at := fun _ => true |}.

(** The entries of a table still running at each of the [n] monitor
    ticks from [tick] on. *)
Fixpoint survivors (tick n : nat) (d : dict Popen) : dict Popen :=
  match n with
  | O => d
  | S n' => survivors (S tick) n' (filter (running_at tick) d)
  end.

(** A world whose services answer at once and in which no signal ever
    arrives. *)
Definition unattended_env : Env :=
  {| sys_executable := "/usr/bin/python3";
     import_package := fun _ => Imported;
     path_exists := fun _ => true;
     path_str := fun p => p;
     spawn := fun _ => inr (live_process 200);
     http_get := fun _ _ => {| latency := 0; result := Response 200 |};
     browser_raises := fun _ => None;
     now_stamp := "2025-01-24 00:00:00";
     settle_signal := fun _ => false;
     health_signal := fun _ => false;
     signal_at := fun _ => false |}.

(** A request of the health phase is one to the health URL of a spec of
    [registry] whose service is in the table [d], with the five-second
    request timeout. *)
Definition probes_launched (registry : dict ServiceConfig) (d : dict Popen)
    (e : event) : Prop :=
  match e with
  | HttpGet url tmo =>
      tmo = 5
      /\ exists name config,
           In (name, config) registry
           /\ dict_mem name d = true
           /\ url = health_url config
  | _ => True
  end.

(** The handle [start_service] returns for a spec: the process
    [subprocess.Popen] gives, when it gives one that is still running at
    the settle check. *)
Definition started (env : Env) (config : ServiceConfig) : option Popen :=
  match spawn env (build_cmd env config) with
  | inr p =>
      match settle_status p with
      | None => Some p
      | Some _ => None
      end
  | inl _ => None
  end.

(** The services of a registry that come up, with their handles. *)
Fixpoint launched (env : Env) (registry : dict ServiceConfig) : dict Popen :=
  match registry with
  | [] => []
  | (name, config) :: rest =>
      match started env config with
      | Some p => (name, p) :: launched env rest
      | None => launched env rest
      end
  end.

(** [subprocess.Popen] gives a handle for the spec of an entry. *)
Definition spawns (env : Env) (entry : string * ServiceConfig) : bool :=
  match spawn env (build_cmd env (snd entry)) with
  | inr _ => true
  | inl _ => false
  end.

(** A process that ignores the termination request and cannot be killed. *)
Definition unkillable_process (n : Z) : Popen :=
  {| pid := n; settle_status := None;
     captured_stdout := EmptyString; captured_stderr := EmptyString;
     monitor_status := fun _ => None; shutdown_status := None;
     terminate_raises := None;
     grace_wait := GraceExpired "timed out after 10 seconds";
     kill_raises := Some "Operation not permitted"; final_wait_raises := None |}.

(** A table whose second process cannot be killed. *)
Definition stuck_state : State :=
  {| running_processes :=
       [ ("realtime_detector", stubborn_process 21);
         ("main_dashboard", unkillable_process 22);
         ("integrated_dashboard", live_process 23) ];
     shutdown_requested := false;
     clock := 0;
     trace := [] |}.

(** A world in which a signal arrives during the settle sleep of the
    second launch; the processes are numbered by the length of their
    command line. *)
Definition interrupted_env : Env :=
  {| sys_executable := "/usr/bin/python3";
     import_package := fun _ => Imported;
     path_exists := fun _ => true;
     path_str := fun p => p;
     spawn := fun cmd => inr (live_process (592 + Z.of_nat (length cmd)));
     http_get := fun _ _ => {| latency := 0; result := Response 200 |};
     browser_raises := fun _ => None;
     now_stamp := "2025-01-24 00:00:00";
     settle_signal := fun t => t =? 2000;
     health_signal := fun _ => false;
     signal_at := fun _ => false |}.

(** ** Properties *)

Local Open Scope list_scope.

Lemma popen_calls_app (t1 t2 : list event) :
  popen_calls (t1 ++ t2) = popen_calls t1 ++ popen_calls t2.
Proof.
  induction t1 as [|e t1 IH]; simpl; [reflexivity|].
  destruct e; simpl; rewrite IH; reflexivity.
Qed.

Lemma popen_calls_none (t : list event) :
  Forall (fun e => is_PopenCall e = false) t -> popen_calls t = [].
Proof.
  induction 1 as [|e t He _ IH]; [reflexivity|].
  destruct e; cbn in *; try exact IH. discriminate.
Qed.

Lemma bind_run {A B} (m : M A) (k : A -> M B) s a s1 :
  m s = (Returns a, s1) -> bind m k s = k a s1.
Proof. intro H. unfold bind. rewrite H. reflexivity. Qed.

Lemma bind_same_run {A B} (m m' : M A) (k : A -> M B) s s' :
  m s = m' s' -> bind m k s = bind m' k s'.
Proof. intro H. unfold bind. rewrite H. reflexivity. Qed.

Lemma bind_raise {A B} (m : M A) (k : A -> M B) s e s1 :
  m s = (Raises e, s1) -> bind m k s = (Raises e, s1).
Proof. intro H. unfold bind. rewrite H. reflexivity. Qed.

Lemma logged_logged s t1 t2 : logged (logged s t1) t2 = logged s (t1 ++ t2).
Proof. unfold logged. cbn. rewrite app_assoc. reflexivity. Qed.

Ltac run :=
  cbv beta iota zeta delta
    [start_service settle_sleep health_sleep subprocess_Popen requests_get time_sleep
     logger_info
     logger_warning logger_error call wait_with_timeout emit advance bind ret
     raise try_except
     try_finally get_running_processes set_running_processes
     get_shutdown_requested set_shutdown_requested time_time out_of_fuel
     fst snd trace running_processes shutdown_requested clock].

Ltac run_ops :=
  cbv beta iota zeta delta
    [start_service settle_sleep health_sleep subprocess_Popen requests_get time_sleep
     logger_info
     logger_warning logger_error call wait_with_timeout emit advance bind ret
     raise try_except try_finally get_running_processes set_running_processes
     get_shutdown_requested set_shutdown_requested time_time out_of_fuel];
  cbn [fst snd trace running_processes shutdown_requested clock].

(** *** Shutdown *)

Lemma terminated_app (t1 t2 : list event) :
  terminated (t1 ++ t2) = terminated t1 ++ terminated t2.
Proof.
  induction t1 as [|e t1 IH]; simpl; [reflexivity|].
  destruct e; simpl; rewrite IH; reflexivity.
Qed.

Lemma killed_app (t1 t2 : list event) :
  killed (t1 ++ t2) = killed t1 ++ killed t2.
Proof.
  induction t1 as [|e t1 IH]; simpl; [reflexivity|].
  destruct e; simpl; rewrite IH; reflexivity.
Qed.

Lemma in_order_app_l es : forall t t0, in_order es t -> in_order es (t ++ t0).
Proof.
  induction es as [|e es IH]; intros t t0 H; [exact I|].
  destruct H as (t1 & t2 & -> & H).
  exists t1, (t2 ++ t0). split; [rewrite <- app_assoc; reflexivity|].
  apply IH. exact H.
Qed.

Lemma in_order_app_r es t t0 : in_order es t -> in_order es (t0 ++ t).
Proof.
  destruct es as [|e es]; [intros _; exact I|].
  intros (t1 & t2 & -> & H).
  exists (t0 ++ t1), t2. split; [rewrite <- app_assoc; reflexivity|exact H].
Qed.

Ltac quiet_events := repeat (constructor; [repeat split|]); try constructor.

(** What the loop body of the shutdown does to one entry. *)
Lemma shutdown_one_effect name p s :
  exists t r,
    shutdown_one (name, p) s
    = (r, {| running_processes := running_processes s;
             shutdown_requested := shutdown_requested s;
             clock := clock s;
             trace := trace s ++ t |})
    /\ terminated t = (if alive p then [pid p] else [])
    /\ killed t = (if alive p && grace_expired p then [pid p] else [])
    /\ (r = Returns tt \/ exists msg, r = Raises (OtherException msg))
    /\ (escalation_succeeds p -> r = Returns tt)
    /\ (alive p = true -> In (Terminate (pid p)) t)
    /\ (alive p = true -> grace_expired p = true -> r = Returns tt ->
        in_order [Terminate (pid p); WaitTimeout (pid p) 10;
                  Kill (pid p); Wait (pid p)] t)
    /\ Forall quiet t.
Proof.
  unfold shutdown_one, alive, grace_expired, escalation_succeeds. run.
  destruct (shutdown_status p); cbn.
  - exists [Poll (pid p)], (Returns tt). repeat split; auto; try discriminate.
    quiet_events.
  - destruct (terminate_raises p) as [m|]; cbn.
    + eexists; eexists. split; [rewrite <- !app_assoc; reflexivity|].
      cbn. repeat split; auto; try discriminate. quiet_events.
    + destruct (grace_wait p) as [|m|m]; cbn.
      * eexists; eexists. split; [rewrite <- !app_assoc; reflexivity|].
        cbn. repeat split; auto; try discriminate. quiet_events.
      * destruct (kill_raises p) as [k|]; cbn.
        -- eexists; eexists. split; [rewrite <- !app_assoc; reflexivity|].
           cbn. split; [reflexivity|]. split; [reflexivity|].
           split; [right; eexists; reflexivity|].
           split; [intros [? _]; discriminate|].
           split; [auto|]. split; [discriminate|]. quiet_events.
        -- destruct (final_wait_raises p) as [w|]; cbn.
           ++ eexists; eexists. split; [rewrite <- !app_assoc; reflexivity|].
              cbn. split; [reflexivity|]. split; [reflexivity|].
              split; [right; eexists; reflexivity|].
              split; [intros [_ ?]; discriminate|].
              split; [auto|]. split; [discriminate|]. quiet_events.
           ++ eexists; eexists. split; [rewrite <- !app_assoc; reflexivity|].
              cbn. split; [reflexivity|]. split; [reflexivity|].
              split; [left; reflexivity|]. split; [reflexivity|].
              split; [auto|]. split; [|quiet_events].
              intros _ _ _.
              exists [Poll (pid p); Log INFO ("🛑 Cerrando " ++ name ++ "...")%string], 
                [WaitTimeout (pid p) 10;
                 Log WARNING ("⚠️ Forzando cierre de " ++ name ++ "...")%string;
                 Kill (pid p); Wait (pid p)].
              split; [reflexivity|].
              exists [], [Log WARNING ("⚠️ Forzando cierre de " ++ name ++ "...")%string;
                          Kill (pid p); Wait (pid p)].
              split; [reflexivity|].
              exists [Log WARNING ("⚠️ Forzando cierre de " ++ name ++ "...")%string],
                [Wait (pid p)].
              split; [reflexivity|].
              exists [], []. split; [reflexivity|exact I].
      * eexists; eexists. split; [rewrite <- !app_assoc; reflexivity|].
        cbn. repeat split; auto; try discriminate. quiet_events.
Qed.

(** The loop of the shutdown over a list of entries. *)
Lemma shutdown_loop_effect items :
  forall s,
  exists t r,
    for_each items shutdown_one s
    = (r, {| running_processes := running_processes s;
             shutdown_requested := shutdown_requested s;
             clock := clock s;
             trace := trace s ++ t |})
    /\ (r = Returns tt \/ exists msg, r = Raises (OtherException msg))
    /\ (Forall escalation_succeeds (map snd items) -> r = Returns tt)
    /\ (r = Returns tt ->
        terminated t = map pid (filter alive (map snd items))
        /\ killed t
           = map pid (filter (fun p => alive p && grace_expired p) (map snd items))
        /\ forall name p,
             In (name, p) items -> alive p = true ->
             In (Terminate (pid p)) t
             /\ (grace_expired p = true ->
                 in_order [Terminate (pid p); WaitTimeout (pid p) 10;
                           Kill (pid p); Wait (pid p)] t))
    /\ Forall quiet t.
Proof.
  induction items as [|[name p] items IH]; intro s.
  - exists [], (Returns tt). cbn. rewrite app_nil_r. destruct s; cbn.
    split; [reflexivity|]. split; [left; reflexivity|]. split; [reflexivity|].
    split; [|constructor]. intros _.
    split; [reflexivity|]. split; [reflexivity|]. intros ? ? [].
  - destruct (shutdown_one_effect name p s)
      as (t1 & r1 & E1 & Hterm1 & Hkill1 & Hr1 & Hok1 & Hin1 & Hord1 & Hq1).
    cbn [for_each]. unfold bind. rewrite E1.
    destruct Hr1 as [->|[msg ->]].
    + match goal with
      | |- context [for_each items shutdown_one ?s1] =>
          destruct (IH s1) as (t2 & r2 & E2 & Hr2 & Hok2 & Hret2 & Hq2)
      end.
      cbn [running_processes shutdown_requested clock trace] in E2.
      exists (t1 ++ t2), r2. rewrite E2, <- app_assoc.
      split; [reflexivity|]. split; [exact Hr2|].
      split; [intro H; cbn in H; inversion H; auto|].
      split; [|apply Forall_app; split; assumption].
      intro Hret. destruct (Hret2 Hret) as (Hterm2 & Hkill2 & Hall2).
      cbn [map snd filter].
      split; [rewrite terminated_app, Hterm1, Hterm2; destruct (alive p); reflexivity|].
      split; [rewrite killed_app, Hkill1, Hkill2;
              destruct (alive p && grace_expired p); reflexivity|].
      intros name' p' [Heq|Hin] Halive.
      * inversion Heq; subst name' p'. split.
        -- apply in_or_app. left. auto.
        -- intro Hg. apply in_order_app_l. auto.
      * destruct (Hall2 name' p' Hin Halive) as [Hi Ho]. split.
        -- apply in_or_app. right. exact Hi.
        -- intro Hg. apply in_order_app_r. auto.
    + exists t1, (Raises (OtherException msg)).
      split; [reflexivity|]. split; [right; eexists; reflexivity|].
      split; [intro H; cbn in H; inversion H; subst;
              match goal with Hes : escalation_succeeds p |- _ =>
                specialize (Hok1 Hes); discriminate end|].
      split; [discriminate|exact Hq1].
Qed.

(** The whole of [shutdown_all_services]: when it returns the table is
    empty; when the forced kill of some process fails it raises and the
    table is left as it was. *)
Lemma shutdown_all_effect s :
  exists t r,
    shutdown_all_services s
    = (r, {| running_processes :=
               match r with Returns _ => [] | _ => running_processes s end;
             shutdown_requested := shutdown_requested s;
             clock := clock s;
             trace := trace s ++ t |})
    /\ (r = Returns tt \/ exists msg, r = Raises (OtherException msg))
    /\ (Forall escalation_succeeds (map snd (running_processes s)) -> r = Returns tt)
    /\ (r = Returns tt ->
        terminated t = map pid (filter alive (map snd (running_processes s)))
        /\ killed t
           = map pid (filter (fun p => alive p && grace_expired p)
                        (map snd (running_processes s)))
        /\ forall name p,
             In (name, p) (running_processes s) -> alive p = true ->
             In (Terminate (pid p)) t
             /\ (grace_expired p = true ->
                 in_order [Terminate (pid p); WaitTimeout (pid p) 10;
                           Kill (pid p); Wait (pid p)] t))
    /\ Forall quiet t.
Proof.
  destruct s as [rp flag now tr].
  cbn [running_processes shutdown_requested clock trace].
  unfold shutdown_all_services. run.
  match goal with
  | |- context [for_each ?items shutdown_one ?s1] =>
      destruct (shutdown_loop_effect items s1)
        as (t & r & E & Hr & Hok & Hret & Hq)
  end.
  cbn [running_processes shutdown_requested clock trace] in E.
  rewrite E.
  destruct Hr as [->|[msg ->]].
  - eexists; exists (Returns tt).
    split; [rewrite <- !app_assoc; reflexivity|].
    split; [left; reflexivity|]. split; [reflexivity|].
    split.
    + intros _. destruct (Hret eq_refl) as (Hterm & Hkill & Hall).
      cbn [app terminated killed]. rewrite terminated_app, killed_app, Hterm, Hkill.
      cbn. rewrite !app_nil_r.
      split; [reflexivity|]. split; [reflexivity|].
      intros name p Hin Halive. destruct (Hall name p Hin Halive) as [Hi Ho].
      split.
      * right. apply in_or_app. left. exact Hi.
      * intro Hg.
        exact (in_order_app_r _ _ [Log INFO "🔄 Cerrando todos los servicios..."%string]
                 (in_order_app_l _ _ _ (Ho Hg))).
    + constructor; [repeat split|]. apply Forall_app. split; [exact Hq|quiet_events].
  - eexists; exists (Raises (OtherException msg)).
    split; [rewrite <- !app_assoc; reflexivity|].
    split; [right; eexists; reflexivity|].
    split; [intro H; specialize (Hok H); discriminate|].
    split; [discriminate|].
    constructor; [repeat split|exact Hq].
Qed.

(** C5. Whenever [shutdown_all_services] returns, the table is empty and
    every process found alive was sent a termination request; if its grace
    period ran out ([wait(timeout=10)] raised [TimeoutExpired]) it was then
    killed and waited for.  And it does return whenever no forced kill or
    final wait fails. *)
Theorem C5_shutdown_clears_and_escalates (s : State) :
  (Forall escalation_succeeds (map snd (running_processes s)) ->
   exists s', shutdown_all_services s = (Returns tt, s'))
  /\ (forall s',
        shutdown_all_services s = (Returns tt, s') ->
        running_processes s' = []
        /\ exists t,
             trace s' = trace s ++ t
             /\ forall name p,
                  In (name, p) (running_processes s) -> alive p = true ->
                  In (Terminate (pid p)) t
                  /\ (grace_expired p = true ->
                      in_order [Terminate (pid p); WaitTimeout (pid p) 10;
                                Kill (pid p); Wait (pid p)] t)).
Proof.
  destruct (shutdown_all_effect s) as (t & r & E & Hr & Hok & Hret & Hq).
  split.
  - intro H. rewrite E, (Hok H). eexists. reflexivity.
  - intros s' Hs'. rewrite E in Hs'. injection Hs' as Hr' Hst.
    destruct (Hret Hr') as (_ & _ & Hall).
    subst s' r. cbn [running_processes trace].
    split; [reflexivity|]. exists t. split; [reflexivity|exact Hall].
Qed.

Lemma C5_shutdown_clears_and_escalates_witness :
  exists s',
    shutdown_all_services sample_state = (Returns tt, s')
    /\ running_processes s' = []
    /\ exists t,
         trace s' = trace sample_state ++ t
         /\ In (Terminate 11) t
         /\ In (Terminate 13) t
         /\ in_order [Terminate 13; WaitTimeout 13 10; Kill 13; Wait 13] t.
Proof.
  destruct (C5_shutdown_clears_and_escalates sample_state) as [Hreturns Hafter].
  destruct Hreturns as [s' Hs'].
  - repeat constructor.
  - exists s'. split; [exact Hs'|].
    destruct (Hafter s' Hs') as (Hempty & t & Ht & Hall).
    split; [exact Hempty|]. exists t. split; [exact Ht|].
    split; [apply (Hall "realtime_detector"%string (live_process 11));
            [left; reflexivity|reflexivity]|].
    destruct (Hall "integrated_dashboard"%string (stubborn_process 13)) as [Hi Ho];
      [right; right; left; reflexivity|reflexivity|].
    split; [exact Hi|apply Ho; reflexivity].
Defined.

Example sample_shutdown_signals :
  terminated (trace (snd (shutdown_all_services sample_state))) = [11; 13]
  /\ killed (trace (snd (shutdown_all_services sample_state))) = [13]
  /\ running_processes (snd (shutdown_all_services sample_state)) = [].
Proof. vm_compute. repeat split. Qed.

(** C6. On an empty table [shutdown_all_services] only logs its two
    lines: no poll, no termination request, no kill, and the table stays
    empty.  So a second call right after a first one that returned adds
    nothing but those two lines, and over both calls each process found
    alive got exactly one termination request and at most one kill. *)
Theorem C6_shutdown_idempotent (s : State) :
  (running_processes s = [] ->
   shutdown_all_services s
   = (Returns tt,
      {| running_processes := [];
         shutdown_requested := shutdown_requested s;
         clock := clock s;
         trace := trace s ++ shutdown_banner |}))
  /\ (forall s1,
        shutdown_all_services s = (Returns tt, s1) ->
        exists s2,
          shutdown_all_services s1 = (Returns tt, s2)
          /\ running_processes s2 = []
          /\ trace s2 = trace s1 ++ shutdown_banner
          /\ terminated (trace s2)
             = terminated (trace s)
               ++ map pid (filter alive (map snd (running_processes s)))
          /\ killed (trace s2)
             = killed (trace s)
               ++ map pid (filter (fun p => alive p && grace_expired p)
                             (map snd (running_processes s)))).
Proof.
  assert (Hempty : forall s0,
             running_processes s0 = [] ->
             shutdown_all_services s0
             = (Returns tt,
                {| running_processes := [];
                   shutdown_requested := shutdown_requested s0;
                   clock := clock s0;
                   trace := trace s0 ++ shutdown_banner |})).
  { intros [rp flag now tr] H. cbn in H. subst rp.
    unfold shutdown_all_services, shutdown_banner.
    run. cbn [for_each]. run. rewrite <- app_assoc. reflexivity. }
  split; [apply Hempty|].
  intros s1 Hs1.
  destruct (shutdown_all_effect s) as (t & r & E & Hr & Hok & Hret & Hq).
  rewrite E in Hs1. injection Hs1 as Hr' Hst.
  destruct (Hret Hr') as (Hterm & Hkill & _).
  subst s1 r. eexists. split; [apply Hempty; reflexivity|].
  cbn [running_processes shutdown_requested clock trace].
  split; [reflexivity|]. split; [reflexivity|].
  rewrite !terminated_app, !killed_app, Hterm, Hkill. cbn.
  rewrite !app_nil_r. split; reflexivity.
Qed.

Lemma C6_shutdown_idempotent_witness :
  exists s1 s2,
    shutdown_all_services sample_state = (Returns tt, s1)
    /\ shutdown_all_services s1 = (Returns tt, s2)
    /\ running_processes s2 = []
    /\ trace s2 = trace s1 ++ shutdown_banner
    /\ terminated (trace s2) = [11; 13]
    /\ killed (trace s2) = [13].
Proof.
  destruct (C6_shutdown_idempotent sample_state) as [_ Hagain].
  assert (H1 : shutdown_all_services sample_state
               = (Returns tt, snd (shutdown_all_services sample_state)))
    by (vm_compute; reflexivity).
  destruct (Hagain _ H1) as (s2 & H2 & Hrp & Htr & Hterm & Hkill).
  exists (snd (shutdown_all_services sample_state)), s2.
  split; [exact H1|]. split; [exact H2|]. split; [exact Hrp|].
  split; [exact Htr|]. split; [exact Hterm|exact Hkill].
Defined.

(** *** What each part of the launcher can add to the trace *)

Section Emits.

Variable Q : event -> Prop.
Hypothesis Qquiet : forall e, quiet e -> Q e.

Lemma emits_ret {A} (a : A) : emits Q (ret a).
Proof. intro s. exists []. cbn. rewrite app_nil_r. split; [reflexivity|constructor]. Qed.

Lemma emits_raise {A} (e : exn) : emits Q (@raise A e).
Proof. intro s. exists []. cbn. rewrite app_nil_r. split; [reflexivity|constructor]. Qed.

Lemma emits_out_of_fuel {A} : emits Q (@out_of_fuel A).
Proof. intro s. exists []. cbn. rewrite app_nil_r. split; [reflexivity|constructor]. Qed.

Lemma emits_emit (e : event) : Q e -> emits Q (emit e).
Proof. intros H s. exists [e]. cbn. split; [reflexivity|repeat constructor; exact H]. Qed.

Lemma emits_advance (ms : Z) : emits Q (advance ms).
Proof. intro s. exists []. cbn. rewrite app_nil_r. split; [reflexivity|constructor]. Qed.

Lemma emits_get_running_processes : emits Q get_running_processes.
Proof. intro s. exists []. cbn. rewrite app_nil_r. split; [reflexivity|constructor]. Qed.

Lemma emits_set_running_processes d : emits Q (set_running_processes d).
Proof. intro s. exists []. cbn. rewrite app_nil_r. split; [reflexivity|constructor]. Qed.

Lemma emits_get_shutdown_requested : emits Q get_shutdown_requested.
Proof. intro s. exists []. cbn. rewrite app_nil_r. split; [reflexivity|constructor]. Qed.

Lemma emits_set_shutdown_requested b : emits Q (set_shutdown_requested b).
Proof. intro s. exists []. cbn. rewrite app_nil_r. split; [reflexivity|constructor]. Qed.

Lemma emits_time_time : emits Q time_time.
Proof. intro s. exists []. cbn. rewrite app_nil_r. split; [reflexivity|constructor]. Qed.

Lemma emits_bind {A B} (m : M A) (k : A -> M B) :
  emits Q m -> (forall a, emits Q (k a)) -> emits Q (bind m k).
Proof.
  intros Hm Hk s. unfold bind.
  destruct (Hm s) as (t1 & E1 & F1).
  destruct (m s) as [[a|e|] s1]; cbn [snd] in *.
  - destruct (Hk a s1) as (t2 & E2 & F2).
    exists (t1 ++ t2). rewrite E2, E1, app_assoc.
    split; [reflexivity|apply Forall_app; split; assumption].
  - exists t1. split; assumption.
  - exists t1. split; assumption.
Qed.

Lemma emits_try_except {A} (m : M A) catches (handler : exn -> M A) :
  emits Q m -> (forall e, emits Q (handler e)) -> emits Q (try_except m catches handler).
Proof.
  intros Hm Hh s. unfold try_except.
  destruct (Hm s) as (t1 & E1 & F1).
  destruct (m s) as [[a|e|] s1]; cbn [snd] in *.
  - exists t1. split; assumption.
  - destruct (catches e).
    + destruct (Hh e s1) as (t2 & E2 & F2).
      exists (t1 ++ t2). rewrite E2, E1, app_assoc.
      split; [reflexivity|apply Forall_app; split; assumption].
    + exists t1. split; assumption.
  - exists t1. split; assumption.
Qed.

Lemma emits_try_finally {A} (m : M A) (fin : M unit) :
  emits Q m -> emits Q fin -> emits Q (try_finally m fin).
Proof.
  intros Hm Hf s. unfold try_finally.
  destruct (Hm s) as (t1 & E1 & F1).
  destruct (m s) as [[a|e|] s1]; cbn [snd] in *;
    try (exists t1; split; assumption);
    destruct (Hf s1) as (t2 & E2 & F2);
    destruct (fin s1) as [[u|e'|] s2]; cbn [snd] in *;
    exists (t1 ++ t2); rewrite E2, E1, app_assoc;
    (split; [reflexivity|apply Forall_app; split; assumption]).
Qed.

Lemma emits_for_each {A} (l : list A) (body : A -> M unit) :
  (forall x, emits Q (body x)) -> emits Q (for_each l body).
Proof.
  intro Hb. induction l as [|x l IH]; cbn [for_each].
  - apply emits_ret.
  - apply emits_bind; [apply Hb|intros _; exact IH].
Qed.

Ltac emits_event :=
  first [ assumption
        | apply Qquiet; repeat split; reflexivity
        | solve [auto] ].

Ltac emits_go :=
  repeat first
    [ assumption
    | apply emits_ret | apply emits_raise | apply emits_out_of_fuel
    | apply emits_advance | apply emits_time_time
    | apply emits_get_running_processes | apply emits_set_running_processes
    | apply emits_get_shutdown_requested | apply emits_set_shutdown_requested
    | apply emits_emit; emits_event
    | apply emits_bind; [|intro]
    | apply emits_try_except; [|intro]
    | apply emits_try_finally
    | apply emits_for_each; intro
    | assumption
    | match goal with
      | |- emits _ (match ?x with _ => _ end) => destruct x
      end
    | progress unfold logger_info, logger_warning, logger_error, time_sleep,
        call, wait_with_timeout ].

Lemma emits_shutdown_all_services : emits Q shutdown_all_services.
Proof. unfold shutdown_all_services, shutdown_one. emits_go. Qed.

Lemma emits_signal_handler : emits Q signal_handler.
Proof.
  pose proof emits_shutdown_all_services. unfold signal_handler. emits_go.
Qed.

Lemma emits_check_dependencies env : emits Q (check_dependencies env).
Proof.
  unfold check_dependencies.
  assert (H : forall l, emits Q (check_packages env l)).
  { induction l as [|x l IH]; cbn [check_packages]; emits_go. }
  emits_go. apply H.
Qed.

Lemma emits_check_scripts_exist env registry : emits Q (check_scripts_exist env registry).
Proof.
  unfold check_scripts_exist.
  assert (H : forall l, emits Q (check_scripts env l)).
  { induction l as [|[n c] l IH]; cbn [check_scripts]; emits_go. }
  emits_go. apply H.
Qed.

Lemma emits_health_sleep env seconds :
  Q (Sleep seconds) -> emits Q (health_sleep env seconds).
Proof.
  intro Hsleep. pose proof emits_signal_handler as Hsig. unfold health_sleep. emits_go.
Qed.

Lemma emits_health_loop env config timeout :
  forall fuel url st, emits Q (health_loop env fuel config url st timeout).
Proof.
  assert (Hsleep : emits Q (health_sleep env 2))
    by (apply emits_health_sleep; apply Qquiet; repeat split; reflexivity).
  induction fuel as [|fuel IH]; intros url st; cbn [health_loop];
    unfold requests_get; emits_go. apply IH.
Qed.

Lemma emits_check_service_health env name config timeout :
  emits Q (check_service_health env name config timeout).
Proof.
  unfold check_service_health.
  apply emits_bind; [emits_go|intros _].
  apply emits_bind; [apply emits_time_time|intro st]. apply emits_health_loop.
Qed.

Lemma emits_verify_health env registry :
  forall acc, emits Q (verify_health env registry acc).
Proof.
  pose proof (emits_check_service_health env) as Hc.
  induction registry as [|[n c] l IH]; intro acc; cbn [verify_health].
  - apply emits_ret.
  - apply emits_bind; [apply emits_get_running_processes|intro d].
    destruct (dict_mem n d); [|apply IH].
    apply emits_bind; [apply Hc|intro healthy]. apply IH.
Qed.

Lemma emits_monitor_loop env fuel :
  Q (Sleep 1) -> forall tick, emits Q (monitor_loop env fuel tick).
Proof.
  intro Hsleep. pose proof emits_signal_handler as Hsig.
  induction fuel as [|fuel IH]; intro tick; cbn [monitor_loop];
    unfold monitor_tick, monitor_sleep, monitor_poll, monitor_check,
      del_running_process;
    emits_go; try apply IH.
Qed.

Lemma emits_start_service env name config :
  (forall cmd, Q (PopenCall cmd)) -> emits Q (start_service env name config).
Proof.
  intro Hp. pose proof emits_signal_handler as Hsig.
  unfold start_service, settle_sleep, subprocess_Popen. emits_go.
Qed.

Lemma emits_launch_all env registry :
  (forall cmd, Q (PopenCall cmd)) -> emits Q (launch_all env registry).
Proof.
  intro Hp. pose proof (fun n c => emits_start_service env n c Hp) as Hs.
  induction registry as [|[n c] l IH]; cbn [launch_all]; [emits_go|].
  apply emits_bind; [emits_go|intro stop]. destruct stop; [emits_go|].
  apply emits_bind; [apply Hs|intro r].
  apply emits_bind; [|intros _; exact IH].
  destruct r; emits_go.
Qed.

Lemma emits_health_phase env registry : emits Q (health_phase env registry).
Proof.
  pose proof (emits_verify_health env registry true).
  assert (Hsleep : emits Q (health_sleep env 10))
    by (apply emits_health_sleep; apply Qquiet; repeat split; reflexivity).
  unfold health_phase. emits_go.
Qed.

Lemma emits_startup env registry :
  (forall cmd, Q (PopenCall cmd)) -> emits Q (startup env registry).
Proof.
  intro Hp. unfold startup.
  pose proof (emits_check_dependencies env).
  pose proof (emits_check_scripts_exist env registry).
  pose proof (emits_launch_all env registry Hp).
  pose proof (emits_health_phase env registry).
  emits_go.
Qed.

Lemma emits_with_cleanup body : emits Q body -> emits Q (with_cleanup body).
Proof.
  intro Hb. pose proof emits_shutdown_all_services.
  unfold with_cleanup. emits_go.
Qed.

Lemma emits_return_code returned : emits Q (return_code returned).
Proof. unfold return_code. emits_go. Qed.

Lemma emits_banner env : emits Q (banner env).
Proof. unfold banner. emits_go. Qed.

Lemma emits_stable_phase env registry fuel :
  Q (Sleep 1) -> (forall url, Q (BrowserOpen url)) ->
  emits Q (stable_phase env registry fuel).
Proof.
  intros Hs Hb. pose proof (emits_monitor_loop env fuel Hs O).
  unfold stable_phase, open_main_dashboard. emits_go.
Qed.

Lemma emits_verdict_branch env registry fuel verdict :
  Q (Sleep 1) -> (forall url, Q (BrowserOpen url)) ->
  emits Q (verdict_branch env registry fuel verdict).
Proof.
  intros Hs Hb. pose proof (emits_stable_phase env registry fuel Hs Hb).
  unfold verdict_branch. emits_go.
Qed.

End Emits.

(** *** The signal handler *)

(** Whether the shutdown returns or raises, and what it raises, depends
    on the table alone. *)
Lemma shutdown_one_outcome_state entry s s' :
  fst (shutdown_one entry s) = fst (shutdown_one entry s').
Proof.
  destruct entry as [name p], s as [rp flag now tr], s' as [rp' flag' now' tr'].
  unfold shutdown_one. run.
  destruct (shutdown_status p); [reflexivity|].
  destruct (terminate_raises p); [reflexivity|].
  destruct (grace_wait p); [reflexivity| |reflexivity].
  destruct (kill_raises p); [reflexivity|].
  destruct (final_wait_raises p); reflexivity.
Qed.

Lemma shutdown_loop_outcome_state items :
  forall s s', fst (for_each items shutdown_one s) = fst (for_each items shutdown_one s').
Proof.
  induction items as [|entry items IH]; intros s s'; [reflexivity|].
  cbn [for_each]. unfold bind.
  pose proof (shutdown_one_outcome_state entry s s') as H.
  destruct (shutdown_one entry s) as [[u|e|] s1],
           (shutdown_one entry s') as [[u'|e'|] s1'];
    cbn [fst] in H; try discriminate; [apply IH|exact H|reflexivity].
Qed.

Lemma shutdown_outcome_table s s' :
  running_processes s = running_processes s' ->
  fst (shutdown_all_services s) = fst (shutdown_all_services s').
Proof.
  intro H. destruct s as [rp flag now tr], s' as [rp' flag' now' tr'].
  cbn [running_processes] in H. subst rp'.
  unfold shutdown_all_services. run_ops.
  match goal with
  | |- fst (let (_, _) := for_each rp shutdown_one ?s1 in _)
       = fst (let (_, _) := for_each rp shutdown_one ?s2 in _) =>
      pose proof (shutdown_loop_outcome_state rp s1 s2) as Hloop;
      destruct (for_each rp shutdown_one s1) as [[u|e|] s3],
               (for_each rp shutdown_one s2) as [[u'|e'|] s3']
  end;
    cbn [fst] in Hloop; try discriminate; [reflexivity|exact Hloop|reflexivity].
Qed.

(** What [signal_handler] does, whatever the state.  When the shutdown
    it runs fails, the same shutdown fails again on the same table. *)
Lemma signal_handler_effect s :
  exists t e,
    signal_handler s
    = (Raises e,
       {| running_processes := if is_Exception e then running_processes s else [];
          shutdown_requested := true;
          clock := clock s;
          trace := trace s ++ t |})
    /\ (e = SystemExit 0 \/ exists msg, e = OtherException msg)
    /\ (Forall escalation_succeeds (map snd (running_processes s)) -> e = SystemExit 0)
    /\ (e = SystemExit 0 ->
        terminated t = map pid (filter alive (map snd (running_processes s))))
    /\ Forall quiet t
    /\ (is_Exception e = true ->
        forall s0,
          running_processes s0 = running_processes s ->
          fst (shutdown_all_services s0) = Raises e).
Proof.
  set (s1 := {| running_processes := running_processes s;
                shutdown_requested := true;
                clock := clock s;
                trace := trace s
                         ++ [Log INFO
                               (newline
                                ++ "🛑 Señal de cierre recibida. Cerrando servicios...")%string]
             |}).
  assert (Hrun : signal_handler s
                 = match shutdown_all_services s1 with
                   | (Returns _, s') => (Raises (SystemExit 0), s')
                   | (Raises e, s') => (Raises e, s')
                   | (OutOfFuel, s') => (OutOfFuel, s')
                   end) by reflexivity.
  assert (Hsame : forall s0,
             running_processes s0 = running_processes s ->
             fst (shutdown_all_services s0) = fst (shutdown_all_services s1))
    by (intros s0 H0; apply shutdown_outcome_table; exact H0).
  destruct (shutdown_all_effect s1) as (t & r & E & Hr & Hok & Hret & Hq).
  rewrite Hrun, E. rewrite E in Hsame. subst s1.
  cbn [running_processes shutdown_requested clock trace fst] in *.
  destruct Hr as [->|[msg ->]]; cbn [is_Exception].
  - eexists; exists (SystemExit 0). split; [rewrite <- app_assoc; reflexivity|].
    split; [left; reflexivity|]. split; [reflexivity|].
    split; [intros _; destruct (Hret eq_refl) as (Hterm & _); cbn; exact Hterm|].
    split; [constructor; [repeat split|exact Hq]|discriminate].
  - eexists; exists (OtherException msg). split; [rewrite <- app_assoc; reflexivity|].
    split; [right; eexists; reflexivity|].
    split; [intro H; specialize (Hok H); discriminate|].
    split; [discriminate|].
    split; [constructor; [repeat split|exact Hq]|].
    intros _ s0 H0. apply Hsame. exact H0.
Qed.

(** *** One launch *)

(** What one call of [start_service] leaves behind when no signal arrives
    during its settle sleep: exactly one process creation, with the
    command of [build_cmd]; the globals are untouched. *)
Lemma start_service_effect env name config s :
  settle_signal env (clock s) = false ->
  exists t r,
    start_service env name config s
    = (Returns r,
       {| running_processes := running_processes s;
          shutdown_requested := shutdown_requested s;
          clock := clock s + match spawn env (build_cmd env config) with
                           | inl _ => 0
                           | inr _ => 2000
                           end;
          trace := trace s ++ t |})
    /\ popen_calls t = [build_cmd env config]
    /\ Forall (fun e => is_BrowserOpen e = false /\ is_monitor_sleep e = false) t
    /\ (r = None <->
        match spawn env (build_cmd env config) with
        | inl _ => True
        | inr p => settle_status p <> None
        end).
Proof.
  intro Hquiet. destruct s as [rp flag now tr]. cbn [clock] in Hquiet. run.
  destruct (spawn env (build_cmd env config)) as [msg|p]; cbn.
  - eexists; eexists. split; [rewrite <- !app_assoc, Z.add_0_r; reflexivity|].
    split; [reflexivity|]. split; [repeat constructor|]. tauto.
  - rewrite Hquiet. destruct (settle_status p) eqn:E; cbn;
      (eexists; eexists; split; [rewrite <- !app_assoc; reflexivity|]);
      (split; [reflexivity|]); (split; [repeat constructor|]);
      split; congruence.
Qed.

(** The ways out of one call of [start_service], signal or not: it
    returns with the table as it was, and with the flag as it was unless a
    signal arrived and the shutdown of the handler failed; or it is left
    by the [SystemExit(0)] of the handler.  In every case it has called
    [subprocess.Popen] exactly once. *)
Lemma start_service_cases env name config s :
  exists t r s',
    start_service env name config s = (r, s')
    /\ trace s' = trace s ++ t
    /\ popen_calls t = [build_cmd env config]
    /\ ((exists x,
           r = Returns x
           /\ running_processes s' = running_processes s
           /\ (shutdown_requested s' = shutdown_requested s
               \/ (x = None
                   /\ shutdown_requested s' = true
                   /\ exists e,
                        is_Exception e = true
                        /\ forall s0,
                             running_processes s0 = running_processes s ->
                             fst (shutdown_all_services s0) = Raises e)))
        \/ (r = Raises (SystemExit 0) /\ settle_signal env (clock s) = true)).
Proof.
  destruct (settle_signal env (clock s)) eqn:Hsignal.
  - destruct s as [rp flag now tr]. cbn [clock] in Hsignal.
    cbn [running_processes shutdown_requested clock trace].
    run. destruct (spawn env (build_cmd env config)) as [msg|p];
      cbv beta iota.
    + eexists; eexists; eexists. split; [reflexivity|].
      cbn [trace running_processes shutdown_requested].
      split; [rewrite <- !app_assoc; reflexivity|]. split; [reflexivity|].
      left. eexists. split; [reflexivity|]. split; [reflexivity|]. left. reflexivity.
    + rewrite Hsignal.
      match goal with
      | |- context [signal_handler ?s1] =>
          destruct (signal_handler_effect s1) as (t & e & E & He & _ & _ & Hq & Hfail)
      end.
      rewrite E. cbn [running_processes shutdown_requested clock trace] in *.
      assert (Hp : popen_calls t = []).
      { apply popen_calls_none. eapply Forall_impl; [|exact Hq].
        intros ev Hev. exact (proj1 Hev). }
      destruct He as [->|[msg ->]]; cbn [is_Exception] in *; cbv beta iota.
      * eexists; eexists; eexists. split; [reflexivity|].
        cbn [trace]. split; [rewrite <- !app_assoc; reflexivity|].
        split; [rewrite !popen_calls_app, Hp; reflexivity|].
        right. split; reflexivity.
      * eexists; eexists; eexists. split; [reflexivity|].
        cbn [trace running_processes shutdown_requested].
        split; [rewrite <- !app_assoc; reflexivity|].
        split; [rewrite !popen_calls_app, Hp; reflexivity|].
        left. eexists. split; [reflexivity|]. split; [reflexivity|].
        right. split; [reflexivity|]. split; [reflexivity|].
        exists (OtherException msg). split; [reflexivity|].
        intros s0 H0. apply (Hfail eq_refl). exact H0.
  - destruct (start_service_effect env name config s Hsignal)
      as (t & r & E & Hp & _).
    exists t, (Returns r). eexists. split; [exact E|].
    cbn [trace running_processes shutdown_requested].
    split; [reflexivity|]. split; [exact Hp|].
    left. exists r. split; [reflexivity|]. split; [reflexivity|]. left. reflexivity.
Qed.

Lemma start_service_popen env name config s :
  popen_calls (trace (snd (start_service env name config s)))
  = popen_calls (trace s) ++ [build_cmd env config].
Proof.
  destruct (start_service_cases env name config s) as (t & r & s' & E & Ht & Hp & _).
  rewrite E. cbn [snd]. rewrite Ht, popen_calls_app, Hp. reflexivity.
Qed.

Lemma build_cmd_by_category env config :
  build_cmd env config
  = argv_for_category env (inferred_category (script config))
      (PyStr.replace (PyStr.replace (script config) "/" ".") ".py" EmptyString)
      config.
Proof.
  unfold build_cmd, inferred_category, argv_for_category, module_target.
  destruct (streamlit_test (script config)); [reflexivity|].
  destruct (uvicorn_test (script config)); reflexivity.
Qed.

(** C8. Whatever the spec, [start_service] creates one process whose
    argument list is the one of the category inferred from the script path:
    streamlit run with the script, its port, headless mode and usage
    statistics off for a dashboard; uvicorn with the module target, host
    0.0.0.0, the port and reload for an API; the bare script otherwise.
    For each of the four shipped specs the inferred category is the
    documented one and the module target is the module the path names. *)
Theorem C8_start_service_argv (env : Env) :
  (forall name config s,
      popen_calls (trace (snd (start_service env name config s)))
      = popen_calls (trace s)
        ++ [argv_for_category env (inferred_category (script config))
              (PyStr.replace (PyStr.replace (script config) "/" ".") ".py" EmptyString)
              config])
  /\ Forall
       (fun entry : string * ServiceConfig =>
          forall s,
            popen_calls (trace (snd (start_service env (fst entry) (snd entry) s)))
            = popen_calls (trace s)
              ++ [argv_for_category env (documented_category (fst entry))
                    (module_of_path (script (snd entry))) (snd entry)])
       SERVICES_CONFIG.
Proof.
  split.
  - intros name config s.
    rewrite start_service_popen, build_cmd_by_category. reflexivity.
  - unfold SERVICES_CONFIG.
    repeat (apply Forall_cons;
            [intro s; cbn [fst snd]; rewrite start_service_popen;
             apply (f_equal (fun cmd => popen_calls (trace s) ++ [cmd]));
             vm_compute; reflexivity|]).
    apply Forall_nil.
Qed.

(** *** The health check *)

Lemma probe_time_lower env url k :
  forall t, t + 2000 * Z.of_nat k <= probe_time env url t k.
Proof.
  induction k as [|k IH]; intro t; cbn [probe_time]; [lia|].
  specialize (IH (t + Z.of_N (latency (http_get env url t)) + 2000)). lia.
Qed.

Lemma http_requests_app (t1 t2 : list event) :
  http_requests (t1 ++ t2) = http_requests t1 ++ http_requests t2.
Proof.
  induction t1 as [|e t1 IH]; [reflexivity|].
  destruct e; cbn; rewrite ?IH; reflexivity.
Qed.

Lemma http_requests_none (t : list event) :
  Forall (fun e => http_requests [e] = []) t -> http_requests t = [].
Proof.
  induction 1 as [|e t He _ IH]; [reflexivity|].
  destruct e; cbn in *; try exact IH. discriminate.
Qed.

Lemma requests_are_app url tmo t1 t2 :
  requests_are url tmo t1 -> requests_are url tmo t2 -> requests_are url tmo (t1 ++ t2).
Proof. unfold requests_are. intros H1 H2. apply Forall_app. split; assumption. Qed.

Lemma requests_of_repeat url tmo :
  forall t n, http_requests t = repeat (url, tmo) n -> requests_are url tmo t.
Proof.
  induction t as [|e t IH]; intros n H; [constructor|].
  destruct e; cbn in H; try (constructor; [exact I|exact (IH n H)]).
  destruct n as [|n]; [discriminate|]. cbn in H. injection H as -> -> H.
  constructor; [split; reflexivity|exact (IH n H)].
Qed.

(** The signal handler issues no request. *)
Lemma signal_handler_no_request s :
  exists t, trace (snd (signal_handler s)) = trace s ++ t /\ http_requests t = [].
Proof.
  assert (H : emits (fun e => http_requests [e] = []) signal_handler).
  { unfold signal_handler, shutdown_all_services, shutdown_one.
    repeat first
      [ apply emits_ret | apply emits_raise
      | apply emits_get_running_processes | apply emits_set_running_processes
      | apply emits_set_shutdown_requested
      | apply emits_emit; reflexivity
      | apply emits_bind; [|intro]
      | apply emits_try_except; [|intro]
      | apply emits_for_each; intro
      | match goal with
        | |- emits _ (match ?x with _ => _ end) => destruct x
        end
      | progress unfold logger_info, logger_warning, logger_error, call,
          wait_with_timeout ]. }
  destruct (H s) as (t & Ht & Hq). exists t.
  split; [exact Ht|apply http_requests_none; exact Hq].
Qed.

(** A sleep of the health phase: it passes the time when no signal
    arrives; when one does, the handler ends the computation, with
    [SystemExit(0)] or with the exception of a forced kill that failed. *)
Lemma health_sleep_cases env seconds s :
  (health_signal env (clock s) = false
   /\ health_sleep env seconds s = (Returns tt, after_sleep seconds s))
  \/ (health_signal env (clock s) = true
      /\ exists e t,
           health_sleep env seconds s
           = (Raises e,
              {| running_processes := if is_Exception e then running_processes s else [];
                 shutdown_requested := true;
                 clock := clock s + 1000 * seconds;
                 trace := trace s ++ Sleep seconds :: SignalDelivered :: t |})
           /\ (e = SystemExit 0 \/ exists msg, e = OtherException msg)
           /\ http_requests t = []
           /\ (is_Exception e = true ->
               forall s0,
                 running_processes s0 = running_processes s ->
                 fst (shutdown_all_services s0) = Raises e)).
Proof.
  destruct s as [rp flag now tr]. cbn [clock running_processes trace].
  destruct (health_signal env now) eqn:Hsignal; [right|left]; (split; [reflexivity|]).
  - unfold health_sleep. run_ops. rewrite Hsignal. run_ops.
    match goal with
    | |- context [signal_handler ?s1] =>
        destruct (signal_handler_effect s1) as (t & e & E & He & _ & _ & _ & Hfail);
        destruct (signal_handler_no_request s1) as (t' & Ht' & Hn)
    end.
    rewrite E in Ht'. cbn [snd trace] in Ht'. apply app_inv_head in Ht'. subst t'.
    rewrite E. cbn [running_processes shutdown_requested clock trace] in *.
    exists e, t. split; [rewrite <- !app_assoc; reflexivity|].
    split; [exact He|]. split; [exact Hn|exact Hfail].
  - unfold health_sleep, after_sleep. run_ops. rewrite Hsignal. reflexivity.
Qed.

(** One test of the condition of the health loop. *)
Lemma health_loop_step env fuel config url start_time timeout s :
  health_loop env (S fuel) config url start_time timeout s
  = if clock s - start_time <? 1000 * timeout
    then
      match result (http_get env url (clock s)) with
      | Response code =>
          if code =? 200
          then (Returns true,
                logged (after_probe env url s)
                  [Log INFO ("✅ " ++ description config ++ ": ACTIVO")%string])
          else bind (health_sleep env 2)
                 (fun _ => health_loop env fuel config url start_time timeout)
                 (after_probe env url s)
      | Failure e =>
          if is_RequestException e
          then bind (health_sleep env 2)
                 (fun _ => health_loop env fuel config url start_time timeout)
                 (after_probe env url s)
          else (Raises e, after_probe env url s)
      end
    else (Returns false,
          logged s [Log WARNING ("⚠️ " ++ description config ++ ": No responde en "
                                 ++ url)%string]).
Proof.
  destruct s as [rp flag now tr]. cbn [health_loop].
  cbv beta iota zeta delta
    [requests_get logger_info logger_warning emit advance bind ret raise try_except
     time_time fst snd trace running_processes shutdown_requested clock logged
     after_probe].
  destruct (now - start_time <? 1000 * timeout); [|reflexivity].
  destruct (result (http_get env url now)) as [code|e];
    [destruct (code =? 200)|destruct (is_RequestException e)]; reflexivity.
Qed.

Lemma health_loop_spec env config url start_time timeout :
  transport_failures_only env url ->
  (forall t, health_signal env t = false) ->
  forall fuel s,
    (1 <= fuel)%nat ->
    1000 * timeout - (clock s - start_time) <= 2000 * (Z.of_nat fuel - 1) ->
    exists b,
      fst (health_loop env fuel config url start_time timeout s) = Returns b
      /\ (b = true <->
          exists k,
            probe_time env url (clock s) k - start_time < 1000 * timeout
            /\ result (http_get env url (probe_time env url (clock s) k)) = Response 200).
Proof.
  intros Hbenign Hquiet fuel. induction fuel as [|fuel IH]; intros s Hfuel Hrem; [lia|].
  rewrite health_loop_step.
  pose proof (N2Z.is_nonneg (latency (http_get env url (clock s)))) as Hpos.
  destruct (Z.ltb_spec (clock s - start_time) (1000 * timeout)) as [Hin|Hout].
  - assert (Hnext :
        result (http_get env url (clock s)) <> Response 200 ->
        exists b,
          fst (bind (health_sleep env 2)
                 (fun _ => health_loop env fuel config url start_time timeout)
                 (after_probe env url s)) = Returns b
          /\ (b = true <->
              exists k,
                probe_time env url (clock s) k - start_time < 1000 * timeout
                /\ result (http_get env url (probe_time env url (clock s) k))
                   = Response 200)).
    { intro Hnot.
      destruct (health_sleep_cases env 2 (after_probe env url s)) as [(_ & E)|(Hs & _)];
        [|rewrite Hquiet in Hs; discriminate].
      rewrite (bind_run _ _ _ _ _ E).
      destruct (IH (after_sleep 2 (after_probe env url s))) as (b & Hb & Hiff);
        [cbn [clock after_sleep after_probe] in *; lia
        |cbn [clock after_sleep after_probe] in *; lia|].
      exists b. split; [exact Hb|]. rewrite Hiff.
      cbn [clock after_sleep after_probe].
      replace (clock s + Z.of_N (latency (http_get env url (clock s))) + 1000 * 2)
        with (clock s + Z.of_N (latency (http_get env url (clock s))) + 2000) by lia.
      split.
      - intros (k & Hk). exists (S k). exact Hk.
      - intros ([|k] & Hk1 & Hk2); [contradiction | exists k; split; assumption]. }
    destruct (result (http_get env url (clock s))) as [code|e] eqn:R.
    + destruct (Z.eqb_spec code 200) as [->|Hcode].
      * exists true. split; [reflexivity|]. split; [intros _|reflexivity].
        exists O. cbn [probe_time]. split; [exact Hin|exact R].
      * apply Hnext. congruence.
    + rewrite (Hbenign (clock s) e R). apply Hnext. congruence.
  - exists false. split; [reflexivity|]. split; [discriminate|].
    intros (k & Hk & _). pose proof (probe_time_lower env url k (clock s)). lia.
Qed.

Lemma check_service_health_unfold env name config timeout s :
  check_service_health env name config timeout s
  = health_loop env (health_fuel timeout) config (health_url config) (clock s) timeout
      {| running_processes := running_processes s;
         shutdown_requested := shutdown_requested s;
         clock := clock s;
         trace := trace s
                  ++ [Log INFO ("🏥 Verificando salud de " ++ description config
                                ++ "...")%string] |}.
Proof. reflexivity. Qed.

(** C3, as stated, fails: the timeout window is tested when a probe is
    issued, not when its answer arrives.  With a timeout of one second and
    a service that answers 200 five seconds after each request, no request
    fails and no answer arrives inside the window; yet the check returns
    [True], five seconds after it began. *)
Lemma C3_counterexample :
  transport_failures_only late_answer_env (health_url (shipped "main_dashboard"))
  /\ (forall t,
        Z.of_N (latency (http_get late_answer_env
                           (health_url (shipped "main_dashboard")) t)) = 5000)
  /\ ~ (5000 <= 1000 * 1)
  /\ fst (check_service_health late_answer_env "main_dashboard"
            (shipped "main_dashboard") 1 initial_state) = Returns true
  /\ clock (snd (check_service_health late_answer_env "main_dashboard"
                   (shipped "main_dashboard") 1 initial_state))
     - clock initial_state = 5000.
Proof.
  split; [intros t e H; discriminate H|].
  split; [intro t; reflexivity|].
  split; [lia|].
  split; vm_compute; reflexivity.
Qed.

(** C3, amended. When every failed request is a transport failure and no
    termination signal arrives while the check sleeps, the health check
    returns a boolean (it does not raise and does not run on), and the
    boolean is true exactly when some probe issued inside the timeout
    window is answered with status 200, whenever that answer arrives. *)
Theorem C3_check_service_health_iff
    (env : Env) (name : string) (config : ServiceConfig) (timeout : Z) (s : State)
    (Htransport : transport_failures_only env (health_url config))
    (Hquiet : forall t, health_signal env t = false) :
  exists b,
    fst (check_service_health env name config timeout s) = Returns b
    /\ (b = true <->
        exists k,
          probe_time env (health_url config) (clock s) k - clock s < 1000 * timeout
          /\ result (http_get env (health_url config)
                       (probe_time env (health_url config) (clock s) k))
             = Response 200).
Proof.
  rewrite check_service_health_unfold.
  match goal with
  | |- context [health_loop env ?f config ?u ?st timeout ?s'] =>
      destruct (health_loop_spec env config u st timeout Htransport Hquiet f s')
        as (b & Hb & Hiff)
  end.
  - unfold health_fuel. lia.
  - unfold health_fuel. cbn [clock]. lia.
  - exists b. split; [exact Hb|exact Hiff].
Qed.

Lemma C3_check_service_health_iff_witness :
  exists b,
    fst (check_service_health slow_start_env "main_dashboard"
           (shipped "main_dashboard") 30 initial_state) = Returns b
    /\ (b = true <->
        exists k,
          probe_time slow_start_env (health_url (shipped "main_dashboard"))
            (clock initial_state) k - clock initial_state < 1000 * 30
          /\ result (http_get slow_start_env (health_url (shipped "main_dashboard"))
                       (probe_time slow_start_env
                          (health_url (shipped "main_dashboard"))
                          (clock initial_state) k))
             = Response 200).
Proof.
  apply (C3_check_service_health_iff slow_start_env "main_dashboard"
           (shipped "main_dashboard") 30 initial_state).
  - intros t e. cbn. destruct (t <? 3000); cbn; intro H; inversion H; reflexivity.
  - intro t. reflexivity.
Defined.

Example slow_start_is_healthy :
  fst (check_service_health slow_start_env "main_dashboard"
         (shipped "main_dashboard") 30 initial_state) = Returns true
  /\ clock (snd (check_service_health slow_start_env "main_dashboard"
                   (shipped "main_dashboard") 30 initial_state)) = 4220.
Proof. vm_compute. split; reflexivity. Qed.

Example refusing_is_unhealthy :
  fst (check_service_health refusing_env "main_dashboard"
         (shipped "main_dashboard") 4 initial_state) = Returns false.
Proof. vm_compute. reflexivity. Qed.

(** A signal during a sleep of the check ends it: the handler shuts the
    services of the table down and the check is left by [SystemExit(0)],
    although every request failed with a transport failure. *)
Example signal_ends_health_check :
  transport_failures_only interrupted_probe_env (health_url (shipped "main_dashboard"))
  /\ fst (check_service_health interrupted_probe_env "main_dashboard"
            (shipped "main_dashboard") 30 sample_state)
     = Raises (SystemExit 0)
  /\ running_processes (snd (check_service_health interrupted_probe_env "main_dashboard"
                               (shipped "main_dashboard") 30 sample_state)) = []
  /\ shutdown_requested (snd (check_service_health interrupted_probe_env
                                 "main_dashboard" (shipped "main_dashboard") 30
                                 sample_state)) = true
  /\ http_requests (trace (snd (check_service_health interrupted_probe_env
                                  "main_dashboard" (shipped "main_dashboard") 30
                                  sample_state)))
     = [("http://localhost:8501/health", 5); ("http://localhost:8501/health", 5)]%string
  /\ terminated (trace (snd (check_service_health interrupted_probe_env
                               "main_dashboard" (shipped "main_dashboard") 30
                               sample_state)))
     = [11; 13].
Proof.
  split; [intros t e H; injection H as <-; reflexivity|].
  vm_compute. repeat split.
Qed.

(** The loop of the health check ends, whatever the world does. *)
Lemma health_loop_ends env config url start_time timeout :
  forall fuel s,
    (1 <= fuel)%nat ->
    1000 * timeout - (clock s - start_time) <= 2000 * (Z.of_nat fuel - 1) ->
    fst (health_loop env fuel config url start_time timeout s) <> OutOfFuel.
Proof.
  induction fuel as [|fuel IH]; intros s Hfuel Hrem; [lia|].
  rewrite health_loop_step.
  pose proof (N2Z.is_nonneg (latency (http_get env url (clock s)))) as Hpos.
  assert (Hnext :
      clock s - start_time < 1000 * timeout ->
      fst (bind (health_sleep env 2)
             (fun _ => health_loop env fuel config url start_time timeout)
             (after_probe env url s)) <> OutOfFuel).
  { intro Hin.
    destruct (health_sleep_cases env 2 (after_probe env url s))
      as [(_ & E)|(_ & e & t & E & _)].
    - rewrite (bind_run _ _ _ _ _ E).
      apply IH; cbn [clock after_sleep after_probe]; lia.
    - rewrite (bind_raise _ _ _ _ _ E). discriminate. }
  destruct (Z.ltb_spec (clock s - start_time) (1000 * timeout)) as [Hin|Hout];
    [|discriminate].
  destruct (result (http_get env url (clock s))) as [code|e].
  - destruct (code =? 200); [discriminate|apply Hnext; exact Hin].
  - destruct (is_RequestException e); [apply Hnext; exact Hin|discriminate].
Qed.

(** Every request of the loop goes to its URL with a five-second request
    timeout, and every one is issued inside the timeout window: at its
    moment of the probe schedule, less than [timeout] seconds after the
    check began. *)
Lemma health_loop_probes env config url start_time timeout :
  forall fuel s,
  exists t n,
    trace (snd (health_loop env fuel config url start_time timeout s)) = trace s ++ t
    /\ http_requests t = repeat (url, 5) n
    /\ forall j, (j < n)%nat ->
                 probe_time env url (clock s) j - start_time < 1000 * timeout.
Proof.
  induction fuel as [|fuel IH]; intro s.
  - exists [], O. cbn. rewrite app_nil_r.
    split; [reflexivity|]. split; [reflexivity|]. intros j Hj. lia.
  - rewrite health_loop_step.
    destruct (Z.ltb_spec (clock s - start_time) (1000 * timeout)) as [Hin|Hout].
    + assert (Hone : forall j, (j < 1)%nat ->
                       probe_time env url (clock s) j - start_time < 1000 * timeout).
      { intros j Hj. replace j with O by lia. exact Hin. }
      assert (Hnext :
          exists t n,
            trace (snd (bind (health_sleep env 2)
                          (fun _ => health_loop env fuel config url start_time timeout)
                          (after_probe env url s))) = trace s ++ t
            /\ http_requests t = repeat (url, 5) n
            /\ forall j, (j < n)%nat ->
                         probe_time env url (clock s) j - start_time < 1000 * timeout).
      { destruct (health_sleep_cases env 2 (after_probe env url s))
          as [(_ & E)|(_ & e & t & E & _ & Hn & _)].
        - rewrite (bind_run _ _ _ _ _ E).
          destruct (IH (after_sleep 2 (after_probe env url s))) as (t & n & Ht & Hreq & Hw).
          exists ([HttpGet url 5] ++ [Sleep 2] ++ t), (S n).
          split; [rewrite Ht; cbn [trace after_sleep after_probe];
                  rewrite <- !app_assoc; reflexivity|].
          split; [cbn; rewrite Hreq; reflexivity|].
          intros [|j] Hj; [exact Hin|]. cbn [probe_time].
          cbn [clock after_sleep after_probe] in Hw.
          replace (clock s + Z.of_N (latency (http_get env url (clock s))) + 2000)
            with (clock s + Z.of_N (latency (http_get env url (clock s))) + 1000 * 2)
            by lia.
          apply Hw. lia.
        - rewrite (bind_raise _ _ _ _ _ E). cbn [snd trace after_probe].
          exists ([HttpGet url 5] ++ Sleep 2 :: SignalDelivered :: t), 1%nat.
          split; [rewrite <- !app_assoc; reflexivity|].
          split; [cbn; rewrite Hn; reflexivity|exact Hone]. }
      destruct (result (http_get env url (clock s))) as [code|e].
      * destruct (code =? 200); [|exact Hnext].
        exists [HttpGet url 5; Log INFO ("✅ " ++ description config ++ ": ACTIVO")%string],
          1%nat.
        cbn [snd trace logged after_probe]. rewrite <- !app_assoc.
        split; [reflexivity|]. split; [reflexivity|exact Hone].
      * destruct (is_RequestException e); [exact Hnext|].
        exists [HttpGet url 5], 1%nat. cbn [snd trace after_probe].
        split; [reflexivity|]. split; [reflexivity|exact Hone].
    + eexists; exists O. cbn [snd trace logged].
      split; [reflexivity|]. split; [reflexivity|]. intros j Hj. lia.
Qed.

(** How long the loop of the health check can run when no request takes
    longer than [L] milliseconds and no signal arrives. *)
Lemma health_loop_bound env config url start_time timeout L :
  (forall t, Z.of_N (latency (http_get env url t)) <= L) ->
  (forall t, health_signal env t = false) ->
  forall fuel s,
    clock s <= clock (snd (health_loop env fuel config url start_time timeout s))
    /\ clock (snd (health_loop env fuel config url start_time timeout s))
       <= Z.max (clock s) (start_time + 1000 * timeout + L + 1999).
Proof.
  intros HL Hquiet fuel. induction fuel as [|fuel IH]; intro s; [cbn; lia|].
  rewrite health_loop_step.
  pose proof (HL (clock s)) as HLnow.
  pose proof (N2Z.is_nonneg (latency (http_get env url (clock s)))) as Hpos.
  destruct (Z.ltb_spec (clock s - start_time) (1000 * timeout)) as [Hin|Hout];
    [|cbn [snd clock logged]; lia].
  assert (Hnext :
      clock s <= clock (snd (bind (health_sleep env 2)
                               (fun _ => health_loop env fuel config url start_time
                                           timeout)
                               (after_probe env url s)))
      /\ clock (snd (bind (health_sleep env 2)
                       (fun _ => health_loop env fuel config url start_time timeout)
                       (after_probe env url s)))
         <= Z.max (clock s) (start_time + 1000 * timeout + L + 1999)).
  { destruct (health_sleep_cases env 2 (after_probe env url s)) as [(_ & E)|(Hs & _)];
      [|rewrite Hquiet in Hs; discriminate].
    rewrite (bind_run _ _ _ _ _ E).
    destruct (IH (after_sleep 2 (after_probe env url s))) as (Hlo & Hhi).
    cbn [clock after_sleep after_probe] in Hlo, Hhi. lia. }
  destruct (result (http_get env url (clock s))) as [code|e].
  - destruct (code =? 200); [cbn [snd clock logged after_probe]; lia|exact Hnext].
  - destruct (is_RequestException e); [exact Hnext|cbn [snd clock after_probe]; lia].
Qed.

Lemma check_service_health_requests env name config timeout s :
  exists t,
    trace (snd (check_service_health env name config timeout s)) = trace s ++ t
    /\ requests_are (health_url config) 5 t.
Proof.
  rewrite check_service_health_unfold.
  match goal with
  | |- context [health_loop env ?f config ?u ?st timeout ?s'] =>
      destruct (health_loop_probes env config u st timeout f s') as (t & n & Ht & Hreq & _)
  end.
  cbn [trace] in Ht. eexists. split; [rewrite Ht, <- app_assoc; reflexivity|].
  apply requests_are_app; [repeat constructor|].
  exact (requests_of_repeat _ _ _ _ Hreq).
Qed.

(** C4, as stated, fails.  With a three-second timeout and services that
    refuse every connection without delay, the check probes at 0 s and at
    2 s, sleeps, and returns after 4 s; and every request is given five
    seconds, which is not below the two-second polling interval. *)
Lemma C4_counterexample :
  fst (check_service_health refusing_env "main_dashboard"
         (shipped "main_dashboard") 3 initial_state) = Returns false
  /\ ~ (clock (snd (check_service_health refusing_env "main_dashboard"
                      (shipped "main_dashboard") 3 initial_state))
        - clock initial_state <= 1000 * 3)
  /\ In (HttpGet "http://localhost:8501/health" 5)
        (trace (snd (check_service_health refusing_env "main_dashboard"
                       (shipped "main_dashboard") 3 initial_state)))
  /\ ~ (5 < 2).
Proof.
  split; [vm_compute; reflexivity|].
  split; [vm_compute; intro H; apply H; reflexivity|].
  split; [vm_compute; right; left; reflexivity|].
  lia.
Qed.

(** C4, amended. The health check always ends: it returns or it raises,
    whatever the timeout, the latencies and the signals.  Every request
    it issues goes to the health URL with a five-second request timeout,
    which is not below the two-second polling interval, and is issued
    before the timeout has elapsed: once it has, no probe is started.  But
    the check can overrun the timeout: when no request takes longer than
    [L] milliseconds and no signal arrives while it sleeps, it is over
    less than [L] + 2 seconds after the timeout, for a probe may start
    just before the timeout elapses and the sleep after it is not cut. *)
Theorem C4_check_service_health_bounded
    (env : Env) (name : string) (config : ServiceConfig) (timeout : Z) (s : State) :
  fst (check_service_health env name config timeout s) <> OutOfFuel
  /\ (exists t n,
        trace (snd (check_service_health env name config timeout s)) = trace s ++ t
        /\ http_requests t = repeat (health_url config, 5) n
        /\ forall j, (j < n)%nat ->
                     probe_time env (health_url config) (clock s) j - clock s
                     < 1000 * timeout)
  /\ (forall L,
        (forall t, Z.of_N (latency (http_get env (health_url config) t)) <= L) ->
        (forall t, health_signal env t = false) ->
        0 <= clock (snd (check_service_health env name config timeout s)) - clock s
        /\ clock (snd (check_service_health env name config timeout s)) - clock s
           < Z.max 0 (1000 * timeout) + L + 2000).
Proof.
  rewrite check_service_health_unfold.
  split; [|split].
  - apply health_loop_ends; unfold health_fuel; cbn [clock]; lia.
  - match goal with
    | |- context [health_loop env ?f config ?u ?st timeout ?s'] =>
        destruct (health_loop_probes env config u st timeout f s')
          as (t & n & Ht & Hreq & Hw)
    end.
    cbn [trace clock] in Ht, Hw. eexists; exists n.
    split; [rewrite Ht, <- app_assoc; reflexivity|]. split; [exact Hreq|exact Hw].
  - intros L HL Hquiet.
    pose proof (HL 0) as HL0.
    pose proof (N2Z.is_nonneg (latency (http_get env (health_url config) 0))) as Hpos.
    match goal with
    | |- context [health_loop env ?f config ?u ?st timeout ?s'] =>
        destruct (health_loop_bound env config u st timeout L HL Hquiet f s')
          as (Hlo & Hhi)
    end.
    cbn [clock] in Hlo, Hhi. lia.
Qed.

Lemma C4_check_service_health_bounded_witness :
  0 <= clock (snd (check_service_health slow_start_env "main_dashboard"
                     (shipped "main_dashboard") 30 initial_state))
       - clock initial_state
  /\ clock (snd (check_service_health slow_start_env "main_dashboard"
                   (shipped "main_dashboard") 30 initial_state))
     - clock initial_state
     < Z.max 0 (1000 * 30) + 100 + 2000.
Proof.
  apply (proj2 (proj2 (C4_check_service_health_bounded slow_start_env "main_dashboard"
                         (shipped "main_dashboard") 30 initial_state)) 100).
  - intro t. cbn. destruct (t <? 3000); cbn; lia.
  - intro t. reflexivity.
Defined.

(** *** The two services on port 8002 *)

(** What the signal handler raises depends on the table alone. *)
Lemma signal_handler_outcome_table s s' :
  running_processes s = running_processes s' ->
  fst (signal_handler s) = fst (signal_handler s').
Proof.
  intro H.
  pose (entered := fun s0 : State =>
          {| running_processes := running_processes s0;
             shutdown_requested := true;
             clock := clock s0;
             trace := trace s0
                      ++ [Log INFO
                            (newline
                             ++ "🛑 Señal de cierre recibida. Cerrando servicios...")%string]
          |}).
  assert (Hrun : forall s0,
             fst (signal_handler s0)
             = match fst (shutdown_all_services (entered s0)) with
               | Returns _ => Raises (SystemExit 0)
               | Raises e => Raises e
               | OutOfFuel => OutOfFuel
               end).
  { intro s0.
    assert (E0 : signal_handler s0
                 = match shutdown_all_services (entered s0) with
                   | (Returns _, s1) => (Raises (SystemExit 0), s1)
                   | (Raises e, s1) => (Raises e, s1)
                   | (OutOfFuel, s1) => (OutOfFuel, s1)
                   end) by reflexivity.
    rewrite E0. destruct (shutdown_all_services (entered s0)) as [[u|e|] s1];
      reflexivity. }
  rewrite !Hrun.
  rewrite (shutdown_outcome_table (entered s) (entered s') H). reflexivity.
Qed.

(** A sleep of the health phase started at the same moment over the same
    table ends the same way. *)
Lemma health_sleep_same env seconds s1 s2 :
  clock s1 = clock s2 ->
  running_processes s1 = running_processes s2 ->
  fst (health_sleep env seconds s1) = fst (health_sleep env seconds s2)
  /\ clock (snd (health_sleep env seconds s1)) = clock (snd (health_sleep env seconds s2))
  /\ running_processes (snd (health_sleep env seconds s1))
     = running_processes (snd (health_sleep env seconds s2)).
Proof.
  intros Hc Ht.
  destruct s1 as [rp1 f1 now1 tr1], s2 as [rp2 f2 now2 tr2].
  cbn [clock running_processes] in Hc, Ht. subst now2 rp2.
  unfold health_sleep. run_ops.
  destruct (health_signal env now1); [|repeat split; reflexivity].
  run_ops.
  set (a := {| running_processes := rp1; shutdown_requested := f1;
               clock := now1 + 1000 * seconds;
               trace := (tr1 ++ [Sleep seconds]) ++ [SignalDelivered] |}).
  set (b := {| running_processes := rp1; shutdown_requested := f2;
               clock := now1 + 1000 * seconds;
               trace := (tr2 ++ [Sleep seconds]) ++ [SignalDelivered] |}).
  pose proof (signal_handler_outcome_table a b eq_refl) as Hsame.
  destruct (signal_handler_effect a) as (ta & ea & Ea & _).
  destruct (signal_handler_effect b) as (tb & eb & Eb & _).
  rewrite Ea, Eb in *. cbn [fst] in Hsame. injection Hsame as ->.
  cbn. repeat split; reflexivity.
Qed.

(** The health check reads nothing of a spec but its URL: two specs with
    one URL get the same answer from the same world at the same time. *)
Lemma health_loop_url_only env fuel c1 c2 url start_time timeout :
  forall s1 s2,
    clock s1 = clock s2 ->
    running_processes s1 = running_processes s2 ->
    fst (health_loop env fuel c1 url start_time timeout s1)
    = fst (health_loop env fuel c2 url start_time timeout s2)
    /\ clock (snd (health_loop env fuel c1 url start_time timeout s1))
       = clock (snd (health_loop env fuel c2 url start_time timeout s2)).
Proof.
  induction fuel as [|fuel IH]; intros s1 s2 Hc Ht; [split; [reflexivity|exact Hc]|].
  rewrite !health_loop_step. rewrite Hc.
  destruct (clock s2 - start_time <? 1000 * timeout);
    [|split; [reflexivity|exact Hc]].
  assert (Hprobe : clock (after_probe env url s1) = clock (after_probe env url s2))
    by (cbn [clock after_probe]; rewrite Hc; reflexivity).
  assert (Hnext :
      fst (bind (health_sleep env 2)
             (fun _ => health_loop env fuel c1 url start_time timeout)
             (after_probe env url s1))
      = fst (bind (health_sleep env 2)
               (fun _ => health_loop env fuel c2 url start_time timeout)
               (after_probe env url s2))
      /\ clock (snd (bind (health_sleep env 2)
                       (fun _ => health_loop env fuel c1 url start_time timeout)
                       (after_probe env url s1)))
         = clock (snd (bind (health_sleep env 2)
                         (fun _ => health_loop env fuel c2 url start_time timeout)
                         (after_probe env url s2)))).
  { destruct (health_sleep_same env 2 (after_probe env url s1) (after_probe env url s2))
      as (Hf & Hck & Htb); [exact Hprobe|exact Ht|].
    unfold bind.
    destruct (health_sleep env 2 (after_probe env url s1)) as [[u|e|] s1'],
             (health_sleep env 2 (after_probe env url s2)) as [[u'|e'|] s2'];
      cbn [fst snd] in *; try discriminate.
    - apply IH; assumption.
    - injection Hf as ->. split; [reflexivity|exact Hck].
    - split; [reflexivity|exact Hck]. }
  destruct (result (http_get env url (clock s2))) as [code|e].
  - destruct (code =? 200); [split; [reflexivity|exact Hprobe]|exact Hnext].
  - destruct (is_RequestException e); [exact Hnext|split; [reflexivity|exact Hprobe]].
Qed.

Lemma check_service_health_url_only env n1 n2 c1 c2 timeout s :
  health_url c1 = health_url c2 ->
  fst (check_service_health env n1 c1 timeout s)
  = fst (check_service_health env n2 c2 timeout s).
Proof.
  intro Hu. rewrite !check_service_health_unfold, Hu.
  apply health_loop_url_only; reflexivity.
Qed.

Lemma first_probe_success env name config timeout s :
  0 < timeout ->
  result (http_get env (health_url config) (clock s)) = Response 200 ->
  fst (check_service_health env name config timeout s) = Returns true.
Proof.
  intros Hpos H200. rewrite check_service_health_unfold. unfold health_fuel.
  rewrite health_loop_step. cbn [clock].
  replace (clock s - clock s) with 0 by lia.
  destruct (Z.ltb_spec 0 (1000 * timeout)) as [_|Hn]; [|lia].
  rewrite H200. reflexivity.
Qed.

(** Given any time at all, the health check does probe: the first thing
    it does after its opening line is to request the health URL. *)
Lemma check_service_health_first_request env name config timeout s :
  0 < timeout ->
  exists t,
    trace (snd (check_service_health env name config timeout s)) = trace s ++ t
    /\ In (HttpGet (health_url config) 5) t
    /\ requests_are (health_url config) 5 t.
Proof.
  intro Hpos.
  destruct (check_service_health_requests env name config timeout s) as (t & Ht & Hreq).
  exists t. split; [exact Ht|]. split; [|exact Hreq].
  assert (Hfirst : exists t',
             trace (snd (check_service_health env name config timeout s))
             = trace s
               ++ Log INFO ("🏥 Verificando salud de " ++ description config
                            ++ "...")%string
                  :: HttpGet (health_url config) 5 :: t').
  { rewrite check_service_health_unfold. unfold health_fuel.
    rewrite health_loop_step. cbn [clock].
    replace (clock s - clock s) with 0 by lia.
    destruct (Z.ltb_spec 0 (1000 * timeout)) as [_|Hn]; [|lia].
    match goal with
    | |- context [after_probe env ?u ?s0] =>
        assert (Hnext : forall fuel, exists t',
                   trace (snd (bind (health_sleep env 2)
                                 (fun _ => health_loop env fuel config u (clock s) timeout)
                                 (after_probe env u s0)))
                   = trace s
                     ++ Log INFO ("🏥 Verificando salud de " ++ description config
                                  ++ "...")%string
                        :: HttpGet u 5 :: t')
    end.
    { intro fuel.
      assert (Hem : emits (fun _ => True)
                      (bind (health_sleep env 2)
                         (fun _ => health_loop env fuel config (health_url config)
                                     (clock s) timeout))).
      { apply emits_bind.
        - apply emits_health_sleep; [intros; exact I|exact I].
        - intros _. apply emits_health_loop. intros; exact I. }
      match goal with
      | |- context [after_probe env ?u ?s0] =>
          destruct (Hem (after_probe env u s0)) as (t' & Ht' & _)
      end.
      exists t'. rewrite Ht'. cbn [trace after_probe]. rewrite <- !app_assoc.
      reflexivity. }
    destruct (result (http_get env (health_url config) (clock s))) as [code|e].
    - destruct (code =? 200); [|apply Hnext].
      eexists. cbn [snd trace logged after_probe]. rewrite <- !app_assoc. reflexivity.
    - destruct (is_RequestException e); [apply Hnext|].
      exists []. cbn [snd trace after_probe]. rewrite <- !app_assoc. reflexivity. }
  destruct Hfirst as (t' & Ht'). rewrite Ht in Ht'. apply app_inv_head in Ht'.
  rewrite Ht'. right. left. reflexivity.
Qed.

(** C10. The shipped detector and patterns engine both carry port 8002:
    both uvicorn commands ask for port 8002, both health checks probe
    http://localhost:8002/health (each check given any time at all sends
    its first request there, and sends no request anywhere else), and so
    in every world the two checks started at the same moment give the same
    answer: an answer 200 on that port, from whichever process holds it,
    makes both report healthy. *)
Theorem C10_shared_port_8002 (env : Env) :
  exists detector engine,
    dict_get "realtime_detector" SERVICES_CONFIG = Some detector
    /\ dict_get "aviator_patterns_engine" SERVICES_CONFIG = Some engine
    /\ port detector = 8002 /\ port engine = 8002
    /\ has_duplicate_port SERVICES_CONFIG = true
    /\ firstn 3 (build_cmd env detector) = [sys_executable env; "-m"; "uvicorn"]%string
    /\ firstn 3 (build_cmd env engine) = [sys_executable env; "-m"; "uvicorn"]%string
    /\ firstn 2 (skipn 6 (build_cmd env detector)) = ["--port"; "8002"]%string
    /\ firstn 2 (skipn 6 (build_cmd env engine)) = ["--port"; "8002"]%string
    /\ health_url detector = "http://localhost:8002/health"%string
    /\ health_url engine = "http://localhost:8002/health"%string
    /\ (forall timeout s,
          fst (check_service_health env "realtime_detector" detector timeout s)
          = fst (check_service_health env "aviator_patterns_engine" engine timeout s))
    /\ (forall timeout s,
          0 < timeout ->
          result (http_get env "http://localhost:8002/health" (clock s)) = Response 200 ->
          fst (check_service_health env "realtime_detector" detector timeout s)
          = Returns true
          /\ fst (check_service_health env "aviator_patterns_engine" engine timeout s)
             = Returns true)
    /\ (forall timeout s,
          0 < timeout ->
          exists t1 t2,
            trace (snd (check_service_health env "realtime_detector" detector timeout s))
            = trace s ++ t1
            /\ trace (snd (check_service_health env "aviator_patterns_engine" engine
                             timeout s))
               = trace s ++ t2
            /\ In (HttpGet "http://localhost:8002/health" 5) t1
            /\ In (HttpGet "http://localhost:8002/health" 5) t2
            /\ requests_are "http://localhost:8002/health" 5 t1
            /\ requests_are "http://localhost:8002/health" 5 t2).
Proof.
  eexists; eexists.
  split; [reflexivity|]. split; [reflexivity|].
  repeat (split; [vm_compute; reflexivity|]).
  split; [|split].
  - intros timeout s. apply check_service_health_url_only. reflexivity.
  - intros timeout s Hpos H200.
    split; apply first_probe_success; assumption.
  - intros timeout s Hpos.
    match goal with
    | |- context [check_service_health env "realtime_detector" ?c timeout s] =>
        destruct (check_service_health_first_request env "realtime_detector" c timeout s
                    Hpos) as (t1 & Ht1 & Hin1 & Hreq1)
    end.
    match goal with
    | |- context [check_service_health env "aviator_patterns_engine" ?c timeout s] =>
        destruct (check_service_health_first_request env "aviator_patterns_engine" c
                    timeout s Hpos) as (t2 & Ht2 & Hin2 & Hreq2)
    end.
    exists t1, t2. repeat split; assumption.
Qed.

(** *** The monitor *)

Lemma dict_mem_mid {V} (k : string) (v : V) (kept items : dict V) :
  dict_mem k (kept ++ (k, v) :: items) = true.
Proof.
  unfold dict_mem. rewrite existsb_app. cbn. rewrite String.eqb_refl.
  apply orb_true_r.
Qed.

Lemma dict_remove_absent {V} (k : string) (d : dict V) :
  ~ In k (map fst d) -> dict_remove k d = d.
Proof.
  induction d as [|[k' v] d IH]; intro H; [reflexivity|].
  cbn in *. destruct (String.eqb_spec k' k) as [->|Hne].
  - exfalso. apply H. left. reflexivity.
  - cbn. f_equal. apply IH. intro Hin. apply H. right. exact Hin.
Qed.

Lemma dict_remove_mid {V} (k : string) (v : V) (kept items : dict V) :
  NoDup (map fst (kept ++ (k, v) :: items)) ->
  dict_remove k (kept ++ (k, v) :: items) = kept ++ items.
Proof.
  intro Hnd. rewrite map_app in Hnd. cbn in Hnd.
  apply NoDup_remove_2 in Hnd.
  unfold dict_remove. rewrite filter_app. cbn. rewrite String.eqb_refl. cbn.
  fold (dict_remove k kept). fold (dict_remove k items).
  rewrite !dict_remove_absent; [reflexivity| |];
    intro Hin; apply Hnd; apply in_or_app; [right|left]; exact Hin.
Qed.

(** The liveness check of one tick over the entries still to visit. *)
Lemma monitor_poll_items tick items :
  forall kept flag now tr,
    NoDup (map fst (kept ++ items)) ->
    for_each items (monitor_check tick)
      {| running_processes := kept ++ items;
         shutdown_requested := flag; clock := now; trace := tr |}
    = (Returns tt,
       {| running_processes := kept ++ filter (running_at tick) items;
          shutdown_requested := flag; clock := now;
          trace := tr ++ flat_map (monitor_report tick) items |}).
Proof.
  induction items as [|[name p] items IH]; intros kept flag now tr Hnd.
  - cbn. rewrite !app_nil_r. reflexivity.
  - assert (Hr : running_at tick (name, p)
                 = match monitor_status p tick with None => true | Some _ => false end)
      by reflexivity.
    cbn [for_each flat_map filter]. unfold monitor_report at 1. rewrite !Hr.
    cbn [fst snd]. unfold exit_warning.
    unfold bind at 1, monitor_check at 1, del_running_process.
    run. destruct (monitor_status p tick) as [code|] eqn:E.
    + rewrite dict_mem_mid, (dict_remove_mid _ _ _ _ Hnd).
      rewrite IH.
      * rewrite <- !app_assoc. reflexivity.
      * rewrite map_app in *. cbn in Hnd. apply NoDup_remove_1 in Hnd. exact Hnd.
    + replace (kept ++ (name, p) :: items) with ((kept ++ [(name, p)]) ++ items)
        by (rewrite <- app_assoc; reflexivity).
      rewrite IH.
      * rewrite <- !app_assoc. reflexivity.
      * rewrite <- app_assoc. exact Hnd.
Qed.

Lemma monitor_report_no_launch tick (l : dict Popen) :
  popen_calls (flat_map (monitor_report tick) l) = [].
Proof.
  induction l as [|entry l IH]; [reflexivity|].
  cbn [flat_map]. rewrite popen_calls_app, IH.
  unfold monitor_report, exit_warning. destruct (running_at tick entry); reflexivity.
Qed.

Lemma monitor_loop_no_launch env fuel tick s :
  popen_calls (trace (snd (monitor_loop env fuel tick s))) = popen_calls (trace s).
Proof.
  destruct (emits_monitor_loop (fun e => is_PopenCall e = false)
              (fun e H => proj1 H) env fuel eq_refl tick s) as (t & Ht & Hq).
  rewrite Ht, popen_calls_app, (popen_calls_none t Hq), app_nil_r. reflexivity.
Qed.

(** C9. A monitor tick during which no signal arrives sleeps one second,
    polls every entry of the table, logs a warning naming each service
    whose process has exited and removes exactly those entries; the
    entries still running stay, in their order.  No process is created by
    a tick, nor by the monitor loop as a whole. *)
Theorem C9_monitor_tick (env : Env) (tick : nat) (s : State)
    (Hdict : NoDup (map fst (running_processes s)))
    (Hnosignal : signal_at env tick = false) :
  monitor_tick env tick s
  = (Returns tt,
     {| running_processes := filter (running_at tick) (running_processes s);
        shutdown_requested := shutdown_requested s;
        clock := clock s + 1000;
        trace := trace s
                 ++ Sleep 1 :: flat_map (monitor_report tick) (running_processes s) |})
  /\ (forall name p,
        In (name, p) (running_processes s) ->
        running_at tick (name, p) = false ->
        In (exit_warning name) (flat_map (monitor_report tick) (running_processes s))
        /\ ~ In (name, p) (filter (running_at tick) (running_processes s)))
  /\ (forall entry,
        In entry (running_processes s) ->
        running_at tick entry = true ->
        In entry (filter (running_at tick) (running_processes s)))
  /\ popen_calls (Sleep 1 :: flat_map (monitor_report tick) (running_processes s)) = []
  /\ (forall fuel tick0 s0,
        popen_calls (trace (snd (monitor_loop env fuel tick0 s0)))
        = popen_calls (trace s0)).
Proof.
  split.
  { destruct s as [rp flag now tr]. cbn [running_processes] in Hdict.
    unfold monitor_tick, monitor_sleep, monitor_poll. rewrite Hnosignal. run.
    rewrite (monitor_poll_items tick rp [] flag _ _ Hdict).
    cbn [app]. rewrite <- app_assoc. reflexivity. }
  split.
  { intros name p Hin Hdead. split.
    - apply in_flat_map. exists (name, p). split; [exact Hin|].
      unfold monitor_report. rewrite Hdead. right. left. reflexivity.
    - intro H. apply filter_In in H. destruct H as [_ H]. congruence. }
  split.
  { intros entry Hin Hrun. apply filter_In. split; assumption. }
  split.
  { cbn [popen_calls]. apply monitor_report_no_launch. }
  intros fuel tick0 s0. apply monitor_loop_no_launch.
Qed.

Lemma C9_monitor_tick_witness :
  fst (monitor_tick port_clash_env 0 sample_state) = Returns tt
  /\ map fst (running_processes (snd (monitor_tick port_clash_env 0 sample_state)))
     = ["realtime_detector"; "integrated_dashboard"]%string
  /\ In (exit_warning "main_dashboard")
        (trace (snd (monitor_tick port_clash_env 0 sample_state))).
Proof.
  assert (Hdict : NoDup (map fst (running_processes sample_state))).
  { cbn. repeat constructor; cbn; intuition discriminate. }
  destruct (C9_monitor_tick port_clash_env 0 sample_state Hdict eq_refl)
    as (Hrun & _).
  rewrite Hrun. cbn [fst snd running_processes trace].
  split; [reflexivity|]. split; [reflexivity|].
  cbn. right. right. right. left. reflexivity.
Defined.

(** *** The start of the launcher *)

Ltac use_effect lemma :=
  match goal with
  | |- context [?f ?s1] =>
      match type of s1 with
      | State =>
          let t := fresh "t" in
          let E := fresh "E" in
          let Hq := fresh "Hq" in
          destruct (lemma s1) as (t & E & Hq);
          unfold logged in E;
          cbn [running_processes shutdown_requested clock trace] in E;
          rewrite E
      end
  end.

Lemma quiet_no_launch (t : list event) : Forall quiet t -> popen_calls t = [].
Proof.
  intro Hq. apply popen_calls_none.
  eapply Forall_impl; [|exact Hq]. intros e He. exact (proj1 He).
Qed.

(** The loop of [check_dependencies]: it only logs; it returns whether
    every package was imported, unless an import raised something other
    than [ImportError], which it lets through. *)
Lemma check_packages_effect env packages :
  forall s,
  exists t r,
    check_packages env packages s = (r, logged s t)
    /\ Forall quiet t
    /\ (r = Returns (forallb (importable env) packages)
        \/ (forallb (importable env) packages = false
            /\ exists msg, r = Raises (OtherException msg))).
Proof.
  induction packages as [|package rest IH]; intros [rp flag now tr]; unfold logged.
  - exists [], (Returns true). cbn. rewrite app_nil_r.
    split; [reflexivity|]. split; [constructor|left; reflexivity].
  - cbn [check_packages forallb]. unfold importable at 1 3.
    destruct (import_package env package) as [| |msg]; run.
    + match goal with
      | |- context [check_packages env rest ?s1] =>
          destruct (IH s1) as (t & r & E & Hq & Hr)
      end.
      unfold logged in E. cbn [running_processes shutdown_requested clock trace] in E.
      rewrite E. eexists; exists r. rewrite <- app_assoc.
      split; [reflexivity|]. split; [constructor; [repeat split|exact Hq]|exact Hr].
    + eexists; eexists. rewrite <- !app_assoc. split; [reflexivity|].
      split; [quiet_events|left; reflexivity].
    + exists [], (Raises (OtherException msg)). rewrite app_nil_r.
      split; [reflexivity|]. split; [constructor|].
      right. split; [reflexivity|]. exists msg. reflexivity.
Qed.

Lemma check_dependencies_effect env :
  forall s,
  exists t r,
    check_dependencies env s = (r, logged s t)
    /\ Forall quiet t
    /\ (r = Returns (forallb (importable env) required_packages)
        \/ (forallb (importable env) required_packages = false
            /\ exists msg, r = Raises (OtherException msg))).
Proof.
  intros [rp flag now tr]. unfold check_dependencies, logged. run.
  match goal with
  | |- context [check_packages env required_packages ?s1] =>
      destruct (check_packages_effect env required_packages s1) as (t & r & E & Hq & Hr)
  end.
  unfold logged in E. cbn [running_processes shutdown_requested clock trace] in E.
  rewrite E. destruct Hr as [->|(Hfalse & msg & ->)].
  - destruct (forallb (importable env) required_packages);
      eexists; eexists; rewrite <- ?app_assoc; (split; [reflexivity|]).
    + split; [|left; reflexivity].
      constructor; [repeat split|]. apply Forall_app. split; [exact Hq|quiet_events].
    + split; [|left; reflexivity]. constructor; [repeat split|exact Hq].
  - eexists; eexists. rewrite <- ?app_assoc. split; [reflexivity|].
    split; [constructor; [repeat split|exact Hq]|].
    right. split; [exact Hfalse|]. exists msg. reflexivity.
Qed.

Lemma check_scripts_effect env items :
  forall s,
  exists t,
    check_scripts env items s
    = (Returns (forallb (fun entry => path_exists env (script (snd entry))) items),
       logged s t)
    /\ Forall quiet t.
Proof.
  induction items as [|[name config] rest IH]; intros [rp flag now tr]; unfold logged.
  - exists []. cbn. rewrite app_nil_r. split; [reflexivity|constructor].
  - cbn [check_scripts forallb snd]. destruct (path_exists env (script config)); run.
    + use_effect IH. eexists. rewrite <- app_assoc.
      split; [reflexivity|]. constructor; [repeat split|eassumption].
    + eexists. split; [reflexivity|]. quiet_events.
Qed.

Lemma check_scripts_exist_effect env registry :
  forall s,
  exists t,
    check_scripts_exist env registry s
    = (Returns (forallb (fun entry => path_exists env (script (snd entry))) registry),
       logged s t)
    /\ Forall quiet t.
Proof.
  intros [rp flag now tr]. unfold check_scripts_exist, logged.
  remember (forallb (fun entry => path_exists env (script (snd entry))) registry)
    as b eqn:Hb.
  run.
  match goal with
  | |- context [check_scripts env registry ?s1] =>
      destruct (check_scripts_effect env registry s1) as (t & E & Hq)
  end.
  unfold logged in E. cbn [running_processes shutdown_requested clock trace] in E.
  rewrite <- Hb in E. rewrite E.
  destruct b; eexists; rewrite <- ?app_assoc; (split; [reflexivity|]).
  - constructor; [repeat split|]. apply Forall_app. split; [eassumption|quiet_events].
  - constructor; [repeat split|eassumption].
Qed.

(** The launch loop, entered with no shutdown requested, when no signal
    arrives during a settle sleep: it returns, it has called
    [subprocess.Popen] once for every spec, in registry order, and it
    leaves the flag down. *)
Lemma launch_all_effect env registry :
  (forall t, settle_signal env t = false) ->
  forall s,
    shutdown_requested s = false ->
    exists s' t,
      launch_all env registry s = (Returns tt, s')
      /\ shutdown_requested s' = false
      /\ trace s' = trace s ++ t
      /\ popen_calls t = map (build_cmd env) (map snd registry).
Proof.
  intro Hquiet.
  induction registry as [|[name config] rest IH]; intros s Hflag.
  - exists s, []. cbn. rewrite app_nil_r. repeat split; auto.
  - destruct (start_service_effect env name config s (Hquiet (clock s)))
      as (t1 & r & E1 & Hp1 & _).
    assert (Hstep : exists s1 lvl msg,
               launch_all env ((name, config) :: rest) s = launch_all env rest s1
               /\ shutdown_requested s1 = false
               /\ trace s1 = trace s ++ t1 ++ [Log lvl msg]).
    { cbn [launch_all]. unfold bind at 1, get_shutdown_requested.
      rewrite Hflag. unfold bind at 1 2. rewrite E1.
      destruct r as [p|]; run_ops; rewrite <- app_assoc;
        eexists; eexists; eexists;
        (split; [reflexivity|]); split; [exact Hflag|reflexivity|exact Hflag|reflexivity]. }
    destruct Hstep as (s1 & lvl & msg & Hstep & Hf1 & Ht1). rewrite Hstep.
    destruct (IH s1 Hf1) as (s' & t2 & E2 & Hf2 & Ht2 & Hp2).
    rewrite Ht1 in Ht2.
    exists s'. eexists. split; [exact E2|]. split; [exact Hf2|].
    split; [rewrite Ht2, <- !app_assoc; reflexivity|].
    rewrite !popen_calls_app, Hp1, Hp2. reflexivity.
Qed.

(** What the launch loop does to the table and the flag after one call
    of [start_service] that returned [r]. *)
Lemma launch_all_step env name config rest s r s1 :
  shutdown_requested s = false ->
  start_service env name config s = (Returns r, s1) ->
  exists lvl msg,
    launch_all env ((name, config) :: rest) s
    = launch_all env rest
        {| running_processes :=
             match r with
             | Some p => dict_set name p (running_processes s1)
             | None => running_processes s1
             end;
           shutdown_requested := shutdown_requested s1;
           clock := clock s1;
           trace := trace s1 ++ [Log lvl msg] |}.
Proof.
  intros Hflag E. cbn [launch_all]. unfold bind at 1, get_shutdown_requested.
  rewrite Hflag. unfold bind at 1 2. rewrite E.
  destruct r as [p|]; run_ops; eexists; eexists; reflexivity.
Qed.

Lemma launch_all_stop env name config rest s e s1 :
  shutdown_requested s = false ->
  start_service env name config s = (Raises e, s1) ->
  launch_all env ((name, config) :: rest) s = (Raises e, s1).
Proof.
  intros Hflag E. cbn [launch_all]. unfold bind at 1, get_shutdown_requested.
  rewrite Hflag. unfold bind at 1 2. rewrite E. reflexivity.
Qed.

(** Whatever happens, the launch loop calls [subprocess.Popen] for the
    specs of a prefix of the registry, in order: a flag that is up, or a
    signal during a settle sleep, cuts the loop short. *)
Lemma launch_all_prefix env registry :
  forall s,
  exists n t,
    trace (snd (launch_all env registry s)) = trace s ++ t
    /\ popen_calls t = map (build_cmd env) (map snd (firstn n registry)).
Proof.
  induction registry as [|[name config] rest IH]; intro s.
  - exists O, []. cbn. rewrite app_nil_r. split; reflexivity.
  - destruct (shutdown_requested s) eqn:Hflag.
    + exists O, []. cbn [launch_all]. unfold bind, get_shutdown_requested.
      rewrite Hflag. cbn. rewrite app_nil_r. split; reflexivity.
    + destruct (start_service_cases env name config s)
        as (t1 & r & s1 & E & Ht1 & Hp1 & Hcases).
      destruct Hcases as [(x & -> & _)|[-> _]].
      * destruct (launch_all_step env name config rest s x s1 Hflag E)
          as (lvl & msg & Hstep).
        rewrite Hstep.
        match goal with
        | |- context [launch_all env rest ?s2] => destruct (IH s2) as (n & t2 & Ht2 & Hp2)
        end.
        cbn [trace] in Ht2.
        exists (S n), (t1 ++ [Log lvl msg] ++ t2).
        split; [rewrite Ht2, Ht1, <- !app_assoc; reflexivity|].
        rewrite !popen_calls_app, Hp1, Hp2. reflexivity.
      * rewrite (launch_all_stop env name config rest s _ s1 Hflag E).
        exists 1%nat, t1. split; [exact Ht1|]. rewrite Hp1. reflexivity.
Qed.

(** C7, as stated, fails in its parenthesis: a process that exits at once
    is reported with its captured output only.  Two worlds whose processes
    differ in nothing but the exit code (1 and 2) get the same return
    value and the same log from [start_service]. *)
Lemma C7_counterexample :
  settle_status (crashed_process 400 1 "Traceback (most recent call last)") = Some 1
  /\ settle_status (crashed_process 400 2 "Traceback (most recent call last)") = Some 2
  /\ start_service (crash_env 1) "main_dashboard" (shipped "main_dashboard") initial_state
     = start_service (crash_env 2) "main_dashboard" (shipped "main_dashboard") initial_state.
Proof.
  split; [reflexivity|]. split; [reflexivity|]. vm_compute. reflexivity.
Qed.

(** C7, amended. Entered with no shutdown requested, and when no
    termination signal arrives during a settle sleep, the launch loop
    calls [subprocess.Popen] once for every spec, in registry order,
    whatever became of the earlier launches, and returns.  A process that
    has exited by the settle check makes [start_service] return no handle
    and log its captured standard output and standard error (the exit
    code is not part of the report); so does, with the message of the
    exception, a [subprocess.Popen] that raises.  In every world and from
    every state, signal or not, the specs the loop launches are a prefix
    of the registry, in order. *)
Theorem C7_launch_all_attempts_every_spec
    (env : Env) (registry : dict ServiceConfig) (s : State)
    (Hflag : shutdown_requested s = false)
    (Hquiet : forall t, settle_signal env t = false) :
  (exists s' t,
      launch_all env registry s = (Returns tt, s')
      /\ trace s' = trace s ++ t
      /\ popen_calls t = map (build_cmd env) (map snd registry))
  /\ (forall name config p s0,
        spawn env (build_cmd env config) = inr p ->
        settle_status p <> None ->
        exists t,
          start_service env name config s0
          = (Returns None,
             {| running_processes := running_processes s0;
                shutdown_requested := shutdown_requested s0;
                clock := clock s0 + 2000;
                trace := trace s0 ++ t |})
          /\ In (Log ERROR ("STDOUT: " ++ captured_stdout p)%string) t
          /\ In (Log ERROR ("STDERR: " ++ captured_stderr p)%string) t)
  /\ (forall name config msg s0,
        spawn env (build_cmd env config) = inl msg ->
        exists t,
          start_service env name config s0
          = (Returns None,
             {| running_processes := running_processes s0;
                shutdown_requested := shutdown_requested s0;
                clock := clock s0;
                trace := trace s0 ++ t |})
          /\ In (Log ERROR ("❌ Excepción al iniciar " ++ description config ++ ": "
                            ++ msg)%string) t)
  /\ (forall env0 s0,
        exists n t,
          trace (snd (launch_all env0 registry s0)) = trace s0 ++ t
          /\ popen_calls t = map (build_cmd env0) (map snd (firstn n registry))).
Proof.
  split; [|split; [|split]]; [| | |intros env0 s0; apply launch_all_prefix].
  - destruct (launch_all_effect env registry Hquiet s Hflag) as (s' & t & E & _ & Ht & Hp).
    exists s', t. repeat split; assumption.
  - intros name config p [rp flag now tr] Hspawn Hdead. run. rewrite Hspawn.
    cbv beta iota. rewrite (Hquiet now).
    destruct (settle_status p) as [code|]; [|contradiction]. cbn.
    eexists. split; [rewrite <- !app_assoc; reflexivity|].
    cbn. split; auto 10.
  - intros name config msg [rp flag now tr] Hspawn. run. rewrite Hspawn. cbn.
    eexists. split; [rewrite <- !app_assoc; reflexivity|].
    cbn. auto 10.
Qed.

Lemma C7_launch_all_attempts_every_spec_witness :
  exists s' t,
    launch_all port_clash_env SERVICES_CONFIG initial_state = (Returns tt, s')
    /\ trace s' = trace initial_state ++ t
    /\ popen_calls t = map (build_cmd port_clash_env) (map snd SERVICES_CONFIG).
Proof.
  refine (proj1 (C7_launch_all_attempts_every_spec port_clash_env SERVICES_CONFIG
                   initial_state eq_refl _)).
  intro t. reflexivity.
Defined.

Example port_clash_launches :
  map fst (running_processes (snd (launch_all port_clash_env SERVICES_CONFIG initial_state)))
  = ["realtime_detector"; "main_dashboard"; "integrated_dashboard"]%string
  /\ length (popen_calls (trace (snd (launch_all port_clash_env SERVICES_CONFIG
                                        initial_state)))) = 4%nat.
Proof. vm_compute. split; reflexivity. Qed.

(** A signal during a settle sleep ends the launch phase: the handler
    shuts down the services of the table and leaves by [SystemExit(0)];
    the specs after the one being launched are never launched, and the
    process just created, which is not yet in the table, is not asked to
    stop. *)
Example launch_cut_short_by_signal :
  fst (launch_all interrupted_env SERVICES_CONFIG initial_state) = Raises (SystemExit 0)
  /\ popen_calls (trace (snd (launch_all interrupted_env SERVICES_CONFIG initial_state)))
     = map (build_cmd interrupted_env) (map snd (firstn 2 SERVICES_CONFIG))
  /\ terminated (trace (snd (launch_all interrupted_env SERVICES_CONFIG initial_state)))
     = [601]
  /\ exit_status (fst (main interrupted_env 5 initial_state)) = Some 0.
Proof. vm_compute. repeat split. Qed.

(** *** The whole of [main] *)

Lemma with_cleanup_same_run body body' s s' :
  body s = body' s' -> with_cleanup body s = with_cleanup body' s'.
Proof. intro H. unfold with_cleanup, try_finally, try_except. rewrite H. reflexivity. Qed.

Lemma banner_effect env s :
  exists t, banner env s = (Returns tt, logged s t) /\ Forall quiet t.
Proof.
  destruct s as [rp flag now tr]. unfold banner, logged. run.
  eexists. rewrite <- !app_assoc. split; [reflexivity|quiet_events].
Qed.

(** What is left of [main] once the body of its [try] has returned: the
    shutdown of the [finally] clause, then the return of the value, unless
    the shutdown raises. *)
Lemma cleanup_after_return body x s s1 :
  body s = (Returns x, s1) ->
  exists t,
    trace (snd (bind (with_cleanup body) return_code s)) = trace s1 ++ t
    /\ Forall quiet t
    /\ (fst (bind (with_cleanup body) return_code s)
        = Returns (match x with Some c => c | None => 0 end)
        \/ exists msg,
             fst (bind (with_cleanup body) return_code s) = Raises (OtherException msg)).
Proof.
  intro H.
  destruct (shutdown_all_effect s1) as (t & r & E & Hr & _ & _ & Hq).
  destruct Hr as [->|[msg ->]].
  - assert (Hrun :
        bind (with_cleanup body) return_code s
        = (Returns (match x with Some c => c | None => 0 end),
           {| running_processes := [];
              shutdown_requested := shutdown_requested s1;
              clock := clock s1;
              trace := (trace s1 ++ t)
                       ++ [Log INFO "👋 Aviator System Launcher finalizado"%string] |})).
    { unfold with_cleanup, try_finally, try_except. unfold bind. rewrite H.
      cbv beta iota. rewrite E. destruct x; reflexivity. }
    rewrite Hrun. cbn [fst snd trace].
    exists (t ++ [Log INFO "👋 Aviator System Launcher finalizado"%string]).
    split; [rewrite app_assoc; reflexivity|].
    split; [apply Forall_app; split; [exact Hq|quiet_events]|left; reflexivity].
  - assert (Hrun :
        bind (with_cleanup body) return_code s
        = (Raises (OtherException msg),
           {| running_processes := running_processes s1;
              shutdown_requested := shutdown_requested s1;
              clock := clock s1;
              trace := trace s1 ++ t |})).
    { unfold with_cleanup, try_finally, try_except. unfold bind. rewrite H.
      cbv beta iota. rewrite E. reflexivity. }
    rewrite Hrun. cbn [fst snd trace].
    exists t. split; [reflexivity|]. split; [exact Hq|].
    right. eexists. reflexivity.
Qed.

(** When a prerequisite is missing the start ends at once, having only
    logged: with the early [return 1], or with the exception of an import
    that raised. *)
Lemma startup_preflight_fail env registry s :
  preflight_ok env registry = false ->
  exists t r,
    startup env registry s = (r, logged s t)
    /\ Forall quiet t
    /\ (r = Returns None \/ exists msg, r = Raises (OtherException msg)).
Proof.
  intro Hpre. unfold preflight_ok in Hpre.
  destruct (check_dependencies_effect env s) as (t1 & r1 & E1 & Q1 & Hr1).
  destruct Hr1 as [->|(_ & msg & ->)].
  - unfold startup. rewrite (bind_run _ _ _ _ _ E1).
    destruct (forallb (importable env) required_packages); cbn [negb].
    + destruct (check_scripts_exist_effect env registry (logged s t1)) as (t2 & E2 & Q2).
      rewrite (bind_run _ _ _ _ _ E2).
      destruct (forallb (fun entry => path_exists env (script (snd entry))) registry);
        [discriminate|]. cbn [negb].
      exists (t1 ++ t2 ++ [Log ERROR "❌ Faltan scripts del sistema. Abortando..."%string]),
        (Returns None).
      split; [|split; [|left; reflexivity]].
      * unfold logged, logger_error, emit, bind, ret. cbn. rewrite <- !app_assoc.
        reflexivity.
      * repeat (apply Forall_app; split); try assumption. quiet_events.
    + exists (t1 ++ [Log ERROR "❌ Faltan dependencias críticas. Abortando..."%string]),
        (Returns None).
      split; [|split; [|left; reflexivity]].
      * unfold logged, logger_error, emit, bind, ret. cbn. rewrite <- !app_assoc.
        reflexivity.
      * apply Forall_app; split; [assumption|quiet_events].
  - exists t1, (Raises (OtherException msg)).
    split; [|split; [exact Q1|right; exists msg; reflexivity]].
    unfold startup, bind. rewrite E1. reflexivity.
Qed.

(** When the prerequisites are met, no shutdown is requested and no
    signal arrives during a settle sleep, the start reaches the health
    phase having tried to launch every spec. *)
Lemma startup_after_launch env registry s :
  preflight_ok env registry = true ->
  shutdown_requested s = false ->
  (forall t, settle_signal env t = false) ->
  exists s' t,
    startup env registry s = health_phase env registry s'
    /\ trace s' = trace s ++ t
    /\ popen_calls t = map (build_cmd env) (map snd registry).
Proof.
  intros Hpre Hflag Hquiet. unfold preflight_ok in Hpre.
  apply andb_true_iff in Hpre. destruct Hpre as [Hdeps Hscripts].
  destruct (check_dependencies_effect env s) as (t1 & r1 & E1 & Q1 & Hr1).
  rewrite Hdeps in Hr1. destruct Hr1 as [->|(Hno & _)]; [|discriminate].
  destruct (check_scripts_exist_effect env registry (logged s t1)) as (t2 & E2 & Q2).
  rewrite Hscripts in E2.
  unfold startup. rewrite (bind_run _ _ _ _ _ E1). cbn [negb].
  rewrite (bind_run _ _ _ _ _ E2). cbn [negb].
  unfold logger_info at 1 2. unfold bind at 1 2, emit at 1 2.
  match goal with
  | |- context [bind (launch_all env registry) _ ?s1] =>
      destruct (launch_all_effect env registry Hquiet s1) as (s' & t3 & E3 & _ & Ht3 & Hp3);
        [exact Hflag|];
      rewrite (bind_run _ _ _ _ _ E3)
  end.
  cbn [trace logged] in Ht3.
  exists s'. eexists. split; [reflexivity|].
  split; [rewrite Ht3, <- !app_assoc; reflexivity|].
  rewrite !popen_calls_app, (quiet_no_launch t1 Q1), (quiet_no_launch t2 Q2), Hp3.
  reflexivity.
Qed.

(** What a computation adds after another one creates no process when
    the second one creates none. *)
Lemma bind_trace_tail {A B} (m : M A) (k : A -> M B) s :
  (forall a, emits (fun e => is_PopenCall e = false) (k a)) ->
  exists t,
    trace (snd (bind m k s)) = trace (snd (m s)) ++ t
    /\ popen_calls t = [].
Proof.
  intro Hk. unfold bind. destruct (m s) as [[a|e|] s1]; cbn [snd].
  - destruct (Hk a s1) as (t & Ht & Hq). exists t.
    split; [exact Ht|apply popen_calls_none; exact Hq].
  - exists []. rewrite app_nil_r. split; reflexivity.
  - exists []. rewrite app_nil_r. split; reflexivity.
Qed.

(** Whatever happens, the start of [main] creates the processes of a
    prefix of the registry, in order. *)
Lemma startup_prefix env registry s :
  exists n t,
    trace (snd (startup env registry s)) = trace s ++ t
    /\ popen_calls t = map (build_cmd env) (map snd (firstn n registry)).
Proof.
  assert (Hq : forall e, quiet e -> is_PopenCall e = false)
    by (intros e He; exact (proj1 He)).
  assert (Hnone : forall t,
             trace (snd (startup env registry s)) = trace s ++ t ->
             Forall quiet t ->
             exists n t',
               trace (snd (startup env registry s)) = trace s ++ t'
               /\ popen_calls t' = map (build_cmd env) (map snd (firstn n registry))).
  { intros t Ht Hquiet. exists O, t. split; [exact Ht|].
    rewrite (quiet_no_launch t Hquiet). reflexivity. }
  destruct (preflight_ok env registry) eqn:Hpre.
  - unfold preflight_ok in Hpre.
    apply andb_true_iff in Hpre. destruct Hpre as [Hdeps Hscripts].
    destruct (check_dependencies_effect env s) as (t1 & r1 & E1 & Q1 & Hr1).
    rewrite Hdeps in Hr1. destruct Hr1 as [->|(Hno & _)]; [|discriminate].
    destruct (check_scripts_exist_effect env registry (logged s t1)) as (t2 & E2 & Q2).
    rewrite Hscripts in E2.
    unfold startup. rewrite (bind_run _ _ _ _ _ E1). cbn [negb].
    rewrite (bind_run _ _ _ _ _ E2). cbn [negb].
    unfold logger_info at 1 2. unfold bind at 1 2, emit at 1 2.
    match goal with
    | |- context [bind (launch_all env registry) ?k ?s1] =>
        destruct (launch_all_prefix env registry s1) as (n & t3 & Ht3 & Hp3);
        destruct (bind_trace_tail (launch_all env registry) k s1) as (t4 & Ht4 & Hp4);
          [intros _; apply emits_health_phase; exact Hq|]
    end.
    exists n. eexists.
    split; [rewrite Ht4, Ht3; cbn [trace logged]; rewrite <- !app_assoc; reflexivity|].
    rewrite !popen_calls_app, (quiet_no_launch t1 Q1), (quiet_no_launch t2 Q2), Hp3, Hp4.
    cbn. rewrite app_nil_r. reflexivity.
  - destruct (startup_preflight_fail env registry s Hpre) as (t & r & E & Hquiet & _).
    apply (Hnone t); [rewrite E; reflexivity|exact Hquiet].
Qed.

Lemma main_with_after_banner env registry fuel s s0 :
  banner env s = (Returns tt, s0) ->
  main_with env registry fuel s
  = bind (with_cleanup (main_try env registry fuel)) return_code s0.
Proof.
  intro E. unfold main_with. rewrite (bind_run _ _ _ _ _ E). reflexivity.
Qed.

(** What [main] makes of the outcome of the body of its [try]: the
    [except Exception] clause, then the shutdown of the [finally] clause,
    which either goes through or raises. *)
Lemma main_with_cases env registry fuel s r s1 :
  main_try env registry fuel (snd (banner env s)) = (r, s1) ->
  r <> OutOfFuel ->
  exists t,
    Forall quiet t
    /\ ((main_with env registry fuel s
         = (main_outcome r,
            {| running_processes := [];
               shutdown_requested := shutdown_requested s1;
               clock := clock s1;
               trace := trace s1 ++ critical_log r ++ t ++ [farewell] |})
         /\ terminated t = map pid (filter alive (map snd (running_processes s1)))
         /\ forall s0,
              running_processes s0 = running_processes s1 ->
              fst (shutdown_all_services s0) = Returns tt)
        \/ (exists msg,
              main_with env registry fuel s
              = (Raises (OtherException msg),
                 {| running_processes := running_processes s1;
                    shutdown_requested := shutdown_requested s1;
                    clock := clock s1;
                    trace := trace s1 ++ critical_log r ++ t |})
              /\ ~ Forall escalation_succeeds (map snd (running_processes s1)))).
Proof.
  intros H Hend.
  destruct (banner_effect env s) as (t0 & E0 & Q0).
  rewrite E0 in H. cbn [snd] in H.
  rewrite (main_with_after_banner _ _ _ _ _ E0).
  set (s2 := {| running_processes := running_processes s1;
                shutdown_requested := shutdown_requested s1;
                clock := clock s1;
                trace := trace s1 ++ critical_log r |}).
  assert (Hrun :
      bind (with_cleanup (main_try env registry fuel)) return_code (logged s t0)
      = match shutdown_all_services s2 with
        | (Returns _, s3) =>
            (main_outcome r,
             {| running_processes := running_processes s3;
                shutdown_requested := shutdown_requested s3;
                clock := clock s3;
                trace := trace s3 ++ [farewell] |})
        | (Raises e, s3) => (Raises e, s3)
        | (OutOfFuel, s3) => (OutOfFuel, s3)
        end).
  { assert (Hs1 : forall (X : Type) (k : State -> X),
               k s1 = k {| running_processes := running_processes s1;
                           shutdown_requested := shutdown_requested s1;
                           clock := clock s1;
                           trace := trace s1 ++ [] |}).
    { intros X k. rewrite app_nil_r. destruct s1; reflexivity. }
    subst s2.
    unfold with_cleanup, try_finally, try_except. unfold bind. rewrite H.
    destruct r as [x|e|]; [| |contradiction].
    - cbn [critical_log]. rewrite <- (Hs1 _ shutdown_all_services).
      destruct (shutdown_all_services s1) as [[u|e|] s3]; [|reflexivity|reflexivity].
      destruct x; reflexivity.
    - cbn [critical_log main_outcome]. destruct (is_Exception e).
      + cbv beta iota delta [logger_error logger_info emit ret bind fst snd].
        match goal with
        | |- context [shutdown_all_services ?st] =>
            destruct (shutdown_all_services st) as [[u|e'|] s3]; reflexivity
        end.
      + rewrite <- (Hs1 _ shutdown_all_services).
        destruct (shutdown_all_services s1) as [[u|e'|] s3]; reflexivity. }
  rewrite Hrun.
  assert (Hsame : forall s0,
             running_processes s0 = running_processes s1 ->
             fst (shutdown_all_services s0) = fst (shutdown_all_services s2))
    by (intros s0 H0; apply shutdown_outcome_table; exact H0).
  destruct (shutdown_all_effect s2) as (t & r2 & E & Hr & Hok & Hret & Hq).
  rewrite E. rewrite E in Hsame. subst s2.
  cbn [running_processes shutdown_requested clock trace fst] in *.
  exists t. split; [exact Hq|]. destruct Hr as [->|[msg ->]].
  - left. split; [rewrite <- !app_assoc; reflexivity|].
    destruct (Hret eq_refl) as (Hterm & _). split; [exact Hterm|exact Hsame].
  - right. exists msg. split; [rewrite <- !app_assoc; reflexivity|].
    intro Hesc. specialize (Hok Hesc). discriminate.
Qed.

(** Whatever happens, [main] creates the processes of a prefix of the
    registry, in order, and no other. *)
Lemma main_with_prefix env registry fuel s :
  exists n,
    popen_calls (trace (snd (main_with env registry fuel s)))
    = popen_calls (trace s) ++ map (build_cmd env) (map snd (firstn n registry)).
Proof.
  assert (Hq : forall e, quiet e -> is_PopenCall e = false)
    by (intros e He; exact (proj1 He)).
  destruct (banner_effect env s) as (t0 & E0 & Q0).
  rewrite (main_with_after_banner _ _ _ _ _ E0).
  destruct (startup_prefix env registry (logged s t0)) as (n & t1 & Ht1 & Hp1).
  destruct (bind_trace_tail (startup env registry) (verdict_branch env registry fuel)
              (logged s t0)) as (t2 & Ht2 & Hp2).
  { intro verdict. apply emits_verdict_branch; [exact Hq|reflexivity|reflexivity]. }
  assert (Ht2' : trace (snd (main_try env registry fuel (logged s t0)))
                 = trace (snd (startup env registry (logged s t0))) ++ t2)
    by exact Ht2.
  assert (Hclean : exists t3,
             trace (snd (bind (with_cleanup (main_try env registry fuel)) return_code
                           (logged s t0)))
             = trace (snd (main_try env registry fuel (logged s t0))) ++ t3
             /\ popen_calls t3 = []).
  { pose proof (emits_shutdown_all_services (fun e => is_PopenCall e = false) Hq) as Hsh.
    unfold with_cleanup, try_finally, try_except. unfold bind at 1.
    destruct (main_try env registry fuel (logged s t0)) as [[x|e|] s1]; cbn [snd].
    - unfold bind. destruct (Hsh s1) as (t3 & Ht3 & Hq3).
      destruct (shutdown_all_services s1) as [[u|e|] s2]; cbn [snd] in Ht3.
      + exists (t3 ++ [farewell]). cbn. rewrite Ht3, app_assoc.
        split; [destruct x; reflexivity|].
        rewrite popen_calls_app, (popen_calls_none t3 Hq3). reflexivity.
      + exists t3. cbn. split; [exact Ht3|apply popen_calls_none; exact Hq3].
      + exists t3. cbn. split; [exact Ht3|apply popen_calls_none; exact Hq3].
    - destruct (is_Exception e).
      + cbv beta iota delta [logger_error logger_info emit ret bind fst snd].
        match goal with
        | |- context [shutdown_all_services ?st] =>
            destruct (Hsh st) as (t3 & Ht3 & Hq3);
            destruct (shutdown_all_services st) as [[u|e'|] s2]
        end; cbn [snd trace] in Ht3 |- *.
        * eexists. rewrite Ht3, <- !app_assoc. split; [reflexivity|].
          rewrite !popen_calls_app, (popen_calls_none t3 Hq3). reflexivity.
        * eexists. rewrite Ht3, <- !app_assoc. split; [reflexivity|].
          rewrite !popen_calls_app, (popen_calls_none t3 Hq3). reflexivity.
        * eexists. rewrite Ht3, <- !app_assoc. split; [reflexivity|].
          rewrite !popen_calls_app, (popen_calls_none t3 Hq3). reflexivity.
      + unfold bind. destruct (Hsh s1) as (t3 & Ht3 & Hq3).
        destruct (shutdown_all_services s1) as [[u|e'|] s2]; cbn [snd] in Ht3.
        * exists (t3 ++ [farewell]). cbn. rewrite Ht3, app_assoc.
          split; [reflexivity|].
          rewrite popen_calls_app, (popen_calls_none t3 Hq3). reflexivity.
        * exists t3. cbn. split; [exact Ht3|apply popen_calls_none; exact Hq3].
        * exists t3. cbn. split; [exact Ht3|apply popen_calls_none; exact Hq3].
    - exists []. cbn. rewrite app_nil_r. split; reflexivity. }
  destruct Hclean as (t3 & Ht3 & Hp3).
  exists n. rewrite Ht3, Ht2', Ht1. cbn [trace logged].
  rewrite !popen_calls_app, (quiet_no_launch t0 Q0), Hp1, Hp2, Hp3.
  cbn. rewrite !app_nil_r. reflexivity.
Qed.

(** When a prerequisite is missing, or its check raises, [main] launches
    nothing and exits with 1. *)
Lemma main_with_preflight_fail env registry fuel s :
  preflight_ok env registry = false ->
  popen_calls (trace (snd (main_with env registry fuel s))) = popen_calls (trace s)
  /\ exit_status (fst (main_with env registry fuel s)) = Some 1.
Proof.
  intro Hpre. destruct (banner_effect env s) as (t0 & E0 & Q0).
  destruct (startup_preflight_fail env registry (logged s t0) Hpre)
    as (t & r & E & Hq & Hr).
  assert (Hbody : exists r',
             main_try env registry fuel (snd (banner env s))
             = (r', logged (logged s t0) t)
             /\ main_outcome r' = Returns 1
             /\ r' <> OutOfFuel).
  { rewrite E0. cbn [snd]. unfold main_try.
    destruct Hr as [->|[msg ->]].
    - exists (Returns (Some 1)). rewrite (bind_run _ _ _ _ _ E).
      split; [reflexivity|]. split; [reflexivity|discriminate].
    - exists (Raises (OtherException msg)). unfold bind. rewrite E.
      split; [reflexivity|]. split; [reflexivity|discriminate]. }
  destruct Hbody as (r' & Hbody & Hout & Hend).
  assert (Hlog : popen_calls (critical_log r') = []).
  { destruct r' as [x|e|]; try reflexivity.
    cbn [critical_log]. destruct (is_Exception e); reflexivity. }
  destruct (main_with_cases env registry fuel s r' _ Hbody Hend)
    as (t' & Hq' & [(Erun & _)|(msg & Erun & _)]);
    rewrite Erun; cbn [fst snd trace logged];
    rewrite !popen_calls_app, (quiet_no_launch t0 Q0), (quiet_no_launch t Hq),
      (quiet_no_launch t' Hq'), Hlog, ?app_nil_r.
  - split; [reflexivity|]. rewrite Hout. reflexivity.
  - split; reflexivity.
Qed.

(** C1, as stated, fails: the shipped registry has two specs on port
    8002, and in a world where the prerequisites are met the launcher
    still calls [subprocess.Popen] for all four specs and exits with 0. *)
Lemma C1_counterexample :
  has_duplicate_port SERVICES_CONFIG = true
  /\ popen_calls (trace (snd (main port_clash_env 5 initial_state)))
     = map (build_cmd port_clash_env) (map snd SERVICES_CONFIG)
  /\ length (popen_calls (trace (snd (main port_clash_env 5 initial_state)))) = 4%nat
  /\ exit_status (fst (main port_clash_env 5 initial_state)) = Some 0.
Proof. vm_compute. repeat split. Qed.

(** C1, amended. The launcher validates no ports: nothing below depends
    on the ports of the registry.  In every run it calls
    [subprocess.Popen] for the specs of a prefix of the registry, in
    order, and for nothing else.  The prefix is the whole registry when
    every required package is imported, every script exists, no shutdown
    is requested at entry and no termination signal arrives during a settle
    sleep of the launch phase, whether or not two specs share a port.
    When a prerequisite is missing, or its check raises, it launches
    nothing and exits with 1. *)
Theorem C1_launch_ignores_ports
    (env : Env) (registry : dict ServiceConfig) (fuel : nat) (s : State) :
  (exists n,
     popen_calls (trace (snd (main_with env registry fuel s)))
     = popen_calls (trace s) ++ map (build_cmd env) (map snd (firstn n registry)))
  /\ (preflight_ok env registry = true ->
      shutdown_requested s = false ->
      (forall t, settle_signal env t = false) ->
      popen_calls (trace (snd (main_with env registry fuel s)))
      = popen_calls (trace s) ++ map (build_cmd env) (map snd registry))
  /\ (preflight_ok env registry = false ->
      popen_calls (trace (snd (main_with env registry fuel s))) = popen_calls (trace s)
      /\ exit_status (fst (main_with env registry fuel s)) = Some 1).
Proof.
  split; [apply main_with_prefix|].
  destruct (banner_effect env s) as (t0 & E0 & Q0).
  split.
  - intros Hpre Hflag Hquiet. rewrite (main_with_after_banner _ _ _ _ _ E0).
    destruct (startup_after_launch env registry (logged s t0) Hpre Hflag Hquiet)
      as (s' & t & E & Ht & Hp).
    unfold main_try.
    rewrite (bind_same_run _ _ _ _ _
               (with_cleanup_same_run _ _ _ _ (bind_same_run _ _ _ _ _ E))).
    match goal with
    | |- context [trace (snd (?m s'))] =>
        assert (Hem : emits (fun e => is_PopenCall e = false) m)
    end.
    { assert (Hq : forall e, quiet e -> is_PopenCall e = false)
        by (intros e He; exact (proj1 He)).
      apply emits_bind.
      - apply emits_with_cleanup; [exact Hq|].
        apply emits_bind; [apply emits_health_phase; exact Hq|].
        intro verdict. apply emits_verdict_branch; [exact Hq|reflexivity|reflexivity].
      - intro returned. apply emits_return_code. }
    destruct (Hem s') as (t' & Ht' & Hq').
    rewrite Ht', Ht. cbn [trace logged].
    rewrite !popen_calls_app, Hp, (quiet_no_launch t0 Q0), (popen_calls_none t' Hq').
    rewrite !app_nil_r. reflexivity.
  - apply main_with_preflight_fail.
Qed.

Lemma C1_launch_ignores_ports_witness :
  popen_calls (trace (snd (main_with port_clash_env SERVICES_CONFIG 5 initial_state)))
  = popen_calls (trace initial_state)
    ++ map (build_cmd port_clash_env) (map snd SERVICES_CONFIG).
Proof.
  apply (proj1 (proj2 (C1_launch_ignores_ports port_clash_env SERVICES_CONFIG 5
                         initial_state))).
  - vm_compute. reflexivity.
  - reflexivity.
  - intro t. reflexivity.
Defined.

(** A run entered with the shutdown flag already set passes both
    prerequisite checks and still launches nothing: the guard of the
    launch loop ends it at once. *)
Example flag_set_at_entry_launches_nothing :
  preflight_ok port_clash_env SERVICES_CONFIG = true
  /\ popen_calls
       (trace (snd (main port_clash_env 5
                      {| running_processes := []; shutdown_requested := true;
                         clock := 0; trace := [] |}))) = [].
Proof. vm_compute. split; reflexivity. Qed.

Lemma quiet_not_stable (t : list event) : Forall quiet t -> Forall not_stable t.
Proof.
  intro Hq. eapply Forall_impl; [|exact Hq]. intros e He. exact (proj2 He).
Qed.

(** C2. The code does not do what the claim says.  In a world where the
    patterns engine dies at once (it fails to launch: [start_service]
    returns no process and the error is logged) while the three other
    services come up healthy, the launcher logs that all services are
    active, opens the browser, enters the monitor loop (it sleeps its
    one-second ticks) and, stopped by a signal, exits with 0. *)
Theorem C2_launch_failure_reaches_stable :
  fst (start_service port_clash_env "aviator_patterns_engine"
         (shipped "aviator_patterns_engine") initial_state) = Returns None
  /\ filter is_error_log (trace (snd (main port_clash_env 5 initial_state)))
     = [ Log ERROR "❌ Error al iniciar Motor de Patrones Aviator:";
         Log ERROR "STDOUT: ";
         Log ERROR "STDERR: address already in use";
         Log ERROR "❌ No se pudo iniciar Motor de Patrones Aviator" ]%string
  /\ filter is_all_active_log (trace (snd (main port_clash_env 5 initial_state)))
     = [ Log INFO "✅ TODOS LOS SERVICIOS ESTÁN ACTIVOS" ]%string
  /\ filter is_BrowserOpen (trace (snd (main port_clash_env 5 initial_state)))
     = [ BrowserOpen "http://localhost:8501" ]
  /\ filter is_monitor_sleep (trace (snd (main port_clash_env 5 initial_state)))
     = [ Sleep 1; Sleep 1 ]
  /\ exit_status (fst (main port_clash_env 5 initial_state)) = Some 0.
Proof. vm_compute. repeat split. Qed.

(** What does force the degraded path is the health verdict: whenever
    the start ends with [all_healthy] false (some launched service failed
    its health check) the launcher never opens the browser, never enters
    the monitor loop and exits with 1.  A service that failed to launch is
    not in the table, and the health loop passes over it: it cannot lower
    the verdict. *)
Lemma main_degraded_when_unhealthy
    (env : Env) (registry : dict ServiceConfig) (fuel : nat) (s : State)
    (Hverdict : fst (startup env registry (snd (banner env s))) = Returns (Some false)) :
  exit_status (fst (main_with env registry fuel s)) = Some 1
  /\ (exists t,
        trace (snd (main_with env registry fuel s)) = trace s ++ t
        /\ Forall not_stable t)
  /\ (forall name config rest all_healthy s0,
        dict_mem name (running_processes s0) = false ->
        verify_health env ((name, config) :: rest) all_healthy s0
        = verify_health env rest all_healthy s0).
Proof.
  destruct (banner_effect env s) as (t0 & E0 & Q0).
  rewrite E0 in Hverdict. cbn [snd] in Hverdict.
  rewrite (main_with_after_banner _ _ _ _ _ E0).
  assert (Hq : forall e, quiet e -> not_stable e) by (intros e He; exact (proj2 He)).
  destruct (emits_startup not_stable Hq env registry
              (fun cmd => conj eq_refl eq_refl) (logged s t0)) as (t1 & Ht1 & Q1).
  destruct (startup env registry (logged s t0)) as [r s1] eqn:E.
  cbn [fst snd] in Hverdict, Ht1. subst r.
  assert (Hbody : main_try env registry fuel (logged s t0)
                  = (Returns (Some 1),
                     logged s1 [Log ERROR "❌ Algunos servicios no están respondiendo correctamente"%string])).
  { unfold main_try. rewrite (bind_run _ _ _ _ _ E). reflexivity. }
  destruct (cleanup_after_return _ _ _ _ Hbody) as (t' & Ht' & Hq' & Hr).
  split; [destruct Hr as [Hr|[msg Hr]]; rewrite Hr; reflexivity|].
  split.
  - eexists. split.
    + rewrite Ht'. cbn [trace logged]. rewrite Ht1. cbn [trace logged].
      rewrite <- !app_assoc. reflexivity.
    + repeat (apply Forall_app; split);
        [apply quiet_not_stable; exact Q0 | exact Q1
        | repeat constructor | apply quiet_not_stable; exact Hq'].
  - intros name config rest all_healthy s0 Hmem.
    cbn [verify_health]. unfold bind, get_running_processes. rewrite Hmem. reflexivity.
Qed.

Example refusing_world_is_degraded :
  exit_status (fst (main_with refusing_env SERVICES_CONFIG 5 initial_state)) = Some 1
  /\ exists t,
       trace (snd (main_with refusing_env SERVICES_CONFIG 5 initial_state))
       = trace initial_state ++ t
       /\ Forall not_stable t.
Proof.
  destruct (main_degraded_when_unhealthy refusing_env SERVICES_CONFIG 5 initial_state)
    as (Hexit & Htrace & _).
  - vm_compute. reflexivity.
  - split; [exact Hexit|exact Htrace].
Qed.

(** ** Further properties of the launcher *)

(** *** The prerequisite checks and the single calls *)

Lemma check_packages_all env packages :
  forall s,
    forallb (importable env) packages = true ->
    check_packages env packages s = (Returns true, logged s (map import_ok packages)).
Proof.
  induction packages as [|package rest IH]; intros [rp flag now tr] H.
  - unfold logged. cbn. rewrite app_nil_r. reflexivity.
  - cbn [forallb] in H. apply andb_true_iff in H. destruct H as [Hp Hrest].
    unfold importable in Hp. cbn [check_packages].
    destruct (import_package env package); try discriminate Hp.
    run. rewrite (IH _ Hrest).
    unfold logged, import_ok. cbn. rewrite <- app_assoc. reflexivity.
Qed.

Lemma check_packages_first_missing env pre package post :
  forall s,
    forallb (importable env) pre = true ->
    import_package env package = NotFound ->
    check_packages env (pre ++ package :: post) s
    = (Returns false,
       logged s (map import_ok pre
                 ++ [ Log ERROR ("❌ " ++ package ++ ": NO ENCONTRADO")%string;
                      Log ERROR ("Instala con: pip install " ++ package)%string ])).
Proof.
  induction pre as [|p pre IH]; intros [rp flag now tr] Hpre Hmiss.
  - cbn [app check_packages map]. rewrite Hmiss. unfold logged. run.
    rewrite <- app_assoc. reflexivity.
  - cbn [forallb] in Hpre. apply andb_true_iff in Hpre. destruct Hpre as [Hp Hrest].
    unfold importable in Hp. cbn [app check_packages].
    destruct (import_package env p); try discriminate Hp.
    run. rewrite (IH _ Hrest Hmiss).
    unfold logged, import_ok. cbn. rewrite <- app_assoc. reflexivity.
Qed.

Lemma check_packages_first_crash env pre package post msg :
  forall s,
    forallb (importable env) pre = true ->
    import_package env package = ImportCrashed msg ->
    check_packages env (pre ++ package :: post) s
    = (Raises (OtherException msg), logged s (map import_ok pre)).
Proof.
  induction pre as [|p pre IH]; intros [rp flag now tr] Hpre Hcrash.
  - cbn [app check_packages map]. rewrite Hcrash. unfold logged. run.
    rewrite app_nil_r. reflexivity.
  - cbn [forallb] in Hpre. apply andb_true_iff in Hpre. destruct Hpre as [Hp Hrest].
    unfold importable in Hp. cbn [app check_packages].
    destruct (import_package env p); try discriminate Hp.
    run. rewrite (IH _ Hrest Hcrash).
    unfold logged, import_ok. cbn. rewrite <- app_assoc. reflexivity.
Qed.

(** X1. [check_dependencies] imports the four required packages in order
    and touches nothing but the log.  When every import succeeds it
    reports each package as present and returns [True].  It stops at the
    first import that does not succeed, and nothing is said of the
    packages after it: an [ImportError] is reported with the command that
    installs the package and the check returns [False]; any other
    exception of the import is not caught and leaves the check as it is.
    So whenever the check returns, it returns whether all four packages
    were imported. *)
Theorem check_dependencies_stops_at_first_missing (env : Env) (s : State) :
  (forallb (importable env) required_packages = true ->
   check_dependencies env s
   = (Returns true,
      logged s (Log INFO "🔍 Verificando dependencias del sistema..."%string
                :: map import_ok required_packages
                ++ [Log INFO "✅ Todas las dependencias están instaladas"%string])))
  /\ (forall pre package post,
        required_packages = pre ++ package :: post ->
        forallb (importable env) pre = true ->
        import_package env package = NotFound ->
        check_dependencies env s
        = (Returns false,
           logged s (Log INFO "🔍 Verificando dependencias del sistema..."%string
                     :: map import_ok pre
                     ++ [ Log ERROR ("❌ " ++ package ++ ": NO ENCONTRADO")%string;
                          Log ERROR ("Instala con: pip install " ++ package)%string ])))
  /\ (forall pre package post msg,
        required_packages = pre ++ package :: post ->
        forallb (importable env) pre = true ->
        import_package env package = ImportCrashed msg ->
        check_dependencies env s
        = (Raises (OtherException msg),
           logged s (Log INFO "🔍 Verificando dependencias del sistema..."%string
                     :: map import_ok pre)))
  /\ (forall b s',
        check_dependencies env s = (Returns b, s') ->
        b = forallb (importable env) required_packages).
Proof.
  split; [|split; [|split]].
  - intro Hall. destruct s as [rp flag now tr]. unfold check_dependencies. run.
    rewrite (check_packages_all env _ _ Hall). unfold logged. cbn.
    rewrite <- !app_assoc. reflexivity.
  - intros pre package post Hsplit Hpre Hmiss. destruct s as [rp flag now tr].
    unfold check_dependencies. rewrite Hsplit. run.
    rewrite (check_packages_first_missing env _ _ _ _ Hpre Hmiss). unfold logged. cbn.
    rewrite <- !app_assoc. reflexivity.
  - intros pre package post msg Hsplit Hpre Hcrash. destruct s as [rp flag now tr].
    unfold check_dependencies. rewrite Hsplit. run.
    rewrite (check_packages_first_crash env _ _ _ _ _ Hpre Hcrash). unfold logged. cbn.
    rewrite <- !app_assoc. reflexivity.
  - intros b s' H.
    destruct (check_dependencies_effect env s) as (t & r & E & _ & [->|(_ & msg & ->)]);
      rewrite E in H; [|discriminate].
    injection H as <- _. reflexivity.
Qed.

(** An import that fails while the module is loaded is not taken for a
    missing package: it leaves the check, reaches the [except Exception]
    clause of [main], and the launcher exits with 1 having launched
    nothing. *)
Example import_crash_reaches_main :
  forall env,
    import_package env "streamlit" = ImportCrashed "numpy.dtype size changed" ->
    fst (check_dependencies env initial_state)
    = Raises (OtherException "numpy.dtype size changed")
    /\ popen_calls (trace (snd (main env 5 initial_state))) = []
    /\ exit_status (fst (main env 5 initial_state)) = Some 1.
Proof.
  intros env H.
  assert (Hpre : preflight_ok env SERVICES_CONFIG = false).
  { unfold preflight_ok, importable. cbn [forallb required_packages].
    rewrite H. reflexivity. }
  split.
  - unfold check_dependencies, required_packages. cbn [check_packages].
    rewrite H. reflexivity.
  - exact (main_with_preflight_fail env SERVICES_CONFIG 5 initial_state Hpre).
Qed.

Lemma string_app_assoc (a b c : string) : (a ++ (b ++ c) = (a ++ b) ++ c)%string.
Proof. induction a as [|ch a IH]; cbn; [reflexivity|rewrite IH; reflexivity]. Qed.

Lemma prefix_append (a b : string) : String.prefix a (a ++ b) = true.
Proof.
  induction a as [|ch a IH]; cbn; [destruct b; reflexivity|].
  destruct (ascii_dec ch ch) as [_|Hne]; [exact IH|contradiction].
Qed.

Lemma check_scripts_all env items :
  forall s,
    forallb (fun entry => path_exists env (script (snd entry))) items = true ->
    exists t,
      check_scripts env items s = (Returns true, logged s t)
      /\ map log_level t = repeat (Some INFO) (length items).
Proof.
  induction items as [|[name config] rest IH]; intros [rp flag now tr] H.
  - exists []. unfold logged. cbn. rewrite app_nil_r. split; reflexivity.
  - cbn [forallb snd] in H. apply andb_true_iff in H. destruct H as [Hp Hrest].
    cbn [check_scripts]. rewrite Hp. run.
    match goal with
    | |- context [check_scripts env rest ?s1] =>
        destruct (IH s1 Hrest) as (t & E & Hl)
    end.
    rewrite E. eexists. unfold logged. cbn. rewrite <- app_assoc.
    split; [reflexivity|]. cbn. rewrite Hl. reflexivity.
Qed.

Lemma check_scripts_first_missing env pre name config post :
  forall s,
    forallb (fun entry => path_exists env (script (snd entry))) pre = true ->
    path_exists env (script config) = false ->
    exists t line,
      check_scripts env (pre ++ (name, config) :: post) s
      = (Returns false, logged s (t ++ [Log ERROR line]))
      /\ map log_level t = repeat (Some INFO) (length pre)
      /\ String.prefix ("❌ " ++ description config ++ ": ") line = true.
Proof.
  induction pre as [|[n c] pre IH]; intros [rp flag now tr] Hpre Hmiss.
  - cbn [app check_scripts]. rewrite Hmiss. unfold logged. run.
    exists []. eexists. split; [reflexivity|]. split; [reflexivity|].
    rewrite !string_app_assoc, <- (string_app_assoc _ (path_str env (script config))).
    apply prefix_append.
  - cbn [forallb snd] in Hpre. apply andb_true_iff in Hpre. destruct Hpre as [Hp Hrest].
    cbn [app check_scripts]. rewrite Hp. run.
    match goal with
    | |- context [check_scripts env _ ?s1] =>
        destruct (IH s1 Hrest Hmiss) as (t & line & E & Hl & Hline)
    end.
    rewrite E. eexists (_ :: t). exists line. unfold logged. cbn. rewrite <- app_assoc.
    split; [reflexivity|]. split; [|exact Hline]. cbn. rewrite Hl. reflexivity.
Qed.

(** X2. [check_scripts_exist] returns whether the script of every spec
    exists, and touches nothing but the log.  It stops at the first spec
    whose script is missing: after its opening line it logs one
    confirmation for each spec before that one, then one error that names
    the spec by its description, and nothing about the specs after it. *)
Theorem check_scripts_exist_stops_at_first_missing
    (env : Env) (registry : dict ServiceConfig) (s : State) :
  (exists t,
     check_scripts_exist env registry s
     = (Returns (forallb (fun entry => path_exists env (script (snd entry))) registry),
        logged s t))
  /\ (forallb (fun entry => path_exists env (script (snd entry))) registry = true ->
      exists t,
        check_scripts_exist env registry s = (Returns true, logged s t)
        /\ map log_level t = repeat (Some INFO) (length registry + 2))
  /\ (forall pre name config post,
        registry = pre ++ (name, config) :: post ->
        forallb (fun entry => path_exists env (script (snd entry))) pre = true ->
        path_exists env (script config) = false ->
        exists t line,
          check_scripts_exist env registry s
          = (Returns false, logged s (t ++ [Log ERROR line]))
          /\ map log_level t = repeat (Some INFO) (length pre + 1)
          /\ String.prefix ("❌ " ++ description config ++ ": ") line = true).
Proof.
  split; [|split].
  - destruct (check_scripts_exist_effect env registry s) as (t & E & _).
    exists t. exact E.
  - intro Hall. destruct s as [rp flag now tr]. unfold check_scripts_exist. run.
    match goal with
    | |- context [check_scripts env registry ?s1] =>
        destruct (check_scripts_all env registry s1 Hall) as (t & E & Hl)
    end.
    rewrite E. unfold logged. cbn. eexists. rewrite <- !app_assoc.
    split; [reflexivity|].
    cbn. rewrite map_app, Hl. cbn.
    replace (length registry + 2)%nat with (S (length registry + 1)) by lia.
    cbn. f_equal. rewrite repeat_app. reflexivity.
  - intros pre name config post Hsplit Hpre Hmiss. destruct s as [rp flag now tr].
    unfold check_scripts_exist. rewrite Hsplit. run.
    match goal with
    | |- context [check_scripts env _ ?s1] =>
        destruct (check_scripts_first_missing env pre name config post s1 Hpre Hmiss)
          as (t & line & E & Hl & Hline)
    end.
    rewrite E. unfold logged. cbn.
    exists (Log INFO "📁 Verificando existencia de scripts del sistema..."%string :: t), line.
    rewrite <- !app_assoc. split; [reflexivity|]. split; [|exact Hline].
    cbn. rewrite Hl. replace (length pre + 1)%nat with (S (length pre)) by lia.
    reflexivity.
Qed.

(** X3. [start_service] calls [subprocess.Popen] once.  When that call
    raises, the exception is logged with its message and the call returns
    no handle at once: no sleep, no poll.  When it gives a process and no
    signal arrives during the settle sleep, the call returns two seconds
    later, with the handle exactly when the process was still running at
    the settle check, and it has touched neither the table nor the flag.
    When a signal does arrive during the settle sleep, the handler runs on
    the table as it is, which does not hold the new process: if its
    shutdown goes through, [start_service] is left by [SystemExit(0)] with
    the flag set and the table empty, and only the processes of the table
    were sent a termination request.  That [SystemExit] is the only thing
    [start_service] ever raises. *)
Theorem start_service_raises_only_on_signal
    (env : Env) (name : string) (config : ServiceConfig) (s : State) :
  (settle_signal env (clock s) = false
   \/ (exists msg, spawn env (build_cmd env config) = inl msg) ->
   exists r t,
     start_service env name config s
     = (Returns r,
        {| running_processes := running_processes s;
           shutdown_requested := shutdown_requested s;
           clock := clock s + match spawn env (build_cmd env config) with
                            | inl _ => 0
                            | inr _ => 2000
                            end;
           trace := trace s ++ t |})
     /\ (forall p,
           r = Some p
           <-> spawn env (build_cmd env config) = inr p /\ settle_status p = None)
     /\ (forall msg,
           spawn env (build_cmd env config) = inl msg ->
           t = [ Log INFO ("🚀 Iniciando " ++ description config ++ "...")%string;
                 PopenCall (build_cmd env config);
                 Log ERROR ("❌ Excepción al iniciar " ++ description config ++ ": "
                            ++ msg)%string ]))
  /\ (forall p,
        spawn env (build_cmd env config) = inr p ->
        settle_signal env (clock s) = true ->
        Forall escalation_succeeds (map snd (running_processes s)) ->
        exists t s',
          start_service env name config s = (Raises (SystemExit 0), s')
          /\ running_processes s' = []
          /\ shutdown_requested s' = true
          /\ trace s' = trace s ++ t
          /\ popen_calls t = [build_cmd env config]
          /\ terminated t = map pid (filter alive (map snd (running_processes s))))
  /\ (forall e s',
        start_service env name config s = (Raises e, s') ->
        e = SystemExit 0 /\ settle_signal env (clock s) = true)
  /\ fst (start_service env name config s) <> OutOfFuel.
Proof.
  split; [|split; [|split]].
  - intro Hcase. destruct s as [rp flag now tr].
    cbn [clock running_processes shutdown_requested trace] in *. run.
    destruct (spawn env (build_cmd env config)) as [msg|p]; cbn.
    + eexists; eexists. split; [rewrite <- !app_assoc, Z.add_0_r; reflexivity|].
      split.
      * intro p. split; [discriminate|intros [H _]; discriminate].
      * intros msg' H. injection H as <-. reflexivity.
    + destruct Hcase as [Hquiet|[msg Hmsg]]; [|discriminate]. rewrite Hquiet.
      destruct (settle_status p) as [code|] eqn:E; cbn;
        (eexists; eexists; split; [rewrite <- !app_assoc; reflexivity|]);
        (split; [|discriminate]); intro q; split.
      * discriminate.
      * intros [H1 H2]. injection H1 as <-. congruence.
      * intro H. injection H as <-. split; [reflexivity|exact E].
      * intros [H1 _]. injection H1 as <-. reflexivity.
  - intros p Hspawn Hsignal Hesc. destruct s as [rp flag now tr].
    cbn [clock running_processes shutdown_requested trace] in *. run.
    rewrite Hspawn. cbv beta iota. rewrite Hsignal.
    match goal with
    | |- context [signal_handler ?s1] =>
        destruct (signal_handler_effect s1) as (t & e & E & _ & Hok & Hterm & Hq & _)
    end.
    cbn [running_processes] in Hok, Hterm. rewrite (Hok Hesc) in *.
    rewrite E. cbn [is_Exception running_processes shutdown_requested clock trace].
    cbv beta iota.
    exists ([Log INFO ("🚀 Iniciando " ++ description config ++ "...")%string]
            ++ [PopenCall (build_cmd env config)] ++ [Sleep 2] ++ [SignalDelivered] ++ t).
    eexists. split; [reflexivity|].
    cbn [running_processes shutdown_requested trace].
    split; [reflexivity|]. split; [reflexivity|].
    split; [rewrite <- !app_assoc; reflexivity|].
    split.
    + rewrite !popen_calls_app, (quiet_no_launch t Hq). reflexivity.
    + rewrite !terminated_app. exact (Hterm eq_refl).
  - intros e s' H.
    destruct (start_service_cases env name config s)
      as (t & r & s1 & E & _ & _ & [(x & -> & _)|(-> & Hsignal)]);
      rewrite E in H; [discriminate|].
    injection H as <- _. split; [reflexivity|exact Hsignal].
  - destruct (start_service_cases env name config s)
      as (t & r & s1 & E & _ & _ & [(x & -> & _)|(-> & _)]);
      rewrite E; discriminate.
Qed.

(** What [open_main_dashboard] does, whatever the browser does. *)
Lemma open_main_dashboard_effect env s :
  exists t,
    open_main_dashboard env s = (Returns tt, logged s t)
    /\ filter (fun e => negb (is_log e)) t = [BrowserOpen "http://localhost:8501"]
    /\ match browser_raises env "http://localhost:8501" with
       | None => In (Log INFO "✅ Dashboard abierto en el navegador"%string) t
       | Some msg =>
           In (Log ERROR ("❌ Error abriendo navegador: " ++ msg)%string) t
           /\ In (Log INFO "📱 Accede manualmente a: http://localhost:8501"%string) t
       end.
Proof.
  destruct s as [rp flag now tr]. unfold open_main_dashboard, logged. run.
  destruct (browser_raises env "http://localhost:8501") as [msg|]; cbn;
    eexists; (split; [rewrite <- !app_assoc; reflexivity|]);
    (split; [reflexivity|]); cbn; auto 10.
Qed.


(** X5. [signal_handler] never returns to its caller and always raises
    the flag.  When the shutdown it runs goes through (no forced kill
    fails) it ends in [SystemExit(0)] with the table empty, having sent a
    termination request to every process found alive. *)
Theorem signal_handler_exits (s : State) :
  (forall a s', signal_handler s <> (Returns a, s'))
  /\ fst (signal_handler s) <> OutOfFuel
  /\ shutdown_requested (snd (signal_handler s)) = true
  /\ (Forall escalation_succeeds (map snd (running_processes s)) ->
      exists t,
        signal_handler s
        = (Raises (SystemExit 0),
           {| running_processes := [];
              shutdown_requested := true;
              clock := clock s;
              trace := trace s ++ t |})
        /\ terminated t = map pid (filter alive (map snd (running_processes s)))).
Proof.
  destruct (signal_handler_effect s) as (t & e & E & He & Hok & Hterm & _).
  rewrite E. cbn [fst snd shutdown_requested].
  split; [intros a s' H; discriminate H|].
  split; [discriminate|]. split; [reflexivity|].
  intro Hesc. rewrite (Hok Hesc) in *. cbn [is_Exception].
  exists t. split; [reflexivity|]. apply Hterm. reflexivity.
Qed.

(** *** What each part of the launcher leaves untouched *)

Section Keeps.

Context {B : Type}.
Variable f : State -> B.
Hypothesis f_emit : forall e s, f (snd (emit e s)) = f s.
Hypothesis f_advance : forall ms s, f (snd (advance ms s)) = f s.

Lemma keeps_ret {A} (a : A) : keeps f (ret a).
Proof. intro s. reflexivity. Qed.

Lemma keeps_raise {A} (e : exn) : keeps f (@raise A e).
Proof. intro s. reflexivity. Qed.

Lemma keeps_out_of_fuel {A} : keeps f (@out_of_fuel A).
Proof. intro s. reflexivity. Qed.

Lemma keeps_emit (e : event) : keeps f (emit e).
Proof. intro s. apply f_emit. Qed.

Lemma keeps_advance (ms : Z) : keeps f (advance ms).
Proof. intro s. apply f_advance. Qed.

Lemma keeps_time_time : keeps f time_time.
Proof. intro s. reflexivity. Qed.

Lemma keeps_get_running_processes : keeps f get_running_processes.
Proof. intro s. reflexivity. Qed.

Lemma keeps_get_shutdown_requested : keeps f get_shutdown_requested.
Proof. intro s. reflexivity. Qed.

Lemma keeps_bind {A C} (m : M A) (k : A -> M C) :
  keeps f m -> (forall a, keeps f (k a)) -> keeps f (bind m k).
Proof.
  intros Hm Hk s. unfold bind. specialize (Hm s).
  destruct (m s) as [[a|e|] s1]; cbn [snd] in *; [|exact Hm|exact Hm].
  rewrite (Hk a s1). exact Hm.
Qed.

Lemma keeps_try_except {A} (m : M A) catches (handler : exn -> M A) :
  keeps f m -> (forall e, keeps f (handler e)) -> keeps f (try_except m catches handler).
Proof.
  intros Hm Hh s. unfold try_except. specialize (Hm s).
  destruct (m s) as [[a|e|] s1]; cbn [snd] in *; [exact Hm| |exact Hm].
  destruct (catches e); [|exact Hm]. rewrite (Hh e s1). exact Hm.
Qed.

Lemma keeps_for_each {A} (l : list A) (body : A -> M unit) :
  (forall x, keeps f (body x)) -> keeps f (for_each l body).
Proof.
  intro Hb. induction l as [|x l IH]; cbn [for_each].
  - apply keeps_ret.
  - apply keeps_bind; [apply Hb|intros _; exact IH].
Qed.

Ltac keeps_go :=
  repeat first
    [ assumption
    | apply keeps_ret | apply keeps_raise | apply keeps_out_of_fuel
    | apply keeps_emit | apply keeps_advance | apply keeps_time_time
    | apply keeps_get_running_processes | apply keeps_get_shutdown_requested
    | apply keeps_bind; [|intro]
    | apply keeps_try_except; [|intro]
    | apply keeps_for_each; intro
    | match goal with
      | H : forall d, keeps _ (set_running_processes d) |- _ => apply H
      end
    | match goal with
      | |- keeps _ (match ?x with _ => _ end) => destruct x
      | |- keeps _ (let (_, _) := ?x in _) => destruct x
      end
    | progress unfold logger_info, logger_warning, logger_error, time_sleep,
        call, wait_with_timeout ].

Lemma keeps_check_dependencies env : keeps f (check_dependencies env).
Proof.
  unfold check_dependencies.
  assert (H : forall l, keeps f (check_packages env l)).
  { induction l as [|x l IH]; cbn [check_packages]; keeps_go. }
  keeps_go. apply H.
Qed.

Lemma keeps_check_scripts_exist env registry : keeps f (check_scripts_exist env registry).
Proof.
  unfold check_scripts_exist.
  assert (H : forall l, keeps f (check_scripts env l)).
  { induction l as [|[n c] l IH]; cbn [check_scripts]; keeps_go. }
  keeps_go. apply H.
Qed.

Lemma keeps_open_main_dashboard env : keeps f (open_main_dashboard env).
Proof. unfold open_main_dashboard. keeps_go. Qed.

Lemma keeps_on_return_of_keeps {A} (m : M A) : keeps f m -> keeps_on_return f m.
Proof. intros H s a s' E. specialize (H s). rewrite E in H. exact H. Qed.

Lemma keeps_on_return_bind {A C} (m : M A) (k : A -> M C) :
  keeps_on_return f m -> (forall a, keeps_on_return f (k a)) ->
  keeps_on_return f (bind m k).
Proof.
  intros Hm Hk s c s' E. unfold bind in E.
  destruct (m s) as [[a|e|] s1] eqn:Em; try discriminate.
  rewrite (Hk a s1 c s' E). exact (Hm s a s1 Em).
Qed.

(** A sleep of the health phase returns only when no signal arrived. *)
Lemma keeps_on_return_health_sleep env seconds :
  keeps_on_return f (health_sleep env seconds).
Proof.
  intros s a s' E.
  destruct (health_sleep_cases env seconds s) as [(_ & E1)|(_ & e & t & E1 & _)];
    rewrite E1 in E; [|discriminate].
  injection E as _ <-.
  change (after_sleep seconds s)
    with (snd (advance (1000 * seconds) (snd (emit (Sleep seconds) s)))).
  rewrite f_advance, f_emit. reflexivity.
Qed.

Lemma keeps_on_return_health_loop env config timeout :
  forall fuel url st, keeps_on_return f (health_loop env fuel config url st timeout).
Proof.
  induction fuel as [|fuel IH]; intros url st; cbn [health_loop].
  - apply keeps_on_return_of_keeps. apply keeps_out_of_fuel.
  - apply keeps_on_return_bind; [apply keeps_on_return_of_keeps, keeps_time_time|].
    intro now. destruct (now - st <? 1000 * timeout).
    + apply keeps_on_return_bind.
      * apply keeps_on_return_of_keeps. unfold requests_get. keeps_go.
      * intros [|]; [apply keeps_on_return_of_keeps, keeps_ret|].
        apply keeps_on_return_bind; [apply keeps_on_return_health_sleep|].
        intros _. apply IH.
    + apply keeps_on_return_of_keeps. keeps_go.
Qed.

Lemma keeps_on_return_check_service_health env name config timeout :
  keeps_on_return f (check_service_health env name config timeout).
Proof.
  unfold check_service_health.
  apply keeps_on_return_bind; [apply keeps_on_return_of_keeps; keeps_go|intros _].
  apply keeps_on_return_bind; [apply keeps_on_return_of_keeps, keeps_time_time|].
  intro st. apply keeps_on_return_health_loop.
Qed.

Lemma keeps_on_return_verify_health env registry :
  forall acc, keeps_on_return f (verify_health env registry acc).
Proof.
  induction registry as [|[n c] l IH]; intro acc; cbn [verify_health].
  - apply keeps_on_return_of_keeps, keeps_ret.
  - apply keeps_on_return_bind;
      [apply keeps_on_return_of_keeps, keeps_get_running_processes|].
    intro d. destruct (dict_mem n d); [|apply IH].
    apply keeps_on_return_bind; [apply keeps_on_return_check_service_health|].
    intro healthy. apply IH.
Qed.

Lemma keeps_on_return_health_phase env registry :
  keeps_on_return f (health_phase env registry).
Proof.
  unfold health_phase.
  apply keeps_on_return_bind; [apply keeps_on_return_of_keeps; keeps_go|intros _].
  apply keeps_on_return_bind; [apply keeps_on_return_of_keeps; keeps_go|intros _].
  apply keeps_on_return_bind; [apply keeps_on_return_health_sleep|intros _].
  apply keeps_on_return_bind; [apply keeps_on_return_of_keeps; keeps_go|intros _].
  apply keeps_on_return_bind; [apply keeps_on_return_of_keeps; keeps_go|intros _].
  apply keeps_on_return_bind; [apply keeps_on_return_of_keeps; keeps_go|intros _].
  apply keeps_on_return_bind; [apply keeps_on_return_verify_health|intro verdict].
  apply keeps_on_return_of_keeps, keeps_ret.
Qed.

Lemma keeps_monitor_checks tick items :
  (forall d, keeps f (set_running_processes d)) ->
  keeps f (for_each items (monitor_check tick)).
Proof.
  intro Hset. unfold monitor_check, del_running_process. keeps_go.
Qed.

Lemma keeps_monitor_poll tick :
  (forall d, keeps f (set_running_processes d)) -> keeps f (monitor_poll tick).
Proof.
  intro Hset. unfold monitor_poll, monitor_check, del_running_process. keeps_go.
Qed.

End Keeps.

(** *** The stable branch up to its monitor loop *)

Lemma logger_info_run msg s : logger_info msg s = (Returns tt, logged s [Log INFO msg]).
Proof. reflexivity. Qed.

Lemma for_each_logs {A} (l : list A) (line : A -> string) :
  forall s,
    for_each l (fun x => logger_info (line x)) s
    = (Returns tt, logged s (map (fun x => Log INFO (line x)) l)).
Proof.
  induction l as [|x l IH]; intro s.
  - unfold logged. cbn. rewrite app_nil_r. destruct s; reflexivity.
  - cbn [for_each map]. rewrite (bind_run _ _ _ _ _ (logger_info_run _ _)), IH.
    rewrite logged_logged. reflexivity.
Qed.

Lemma terminated_logs {A} (l : list A) (line : A -> string) :
  terminated (map (fun x => Log INFO (line x)) l) = [].
Proof. induction l as [|x l IH]; [reflexivity|exact IH]. Qed.

(** The stable branch of [main] up to its monitor loop: it only logs
    and opens the browser. *)
Lemma stable_phase_reaches_monitor env registry fuel s :
  exists t,
    stable_phase env registry fuel s
    = try_except (monitor_loop env fuel O) is_KeyboardInterrupt
        (fun _ => logger_info (newline ++ "🛑 Interrupción de teclado recibida"))
        (logged s t)
    /\ In (Log INFO "✅ TODOS LOS SERVICIOS ESTÁN ACTIVOS"%string) t
    /\ In (BrowserOpen "http://localhost:8501") t
    /\ terminated t = [].
Proof.
  unfold stable_phase.
  repeat rewrite (bind_run _ _ _ _ _ (logger_info_run _ _)).
  rewrite (bind_run _ _ _ _ _ (for_each_logs _ _ _)).
  repeat rewrite (bind_run _ _ _ _ _ (logger_info_run _ _)).
  match goal with
  | |- context [bind (open_main_dashboard env) _ ?s1] =>
      destruct (open_main_dashboard_effect env s1) as (tb & Eb & Hb & Hlog)
  end.
  rewrite (bind_run _ _ _ _ _ Eb).
  repeat rewrite (bind_run _ _ _ _ _ (logger_info_run _ _)).
  rewrite !logged_logged.
  eexists. split; [reflexivity|].
  assert (Hopen : In (BrowserOpen "http://localhost:8501") tb).
  { assert (H : In (BrowserOpen "http://localhost:8501")
                  (filter (fun e => negb (is_log e)) tb))
      by (rewrite Hb; left; reflexivity).
    apply filter_In in H. exact (proj1 H). }
  assert (Hterm : terminated tb = []).
  { assert (H : forall l,
               terminated (filter (fun e => negb (is_log e)) l) = terminated l).
    { induction l as [|e l IH]; [reflexivity|].
      destruct e; cbn; try rewrite IH; reflexivity. }
    rewrite <- H, Hb. reflexivity. }
  split; [right; left; reflexivity|].
  split.
  - do 8 (apply in_or_app; right). apply in_or_app. left. exact Hopen.
  - rewrite !terminated_app, terminated_logs, Hterm. reflexivity.
Qed.

(** *** The ways out of [main] *)

(** The liveness check of a tick returns or raises [KeyError]. *)
Lemma monitor_checks_outcome tick items :
  forall s,
    match fst (for_each items (monitor_check tick) s) with
    | Returns _ => True
    | Raises e => is_KeyboardInterrupt e = false
    | OutOfFuel => False
    end.
Proof.
  induction items as [|[name p] items IH]; intro s; [exact I|].
  cbn [for_each]. unfold bind at 1.
  assert (Hone : (exists s1, monitor_check tick (name, p) s = (Returns tt, s1))
                 \/ exists k s1, monitor_check tick (name, p) s = (Raises (KeyError k), s1)).
  { destruct s as [rp flag now tr]. unfold monitor_check, del_running_process. run.
    destruct (monitor_status p tick); [|left; eexists; reflexivity].
    destruct (dict_mem name rp);
      [left|right; eexists]; eexists; reflexivity. }
  destruct Hone as [(s1 & ->)|(k & s1 & ->)]; [apply IH|reflexivity].
Qed.

(** A pass of the monitor loop entered with the flag down: either it
    returns with the flag still down, or it raises something other than
    [KeyboardInterrupt]. *)
Lemma monitor_tick_outcome env tick s :
  shutdown_requested s = false ->
  match monitor_tick env tick s with
  | (Returns _, s') => shutdown_requested s' = false
  | (Raises e, _) => is_KeyboardInterrupt e = false
  | (OutOfFuel, _) => False
  end.
Proof.
  intro Hflag. destruct s as [rp flag now tr]. cbn in Hflag. subst flag.
  unfold monitor_tick, monitor_sleep. destruct (signal_at env tick).
  - run.
    match goal with
    | |- context [signal_handler ?s1] =>
        destruct (signal_handler_effect s1) as (t & e & E & He & _)
    end.
    rewrite E. destruct He as [->|[msg ->]]; reflexivity.
  - run. unfold monitor_poll. run.
    match goal with
    | |- context [for_each ?items (monitor_check tick) ?s1] =>
        pose proof (monitor_checks_outcome tick items s1) as Hout;
        assert (Hkeep : keeps shutdown_requested (for_each items (monitor_check tick)))
          by (apply keeps_monitor_checks; intros; try intro; reflexivity);
        specialize (Hkeep s1);
        destruct (for_each items (monitor_check tick) s1) as [[u|e|] s2]
    end; cbn in *; assumption.
Qed.

(** Entered with the flag down, the monitor loop does not return: within
    any bound on its passes it is still running, or it has raised
    something other than [KeyboardInterrupt]. *)
Lemma monitor_loop_outcome env fuel :
  forall tick s,
    shutdown_requested s = false ->
    match fst (monitor_loop env fuel tick s) with
    | Returns _ => False
    | Raises e => is_KeyboardInterrupt e = false
    | OutOfFuel => True
    end.
Proof.
  induction fuel as [|fuel IH]; intros tick s Hflag; [exact I|].
  cbn [monitor_loop]. unfold bind at 1, get_shutdown_requested. rewrite Hflag.
  unfold bind. pose proof (monitor_tick_outcome env tick s Hflag) as Htick.
  destruct (monitor_tick env tick s) as [[u|e|] s1]; [|exact Htick|contradiction].
  apply IH. exact Htick.
Qed.

Lemma never_returns_bind {A C} (m : M A) (k : A -> M C) :
  keeps shutdown_requested m -> (forall a, never_returns (k a)) ->
  never_returns (bind m k).
Proof.
  intros Hm Hk s Hflag c s2 H. unfold bind in H. specialize (Hm s).
  destruct (m s) as [[a|e|] s1]; [|discriminate|discriminate].
  cbn [snd] in Hm. apply (Hk a s1 (eq_trans Hm Hflag) c s2 H).
Qed.

Lemma keeps_flag_logger_info msg : keeps shutdown_requested (logger_info msg).
Proof. intro s. reflexivity. Qed.

(** The stable branch of [main] can only be left by an exception. *)
Lemma stable_phase_never_returns env registry fuel :
  never_returns (stable_phase env registry fuel).
Proof.
  unfold stable_phase.
  repeat (apply never_returns_bind;
          [first [ apply keeps_flag_logger_info
                 | apply keeps_for_each; intro; apply keeps_flag_logger_info
                 | apply keeps_open_main_dashboard; intros; reflexivity ]
          | intros _ ]).
  intros s Hflag a s2 H. unfold try_except in H.
  pose proof (monitor_loop_outcome env fuel O s Hflag) as Hout.
  destruct (monitor_loop env fuel 0 s) as [[u|e|] s1]; cbn [fst] in Hout;
    [contradiction| |discriminate].
  rewrite Hout in H. discriminate.
Qed.

Lemma dict_set_values {V} (P : V -> Prop) (k : string) (v : V) (d : dict V) :
  Forall P (map snd d) -> P v -> Forall P (map snd (dict_set k v d)).
Proof.
  intros Hd Hv. induction d as [|[k' v'] d IH]; cbn [dict_set map snd].
  - constructor; [exact Hv|constructor].
  - cbn [map snd] in Hd. inversion Hd as [|? ? Hv' Hd']; subst.
    destruct (String.eqb k' k); cbn [map snd];
      constructor; auto.
Qed.

(** A handle [start_service] returns is the process [subprocess.Popen]
    gave it. *)
Lemma start_service_handle env name config s p s' :
  start_service env name config s = (Returns (Some p), s') ->
  spawn env (build_cmd env config) = inr p.
Proof.
  destruct s as [rp flag now tr]. run.
  destruct (spawn env (build_cmd env config)) as [msg|q]; cbv beta iota;
    [discriminate|].
  destruct (settle_signal env now).
  - match goal with
    | |- context [signal_handler ?s1] =>
        destruct (signal_handler_effect s1) as (t & e & E & He & _)
    end.
    rewrite E. destruct He as [->|[msg ->]]; discriminate.
  - destruct (settle_status q); cbv beta iota; [discriminate|].
    intro H. injection H as -> _. reflexivity.
Qed.

(** When no forced kill can fail, the launch loop returns with the flag
    as it found it: a signal during a settle sleep then ends in the
    [SystemExit] of the handler, which is not a return. *)
Lemma launch_all_keeps_flag env registry :
  (forall cmd p, spawn env cmd = inr p -> escalation_succeeds p) ->
  forall s u s',
    shutdown_requested s = false ->
    Forall escalation_succeeds (map snd (running_processes s)) ->
    launch_all env registry s = (Returns u, s') ->
    shutdown_requested s' = false.
Proof.
  intro Hspawn.
  induction registry as [|[name config] rest IH]; intros s u s' Hflag Htable H.
  - cbn in H. injection H as _ <-. exact Hflag.
  - cbn [launch_all] in H. unfold bind at 1, get_shutdown_requested in H.
    rewrite Hflag in H. unfold bind at 1 2 in H.
    destruct (start_service_cases env name config s)
      as (t & r & s1 & E & _ & _ & [(x & -> & Ht & Hcase)|(-> & _)]);
      rewrite E in H; [|discriminate].
    destruct Hcase as [Hf|(_ & _ & e & He & Hfail)].
    + assert (Hf1 : shutdown_requested s1 = false) by (rewrite Hf; exact Hflag).
      assert (Ht1 : Forall escalation_succeeds (map snd (running_processes s1)))
        by (rewrite Ht; exact Htable).
      destruct x as [p|]; revert H; run_ops; intro H; refine (IH _ _ _ _ _ H).
      * exact Hf1.
      * cbn [running_processes]. apply dict_set_values; [exact Ht1|].
        apply (Hspawn (build_cmd env config)).
        exact (start_service_handle env name config s p s1 E).
      * exact Hf1.
      * exact Ht1.
    + exfalso.
      destruct (shutdown_all_effect s) as (t0 & r0 & E0 & _ & Hok & _).
      specialize (Hfail s eq_refl). rewrite E0 in Hfail. cbn [fst] in Hfail.
      rewrite (Hok Htable) in Hfail. discriminate.
Qed.

(** The start of [main], entered with the flag down in a world where no
    forced kill can fail, returns with the flag down: the health phase
    returns only when no signal arrived during it. *)
Lemma startup_keeps_flag env registry s v s1 :
  (forall cmd p, spawn env cmd = inr p -> escalation_succeeds p) ->
  shutdown_requested s = false ->
  Forall escalation_succeeds (map snd (running_processes s)) ->
  startup env registry s = (Returns v, s1) ->
  shutdown_requested s1 = false.
Proof.
  intros Hspawn Hflag Htable H. unfold startup in H.
  destruct (check_dependencies_effect env s) as (t1 & r1 & E1 & _ & Hr1).
  unfold bind at 1 in H. rewrite E1 in H.
  destruct Hr1 as [->|(_ & msg & ->)]; [|discriminate].
  destruct (forallb (importable env) required_packages); cbn [negb] in H.
  - destruct (check_scripts_exist_effect env registry (logged s t1)) as (t2 & E2 & _).
    unfold bind at 1 in H. rewrite E2 in H.
    destruct (forallb (fun entry => path_exists env (script (snd entry))) registry);
      cbn [negb] in H.
    + unfold logger_info at 1 2 in H. unfold bind at 1 2, emit at 1 2 in H.
      unfold bind at 1 in H.
      match type of H with
      | context [launch_all env registry ?s2] =>
          destruct (launch_all env registry s2) as [[u|e|] s3] eqn:EL;
            [|discriminate|discriminate];
          assert (Hf3 : shutdown_requested s3 = false)
            by (apply (launch_all_keeps_flag env registry Hspawn s2 u s3);
                [exact Hflag|exact Htable|exact EL])
      end.
      rewrite <- Hf3.
      exact (keeps_on_return_health_phase shutdown_requested
               (fun _ _ => eq_refl) (fun _ _ => eq_refl) env registry s3 v s1 H).
    + revert H. run_ops. intro H. injection H as _ <-. exact Hflag.
  - revert H. run_ops. intro H. injection H as _ <-. exact Hflag.
Qed.

(** Entered with the flag down in a world where no forced kill can fail,
    the body of the [try] of [main] returns only through one of its
    [return 1]. *)
Lemma main_try_returns_1 env registry fuel s x s1 :
  (forall cmd p, spawn env cmd = inr p -> escalation_succeeds p) ->
  shutdown_requested s = false ->
  Forall escalation_succeeds (map snd (running_processes s)) ->
  main_try env registry fuel s = (Returns x, s1) ->
  x = Some 1.
Proof.
  intros Hspawn Hflag Htable H. unfold main_try, bind in H.
  destruct (startup env registry s) as [[verdict|e|] s2] eqn:Estart;
    [|discriminate|discriminate].
  pose proof (startup_keeps_flag env registry s verdict s2 Hspawn Hflag Htable Estart)
    as Hf2.
  destruct verdict as [[|]|]; cbn [verdict_branch] in H.
  - exfalso. unfold bind in H.
    pose proof (stable_phase_never_returns env registry fuel s2 Hf2) as Hnever.
    destruct (stable_phase env registry fuel s2) as [[u|e|] s3];
      [exact (Hnever u s3 eq_refl)|discriminate|discriminate].
  - cbv in H. injection H as <- _. reflexivity.
  - cbv in H. injection H as <- _. reflexivity.
Qed.

(** X6. The ways out of [main].  Whatever ends the body of its [try], the
    [finally] clause runs the shutdown; when the shutdown goes through (no
    forced kill fails), the table is empty, every tracked process found
    alive was sent a termination request, the farewell line is the last
    one logged, and: a [return] inside the body keeps its value, falling
    out of the [try] gives 0, an exception of class [Exception] is logged
    as a critical error and becomes [return 1], and [SystemExit] or
    [KeyboardInterrupt] goes on to the caller. *)
Theorem main_exception_policy
    (env : Env) (registry : dict ServiceConfig) (fuel : nat) (s : State)
    (r : outcome (option Z)) (s1 : State)
    (Hbody : main_try env registry fuel (snd (banner env s)) = (r, s1))
    (Hend : r <> OutOfFuel)
    (Hesc : Forall escalation_succeeds (map snd (running_processes s1))) :
  fst (main_with env registry fuel s) = main_outcome r
  /\ running_processes (snd (main_with env registry fuel s)) = []
  /\ exists t,
       trace (snd (main_with env registry fuel s))
       = trace s1 ++ critical_log r ++ t ++ [farewell]
       /\ terminated t = map pid (filter alive (map snd (running_processes s1))).
Proof.
  destruct (main_with_cases env registry fuel s r s1 Hbody Hend)
    as (t & _ & [(E & Hterm & _)|(msg & _ & Hno)]); [|contradiction].
  rewrite E. cbn [fst snd running_processes trace].
  split; [reflexivity|]. split; [reflexivity|].
  exists t. split; [reflexivity|exact Hterm].
Qed.

Lemma main_exception_policy_witness :
  fst (main_with broken_probe_env SERVICES_CONFIG 5 initial_state) = Returns 1
  /\ running_processes (snd (main_with broken_probe_env SERVICES_CONFIG 5 initial_state))
     = []
  /\ In (Log ERROR "❌ Error crítico en el launcher: invalid URL"%string)
        (trace (snd (main_with broken_probe_env SERVICES_CONFIG 5 initial_state)))
  /\ terminated (trace (snd (main_with broken_probe_env SERVICES_CONFIG 5 initial_state)))
     = [500; 500; 500; 500].
Proof.
  destruct (main_exception_policy broken_probe_env SERVICES_CONFIG 5 initial_state
              (fst (main_try broken_probe_env SERVICES_CONFIG 5
                      (snd (banner broken_probe_env initial_state))))
              (snd (main_try broken_probe_env SERVICES_CONFIG 5
                      (snd (banner broken_probe_env initial_state)))))
    as (Hout & Htable & t & Htrace & Hterm).
  - apply surjective_pairing.
  - vm_compute. discriminate.
  - vm_compute. repeat constructor.
  - split; [rewrite Hout; vm_compute; reflexivity|].
    split; [exact Htable|]. split.
    + rewrite Htrace. apply in_or_app. right. apply in_or_app. left.
      vm_compute. left. reflexivity.
    + vm_compute. reflexivity.
Defined.

(** X7. Entered with no shutdown requested, in a world where no forced
    kill or final wait fails (neither for a process of the table nor for
    one the launcher creates), [main] never returns 0: the flag is raised
    only by the signal handler, which then leaves by [SystemExit], and the
    stable branch entered with the flag down can only be left by an
    exception.  So whenever [main] returns, it returns 1.  And whenever it
    returns, the [finally] clause has gone through: the table is empty
    and the farewell line is the last one logged.  (A handler whose
    shutdown fails during a settle sleep leaves the flag up without
    leaving the launcher: its exception is taken by [start_service] for a
    failed launch.) *)
Theorem main_returns_only_1
    (env : Env) (registry : dict ServiceConfig) (fuel : nat) (s : State)
    (c : Z) (s' : State)
    (Hflag : shutdown_requested s = false)
    (Htable : Forall escalation_succeeds (map snd (running_processes s)))
    (Hspawn : forall cmd p, spawn env cmd = inr p -> escalation_succeeds p)
    (Hret : main_with env registry fuel s = (Returns c, s')) :
  c = 1
  /\ running_processes s' = []
  /\ exists t, trace s' = trace s ++ t ++ [farewell].
Proof.
  destruct (banner_effect env s) as (t0 & E0 & Q0).
  destruct (main_try env registry fuel (snd (banner env s))) as [r s1] eqn:Hbody.
  assert (Htrace : exists t1, trace s1 = trace s ++ t1).
  { assert (Hem : emits (fun _ => True) (main_try env registry fuel)).
    { unfold main_try. apply emits_bind.
      - apply emits_startup; intros; exact I.
      - intro verdict. apply emits_verdict_branch; intros; exact I. }
    destruct (Hem (snd (banner env s))) as (t1 & Ht1 & _).
    rewrite Hbody, E0 in Ht1. cbn [snd trace logged] in Ht1.
    exists (t0 ++ t1). rewrite Ht1, app_assoc. reflexivity. }
  destruct Htrace as (t1 & Ht1).
  assert (Hend : r <> OutOfFuel).
  { intros ->. rewrite E0 in Hbody. cbn [snd] in Hbody.
    rewrite (main_with_after_banner _ _ _ _ _ E0) in Hret.
    unfold with_cleanup, try_finally, try_except in Hret. unfold bind in Hret.
    rewrite Hbody in Hret. discriminate. }
  destruct (main_with_cases env registry fuel s r s1 Hbody Hend)
    as (t & _ & [(E & Hterm & _)|(msg & E & _)]); rewrite E in Hret;
    [|discriminate].
  injection Hret as Hout <-. cbn [running_processes trace].
  split; [|split; [reflexivity|]].
  - destruct r as [x|e|]; [| |contradiction].
    + rewrite E0 in Hbody. cbn [snd] in Hbody.
      rewrite (main_try_returns_1 env registry fuel (logged s t0) x s1 Hspawn Hflag
                 Htable Hbody) in Hout.
      cbn in Hout. congruence.
    + cbn in Hout. destruct (is_Exception e); congruence.
  - exists (t1 ++ critical_log r ++ t). rewrite Ht1, <- !app_assoc. reflexivity.
Qed.

Lemma main_returns_only_1_witness :
  1 = 1
  /\ running_processes (snd (main_with refusing_env SERVICES_CONFIG 5 initial_state)) = []
  /\ exists t,
       trace (snd (main_with refusing_env SERVICES_CONFIG 5 initial_state))
       = trace initial_state ++ t ++ [farewell].
Proof.
  apply (main_returns_only_1 refusing_env SERVICES_CONFIG 5 initial_state 1
           (snd (main_with refusing_env SERVICES_CONFIG 5 initial_state))).
  - reflexivity.
  - constructor.
  - intros cmd p H. injection H as <-. split; reflexivity.
  - vm_compute. reflexivity.
Defined.

(** *** The monitor loop as a whole *)

Lemma NoDup_keys_filter {V} (g : string * V -> bool) (d : dict V) :
  NoDup (map fst d) -> NoDup (map fst (filter g d)).
Proof.
  induction d as [|[k v] d IH]; intro H; [constructor|].
  cbn in H. inversion H as [|? ? Hnot Hrest]; subst.
  cbn [filter]. destruct (g (k, v)); [|apply IH; exact Hrest].
  cbn. constructor; [|apply IH; exact Hrest].
  intro Hin. apply Hnot. apply in_map_iff in Hin. destruct Hin as ([k' v'] & Hk & Hin).
  apply filter_In in Hin. destruct Hin as [Hin _].
  apply in_map_iff. exists (k', v'). split; assumption.
Qed.

Lemma Forall_values_filter {V} (P : V -> Prop) (g : string * V -> bool) (d : dict V) :
  Forall P (map snd d) -> Forall P (map snd (filter g d)).
Proof.
  induction d as [|[k v] d IH]; intro H; [constructor|].
  cbn in H. inversion H; subst. cbn [filter].
  destruct (g (k, v)); [cbn; constructor; auto|auto].
Qed.

Lemma terminated_monitor_report tick (l : dict Popen) :
  terminated (flat_map (monitor_report tick) l) = [].
Proof.
  induction l as [|entry l IH]; [reflexivity|].
  cbn [flat_map]. rewrite terminated_app, IH.
  unfold monitor_report, exit_warning. destruct (running_at tick entry); reflexivity.
Qed.

(** A pass of the monitor loop during which no signal arrives. *)
Lemma monitor_tick_no_signal env tick s :
  NoDup (map fst (running_processes s)) ->
  signal_at env tick = false ->
  monitor_tick env tick s
  = (Returns tt,
     {| running_processes := filter (running_at tick) (running_processes s);
        shutdown_requested := shutdown_requested s;
        clock := clock s + 1000;
        trace := trace s
                 ++ Sleep 1 :: flat_map (monitor_report tick) (running_processes s) |}).
Proof.
  intros Hdict Hnosignal.
  destruct s as [rp flag now tr]. cbn [running_processes] in Hdict.
  unfold monitor_tick, monitor_sleep, monitor_poll. rewrite Hnosignal. run.
  rewrite (monitor_poll_items tick rp [] flag _ _ Hdict).
  cbn [app]. rewrite <- app_assoc. reflexivity.
Qed.

(** A pass of the monitor loop during which a signal arrives, when the
    shutdown goes through. *)
Lemma monitor_tick_signal env tick s :
  signal_at env tick = true ->
  Forall escalation_succeeds (map snd (running_processes s)) ->
  exists t,
    monitor_tick env tick s
    = (Raises (SystemExit 0),
       {| running_processes := [];
          shutdown_requested := true;
          clock := clock s + 1000;
          trace := trace s ++ Sleep 1 :: SignalDelivered :: t |})
    /\ terminated t = map pid (filter alive (map snd (running_processes s))).
Proof.
  intros Hsignal Hesc. destruct s as [rp flag now tr].
  cbn [running_processes shutdown_requested clock trace] in *.
  unfold monitor_tick, monitor_sleep. rewrite Hsignal. run.
  match goal with
  | |- context [signal_handler ?s1] =>
      destruct (signal_handler_effect s1) as (t & e & E & _ & Hok & Hterm)
  end.
  cbn [running_processes shutdown_requested clock trace] in *.
  rewrite E, (Hok Hesc). cbn [is_Exception].
  exists t. split; [rewrite <- !app_assoc; reflexivity|].
  apply Hterm. apply Hok. exact Hesc.
Qed.

Lemma monitor_loop_step env fuel tick s s1 :
  shutdown_requested s = false ->
  monitor_tick env tick s = (Returns tt, s1) ->
  monitor_loop env (S fuel) tick s = monitor_loop env fuel (S tick) s1.
Proof.
  intros Hflag E. cbn [monitor_loop]. unfold bind at 1, get_shutdown_requested.
  rewrite Hflag. unfold bind. rewrite E. reflexivity.
Qed.

Lemma monitor_loop_stop env fuel tick s e s1 :
  shutdown_requested s = false ->
  monitor_tick env tick s = (Raises e, s1) ->
  monitor_loop env (S fuel) tick s = (Raises e, s1).
Proof.
  intros Hflag E. cbn [monitor_loop]. unfold bind at 1, get_shutdown_requested.
  rewrite Hflag. unfold bind. rewrite E. reflexivity.
Qed.

(** X8. Without a signal the monitor loop does not end, whatever becomes
    of the services: after any number of passes in which no signal arrived
    it is still running, having slept one second per pass; the flag is
    down and the table holds the entries that were found running at every
    pass, even when that is none. *)
Theorem monitor_loop_runs_until_signalled
    (env : Env) (fuel tick : nat) (s : State)
    (Hflag : shutdown_requested s = false)
    (Hdict : NoDup (map fst (running_processes s)))
    (Hquiet : forall j, (j < fuel)%nat -> signal_at env (tick + j) = false) :
  fst (monitor_loop env fuel tick s) = OutOfFuel
  /\ running_processes (snd (monitor_loop env fuel tick s))
     = survivors tick fuel (running_processes s)
  /\ shutdown_requested (snd (monitor_loop env fuel tick s)) = false
  /\ clock (snd (monitor_loop env fuel tick s)) = clock s + 1000 * Z.of_nat fuel.
Proof.
  revert tick s Hflag Hdict Hquiet.
  induction fuel as [|fuel IH]; intros tick s Hflag Hdict Hquiet.
  - cbn. repeat split; [exact Hflag|lia].
  - assert (Hnone : signal_at env tick = false)
      by (rewrite <- (Nat.add_0_r tick); apply Hquiet; lia).
    rewrite (monitor_loop_step env fuel tick s _ Hflag
               (monitor_tick_no_signal env tick s Hdict Hnone)).
    cbn [survivors].
    match goal with
    | |- context [monitor_loop env fuel (S tick) ?s1] =>
        destruct (IH (S tick) s1) as (Hout & Htable & Hf & Hclock)
    end.
    + exact Hflag.
    + apply NoDup_keys_filter. exact Hdict.
    + intros j Hj. rewrite Nat.add_succ_comm. apply Hquiet. lia.
    + cbn [running_processes shutdown_requested clock] in *.
      split; [exact Hout|]. split; [exact Htable|]. split; [exact Hf|].
      rewrite Hclock. lia.
Qed.

Lemma monitor_loop_runs_until_signalled_witness :
  fst (monitor_loop unattended_env 3 0 sample_state) = OutOfFuel
  /\ running_processes (snd (monitor_loop unattended_env 3 0 sample_state))
     = survivors 0 3 (running_processes sample_state)
  /\ shutdown_requested (snd (monitor_loop unattended_env 3 0 sample_state)) = false
  /\ clock (snd (monitor_loop unattended_env 3 0 sample_state))
     = clock sample_state + 1000 * Z.of_nat 3.
Proof.
  apply (monitor_loop_runs_until_signalled unattended_env 3 0 sample_state).
  - reflexivity.
  - cbn. repeat constructor; cbn; intuition discriminate.
  - intros j _. reflexivity.
Defined.

(** The monitor loop up to the pass in which the first signal arrives. *)
Lemma monitor_loop_signal_run
    (env : Env) (k fuel tick : nat) (s : State)
    (Hflag : shutdown_requested s = false)
    (Hdict : NoDup (map fst (running_processes s)))
    (Hesc : Forall escalation_succeeds (map snd (running_processes s)))
    (Hquiet : forall j, (j < k)%nat -> signal_at env (tick + j) = false)
    (Hsignal : signal_at env (tick + k) = true)
    (Hfuel : (k < fuel)%nat) :
  exists s',
    monitor_loop env fuel tick s = (Raises (SystemExit 0), s')
    /\ running_processes s' = []
    /\ shutdown_requested s' = true
    /\ clock s' = clock s + 1000 * (Z.of_nat k + 1)
    /\ terminated (trace s')
       = terminated (trace s)
         ++ map pid (filter alive (map snd (survivors tick k (running_processes s)))).
Proof.
  revert fuel tick s Hflag Hdict Hesc Hquiet Hsignal Hfuel.
  induction k as [|k IH]; intros fuel tick s Hflag Hdict Hesc Hquiet Hsignal Hfuel;
    (destruct fuel as [|fuel]; [lia|]).
  - rewrite Nat.add_0_r in Hsignal.
    destruct (monitor_tick_signal env tick s Hsignal Hesc) as (t & E & Hterm).
    rewrite (monitor_loop_stop env fuel tick s _ _ Hflag E).
    eexists. split; [reflexivity|].
    cbn [running_processes shutdown_requested clock trace survivors].
    split; [reflexivity|]. split; [reflexivity|]. split; [lia|].
    rewrite terminated_app. cbn [terminated]. rewrite Hterm. reflexivity.
  - assert (Hnone : signal_at env tick = false)
      by (rewrite <- (Nat.add_0_r tick); apply Hquiet; lia).
    rewrite (monitor_loop_step env fuel tick s _ Hflag
               (monitor_tick_no_signal env tick s Hdict Hnone)).
    cbn [survivors].
    match goal with
    | |- context [monitor_loop env fuel (S tick) ?s1] =>
        destruct (IH fuel (S tick) s1) as (s2 & E & Htable & Hf & Hclock & Hterm)
    end.
    + exact Hflag.
    + apply NoDup_keys_filter. exact Hdict.
    + apply Forall_values_filter. exact Hesc.
    + intros j Hj. rewrite Nat.add_succ_comm. apply Hquiet. lia.
    + rewrite Nat.add_succ_comm. exact Hsignal.
    + lia.
    + cbn [running_processes shutdown_requested clock trace] in *.
      exists s2. split; [exact E|]. split; [exact Htable|]. split; [exact Hf|].
      split; [rewrite Hclock; lia|].
      rewrite Hterm, terminated_app. cbn [terminated].
      rewrite terminated_monitor_report, app_nil_r. reflexivity.
Qed.

(** X9. The first signal ends the monitor loop in the pass during which
    it arrives: after one sleep per pass and no liveness check in the last
    one, the handler raises the flag, shuts down the entries still in the
    table and, when the shutdown goes through, leaves by [SystemExit(0)]
    with the table empty. *)
Theorem monitor_loop_ends_at_first_signal
    (env : Env) (k fuel tick : nat) (s : State)
    (Hflag : shutdown_requested s = false)
    (Hdict : NoDup (map fst (running_processes s)))
    (Hesc : Forall escalation_succeeds (map snd (running_processes s)))
    (Hquiet : forall j, (j < k)%nat -> signal_at env (tick + j) = false)
    (Hsignal : signal_at env (tick + k) = true)
    (Hfuel : (k < fuel)%nat) :
  exists s',
    monitor_loop env fuel tick s = (Raises (SystemExit 0), s')
    /\ running_processes s' = []
    /\ shutdown_requested s' = true
    /\ clock s' = clock s + 1000 * (Z.of_nat k + 1)
    /\ terminated (trace s')
       = terminated (trace s)
         ++ map pid (filter alive (map snd (survivors tick k (running_processes s)))).
Proof.
  exact (monitor_loop_signal_run env k fuel tick s Hflag Hdict Hesc Hquiet Hsignal Hfuel).
Qed.

Lemma monitor_loop_ends_at_first_signal_witness :
  exists s',
    monitor_loop port_clash_env 5 0 sample_state = (Raises (SystemExit 0), s')
    /\ running_processes s' = []
    /\ shutdown_requested s' = true
    /\ clock s' = clock sample_state + 1000 * (Z.of_nat 1 + 1)
    /\ terminated (trace s')
       = terminated (trace sample_state)
         ++ map pid (filter alive
                       (map snd (survivors 0 1 (running_processes sample_state)))).
Proof.
  apply (monitor_loop_ends_at_first_signal port_clash_env 1 5 0 sample_state).
  - reflexivity.
  - cbn. repeat constructor; cbn; intuition discriminate.
  - cbn. repeat constructor.
  - intros j Hj. destruct j as [|j]; [reflexivity|lia].
  - reflexivity.
  - lia.
Defined.

(** *** The health phase *)

(** X10. The health phase passes over every spec whose service is not in
    the table: when none of the specs is, [verify_health] issues no
    request, logs nothing and returns the verdict it was given, so a run
    in which nothing was launched keeps the verdict [True]. *)
Theorem verify_health_skips_unlaunched
    (env : Env) (registry : dict ServiceConfig) (all_healthy : bool) (s : State)
    (Hnone : forall name,
               In name (map fst registry) -> dict_mem name (running_processes s) = false) :
  verify_health env registry all_healthy s = (Returns all_healthy, s).
Proof.
  induction registry as [|[name config] rest IH]; [reflexivity|].
  cbn [verify_health]. unfold bind, get_running_processes.
  rewrite (Hnone name (or_introl eq_refl)).
  apply IH. intros n Hn. apply Hnone. right. exact Hn.
Qed.

Lemma verify_health_skips_unlaunched_witness :
  verify_health refusing_env SERVICES_CONFIG true initial_state
  = (Returns true, initial_state).
Proof.
  apply (verify_health_skips_unlaunched refusing_env SERVICES_CONFIG true initial_state).
  intros name _. reflexivity.
Defined.

(** X11. Every request the health phase issues goes, with a five-second
    request timeout, to the health URL of a spec whose service is in the
    table: a service that was not launched is never probed.  And whenever
    the health phase returns its verdict, it has left the table and the
    flag as they were: only a signal during one of its sleeps touches
    them, and then the phase does not return. *)
Theorem verify_health_probes_only_launched
    (env : Env) (registry : dict ServiceConfig) (all_healthy : bool) (s : State) :
  (forall b s',
     verify_health env registry all_healthy s = (Returns b, s') ->
     running_processes s' = running_processes s
     /\ shutdown_requested s' = shutdown_requested s)
  /\ exists t,
       trace (snd (verify_health env registry all_healthy s)) = trace s ++ t
       /\ Forall (probes_launched registry (running_processes s)) t.
Proof.
  split.
  { intros b s' H. split.
    - exact (keeps_on_return_verify_health running_processes
               (fun _ _ => eq_refl) (fun _ _ => eq_refl) env registry all_healthy
               s b s' H).
    - exact (keeps_on_return_verify_health shutdown_requested
               (fun _ _ => eq_refl) (fun _ _ => eq_refl) env registry all_healthy
               s b s' H). }
  revert all_healthy s.
  induction registry as [|[name config] rest IH]; intros all_healthy s.
  - exists []. cbn. rewrite app_nil_r. split; [reflexivity|constructor].
  - assert (Hweak : forall d t,
               Forall (probes_launched rest d) t ->
               Forall (probes_launched ((name, config) :: rest) d) t).
    { intros d t. apply Forall_impl. intros [] He; try exact I.
      destruct He as (Htmo & n & c & Hin & Hmem & Hu).
      split; [exact Htmo|]. exists n, c. split; [right; exact Hin|]. split; assumption. }
    cbn [verify_health]. unfold bind at 1, get_running_processes.
    destruct (dict_mem name (running_processes s)) eqn:Hmem.
    + unfold bind.
      destruct (check_service_health_requests env name config 30 s) as (t1 & Ht1 & Hreq).
      destruct (check_service_health env name config 30 s) as [[healthy|e|] s1]
        eqn:Echeck; cbn [snd] in *.
      * assert (Htable : running_processes s1 = running_processes s)
          by exact (keeps_on_return_check_service_health running_processes
                      (fun _ _ => eq_refl) (fun _ _ => eq_refl) env name config 30
                      s healthy s1 Echeck).
        destruct (IH (if healthy then all_healthy else false) s1) as (t2 & Ht2 & Hq2).
        exists (t1 ++ t2). rewrite Ht2, Ht1, app_assoc. split; [reflexivity|].
        apply Forall_app. split.
        -- eapply Forall_impl; [|exact Hreq]. intros [] He; try exact I.
           destruct He as [-> ->]. split; [reflexivity|].
           exists name, config. split; [left; reflexivity|]. split; [exact Hmem|reflexivity].
        -- apply Hweak. rewrite <- Htable. exact Hq2.
      * exists t1. split; [exact Ht1|].
        eapply Forall_impl; [|exact Hreq]. intros [] He; try exact I.
        destruct He as [-> ->]. split; [reflexivity|].
        exists name, config. split; [left; reflexivity|]. split; [exact Hmem|reflexivity].
      * exists t1. split; [exact Ht1|].
        eapply Forall_impl; [|exact Hreq]. intros [] He; try exact I.
        destruct He as [-> ->]. split; [reflexivity|].
        exists name, config. split; [left; reflexivity|]. split; [exact Hmem|reflexivity].
    + destruct (IH all_healthy s) as (t & Ht & Hq).
      exists t. split; [exact Ht|apply Hweak; exact Hq].
Qed.

(** X12. With a timeout of zero or less, [check_service_health] issues no
    request and does not sleep: it logs that the service does not answer
    and returns [False] at once. *)
Theorem check_service_health_no_time
    (env : Env) (name : string) (config : ServiceConfig) (timeout : Z) (s : State)
    (Htimeout : timeout <= 0) :
  check_service_health env name config timeout s
  = (Returns false,
     logged s [ Log INFO ("🏥 Verificando salud de " ++ description config ++ "...")%string;
                Log WARNING ("⚠️ " ++ description config ++ ": No responde en "
                             ++ health_url config)%string ]).
Proof.
  destruct s as [rp flag now tr].
  unfold check_service_health, health_fuel, logged. cbn [health_loop]. run.
  replace (now - now) with 0 by lia.
  destruct (Z.ltb_spec 0 (1000 * timeout)) as [Hlt|_]; [lia|].
  rewrite <- app_assoc. reflexivity.
Qed.

Lemma check_service_health_no_time_witness :
  check_service_health port_clash_env "main_dashboard" (shipped "main_dashboard") 0
    initial_state
  = (Returns false,
     logged initial_state
       [ Log INFO ("🏥 Verificando salud de "
                   ++ description (shipped "main_dashboard") ++ "...")%string;
         Log WARNING ("⚠️ " ++ description (shipped "main_dashboard")
                      ++ ": No responde en "
                      ++ health_url (shipped "main_dashboard"))%string ]).
Proof.
  apply (check_service_health_no_time port_clash_env "main_dashboard"
           (shipped "main_dashboard") 0 initial_state).
  lia.
Defined.

Lemma health_loop_raises env config url start_time timeout :
  forall fuel s e,
    fst (health_loop env fuel config url start_time timeout s) = Raises e ->
    is_RequestException e = false
    /\ ((exists t, result (http_get env url t) = Failure e)
        \/ ((exists t, health_signal env t = true)
            /\ (e = SystemExit 0 \/ exists msg, e = OtherException msg))).
Proof.
  induction fuel as [|fuel IH]; intros s e; [discriminate|].
  rewrite health_loop_step.
  destruct (clock s - start_time <? 1000 * timeout); [|discriminate].
  assert (Hnext :
      fst (bind (health_sleep env 2)
             (fun _ => health_loop env fuel config url start_time timeout)
             (after_probe env url s)) = Raises e ->
      is_RequestException e = false
      /\ ((exists t, result (http_get env url t) = Failure e)
          \/ ((exists t, health_signal env t = true)
              /\ (e = SystemExit 0 \/ exists msg, e = OtherException msg)))).
  { destruct (health_sleep_cases env 2 (after_probe env url s))
      as [(_ & E)|(Hs & e' & t & E & He' & _)].
    - rewrite (bind_run _ _ _ _ _ E). apply IH.
    - rewrite (bind_raise _ _ _ _ _ E). cbn [fst]. intro H. injection H as <-.
      split; [destruct He' as [->|[msg ->]]; reflexivity|].
      right. split; [eexists; exact Hs|exact He']. }
  destruct (result (http_get env url (clock s))) as [code|e0] eqn:R.
  - destruct (code =? 200); [discriminate|exact Hnext].
  - destruct (is_RequestException e0) eqn:C; [exact Hnext|].
    cbn [fst]. intro H. injection H as <-. split; [exact C|].
    left. exists (clock s). exact R.
Qed.

(** X13. [check_service_health] swallows transport failures only.  When
    the first request fails with an exception that is no
    [RequestException], the check raises that exception at once, without
    sleeping.  And whatever the check raises is no [RequestException]: it
    is the exception of one of its requests, or it comes from the signal
    handler, run during one of its sleeps ([SystemExit(0)], or the
    exception of a forced kill that failed). *)
Theorem check_service_health_propagates
    (env : Env) (name : string) (config : ServiceConfig) (timeout : Z) (s : State) :
  (forall e,
     0 < timeout ->
     result (http_get env (health_url config) (clock s)) = Failure e ->
     is_RequestException e = false ->
     check_service_health env name config timeout s
     = (Raises e,
        {| running_processes := running_processes s;
           shutdown_requested := shutdown_requested s;
           clock := clock s
                    + Z.of_N (latency (http_get env (health_url config) (clock s)));
           trace := trace s
                    ++ [ Log INFO ("🏥 Verificando salud de " ++ description config
                                   ++ "...")%string;
                         HttpGet (health_url config) 5 ] |}))
  /\ (forall e,
        fst (check_service_health env name config timeout s) = Raises e ->
        is_RequestException e = false
        /\ ((exists t, result (http_get env (health_url config) t) = Failure e)
            \/ ((exists t, health_signal env t = true)
                /\ (e = SystemExit 0 \/ exists msg, e = OtherException msg)))).
Proof.
  split.
  - intros e Htimeout Hfail Hclass.
    rewrite check_service_health_unfold. unfold health_fuel.
    rewrite health_loop_step. cbn [clock].
    replace (clock s - clock s) with 0 by lia.
    destruct (Z.ltb_spec 0 (1000 * timeout)) as [_|Hge]; [|lia].
    rewrite Hfail, Hclass. unfold after_probe.
    cbn [running_processes shutdown_requested clock trace].
    rewrite <- app_assoc. reflexivity.
  - intros e. rewrite check_service_health_unfold. apply health_loop_raises.
Qed.

Lemma check_service_health_propagates_witness :
  fst (check_service_health broken_probe_env "main_dashboard" (shipped "main_dashboard")
         30 initial_state)
  = Raises (OtherException "invalid URL").
Proof.
  rewrite (proj1 (check_service_health_propagates broken_probe_env "main_dashboard"
                    (shipped "main_dashboard") 30 initial_state)
             (OtherException "invalid URL")).
  - reflexivity.
  - lia.
  - reflexivity.
  - reflexivity.
Defined.

(** *** The shutdown when a forced kill fails *)

Lemma for_each_app {A} (l1 l2 : list A) (body : A -> M unit) :
  forall s,
    for_each (l1 ++ l2) body s = bind (for_each l1 body) (fun _ => for_each l2 body) s.
Proof.
  induction l1 as [|x l1 IH]; intro s; [reflexivity|].
  cbn [app for_each]. unfold bind.
  destruct (body x s) as [[u|e|] s1]; [|reflexivity|reflexivity].
  rewrite IH. reflexivity.
Qed.

(** X14. When the forced kill of a process fails, [shutdown_all_services]
    raises the error of the kill and stops there: that kill is the last
    thing it does.  The processes before it in the table have been shut
    down, the ones after it get no termination request, and the table is
    left as it was, not cleared. *)
Theorem shutdown_stops_at_failed_kill
    (s : State) (pre : dict Popen) (name : string) (p : Popen) (post : dict Popen)
    (msg : string)
    (Htable : running_processes s = pre ++ (name, p) :: post)
    (Hpre : Forall escalation_succeeds (map snd pre))
    (Halive : alive p = true)
    (Hgrace : grace_expired p = true)
    (Hkill : kill_raises p = Some msg) :
  exists t,
    shutdown_all_services s
    = (Raises (OtherException msg),
       {| running_processes := running_processes s;
          shutdown_requested := shutdown_requested s;
          clock := clock s;
          trace := trace s ++ t ++ [Kill (pid p)] |})
    /\ terminated t = map pid (filter alive (map snd pre)) ++ [pid p]
    /\ killed t = map pid (filter (fun q => alive q && grace_expired q) (map snd pre)).
Proof.
  destruct s as [rp flag now tr]. cbn [running_processes] in Htable. subst rp.
  cbn [running_processes shutdown_requested clock trace].
  unfold shutdown_all_services. run. rewrite for_each_app. unfold bind at 1.
  match goal with
  | |- context [for_each pre shutdown_one ?s1] =>
      destruct (shutdown_loop_effect pre s1) as (t1 & r1 & E1 & _ & Hok & Hret & Hq1)
  end.
  cbn [running_processes shutdown_requested clock trace] in E1.
  rewrite E1, (Hok Hpre). destruct (Hret (Hok Hpre)) as (Hterm & Hkilled & _).
  cbn [for_each]. unfold bind at 1.
  unfold alive in Halive. unfold grace_expired in Hgrace.
  unfold shutdown_one at 1. run.
  destruct (shutdown_status p); [discriminate|].
  destruct (terminate_raises p); [discriminate|].
  destruct (grace_wait p) as [|m|m]; try discriminate.
  rewrite Hkill. cbn.
  exists ([Log INFO "🔄 Cerrando todos los servicios..."%string] ++ t1
          ++ [ Poll (pid p); Log INFO ("🛑 Cerrando " ++ name ++ "...")%string;
               Terminate (pid p); WaitTimeout (pid p) 10;
               Log WARNING ("⚠️ Forzando cierre de " ++ name ++ "...")%string ]).
  split; [rewrite <- !app_assoc; reflexivity|].
  split; [rewrite !terminated_app, Hterm; reflexivity|].
  rewrite !killed_app, Hkilled. cbn. rewrite app_nil_r. reflexivity.
Qed.

Lemma shutdown_stops_at_failed_kill_witness :
  exists t,
    shutdown_all_services stuck_state
    = (Raises (OtherException "Operation not permitted"),
       {| running_processes := running_processes stuck_state;
          shutdown_requested := shutdown_requested stuck_state;
          clock := clock stuck_state;
          trace := trace stuck_state ++ t ++ [Kill (pid (unkillable_process 22))] |})
    /\ terminated t
       = map pid (filter alive (map snd [("realtime_detector"%string, stubborn_process 21)]))
         ++ [pid (unkillable_process 22)]
    /\ killed t
       = map pid (filter (fun q => alive q && grace_expired q)
                    (map snd [("realtime_detector"%string, stubborn_process 21)])).
Proof.
  apply (shutdown_stops_at_failed_kill stuck_state
           [("realtime_detector"%string, stubborn_process 21)]
           "main_dashboard" (unkillable_process 22)
           [("integrated_dashboard"%string, live_process 23)]
           "Operation not permitted").
  - reflexivity.
  - repeat constructor.
  - reflexivity.
  - reflexivity.
  - reflexivity.
Defined.

(** *** The table after the launch loop *)

Lemma dict_set_fresh {V} (k : string) (v : V) (d : dict V) :
  dict_mem k d = false -> dict_set k v d = d ++ [(k, v)].
Proof.
  induction d as [|[k' v'] d IH]; intro H; [reflexivity|].
  cbn in H. apply orb_false_iff in H. destruct H as [Hne Hrest].
  cbn [dict_set app]. rewrite Hne. f_equal. apply IH. exact Hrest.
Qed.

Lemma dict_mem_app {V} (k : string) (d1 d2 : dict V) :
  dict_mem k (d1 ++ d2) = dict_mem k d1 || dict_mem k d2.
Proof. unfold dict_mem. apply existsb_app. Qed.

(** One call of [start_service], with the handle it returns. *)
Lemma start_service_run env name config s :
  settle_signal env (clock s) = false ->
  exists t,
    start_service env name config s
    = (Returns (started env config),
       {| running_processes := running_processes s;
          shutdown_requested := shutdown_requested s;
          clock := clock s + (if spawns env (name, config) then 2000 else 0);
          trace := trace s ++ t |}).
Proof.
  intro Hquiet. destruct s as [rp flag now tr]. cbn [clock] in Hquiet.
  unfold started, spawns. cbn [snd]. run.
  destruct (spawn env (build_cmd env config)) as [msg|p]; cbn.
  - eexists. rewrite <- !app_assoc, Z.add_0_r. reflexivity.
  - rewrite Hquiet.
    destruct (settle_status p); cbn; eexists; rewrite <- !app_assoc; reflexivity.
Qed.

Lemma launch_all_table env registry :
  (forall t, settle_signal env t = false) ->
  forall s,
    shutdown_requested s = false ->
    NoDup (map fst registry) ->
    (forall name, In name (map fst registry) ->
                  dict_mem name (running_processes s) = false) ->
    exists s',
      launch_all env registry s = (Returns tt, s')
      /\ running_processes s' = running_processes s ++ launched env registry
      /\ clock s'
         = clock s + 2000 * Z.of_nat (length (filter (spawns env) registry)).
Proof.
  intro Hquiet.
  induction registry as [|[name config] rest IH]; intros s Hflag Hnd Hfresh.
  - exists s. cbn. rewrite app_nil_r. repeat split. lia.
  - cbn in Hnd. inversion Hnd as [|? ? Hnot Hrest]; subst.
    destruct (start_service_run env name config s (Hquiet _)) as (t1 & E1).
    assert (Hstep : exists s1,
               launch_all env ((name, config) :: rest) s = launch_all env rest s1
               /\ shutdown_requested s1 = false
               /\ running_processes s1
                  = running_processes s
                    ++ match started env config with
                       | Some p => [(name, p)]
                       | None => []
                       end
               /\ clock s1 = clock s + (if spawns env (name, config) then 2000 else 0)).
    { cbn [launch_all]. unfold bind at 1, get_shutdown_requested.
      rewrite Hflag. unfold bind at 1 2. rewrite E1.
      destruct (started env config) as [p|]; run_ops.
      - eexists. split; [reflexivity|]. split; [exact Hflag|].
        cbn [running_processes clock]. split; [|reflexivity].
        apply dict_set_fresh. apply Hfresh. left. reflexivity.
      - eexists. split; [reflexivity|]. split; [exact Hflag|].
        cbn [running_processes clock]. rewrite app_nil_r. split; reflexivity. }
    destruct Hstep as (s1 & Hstep & Hf1 & Ht1 & Hc1). rewrite Hstep.
    destruct (IH s1 Hf1 Hrest) as (s' & E & Htable & Hclock).
    + intros n Hn. rewrite Ht1, dict_mem_app, (Hfresh n (or_intror Hn)).
      destruct (started env config); [|reflexivity].
      cbn. destruct (String.eqb_spec name n) as [->|_]; [contradiction|reflexivity].
    + exists s'. split; [exact E|]. split.
      * rewrite Htable, Ht1, <- app_assoc. cbn [launched].
        destruct (started env config); reflexivity.
      * rewrite Hclock, Hc1. cbn [filter].
        destruct (spawns env (name, config)); cbn [length]; lia.
Qed.

(** X15. The launch loop, entered with no shutdown requested and a table
    that holds none of the registry's names, and not interrupted by a
    signal during a settle sleep, adds to the table exactly the services
    that came up (those for which [subprocess.Popen] gave a process still
    running at the settle check), each once, in registry order; a service
    that failed to start leaves no entry.  The loop takes two seconds for
    every spec whose process could be created. *)
Theorem launch_all_fills_table
    (env : Env) (registry : dict ServiceConfig) (s : State)
    (Hflag : shutdown_requested s = false)
    (Hquiet : forall t, settle_signal env t = false)
    (Hnames : NoDup (map fst registry))
    (Hfresh : forall name, In name (map fst registry) ->
                           dict_mem name (running_processes s) = false) :
  exists s',
    launch_all env registry s = (Returns tt, s')
    /\ running_processes s' = running_processes s ++ launched env registry
    /\ clock s' = clock s + 2000 * Z.of_nat (length (filter (spawns env) registry)).
Proof. exact (launch_all_table env registry Hquiet s Hflag Hnames Hfresh). Qed.

Lemma launch_all_fills_table_witness :
  exists s',
    launch_all port_clash_env SERVICES_CONFIG initial_state = (Returns tt, s')
    /\ running_processes s'
       = running_processes initial_state ++ launched port_clash_env SERVICES_CONFIG
    /\ clock s'
       = clock initial_state
         + 2000 * Z.of_nat (length (filter (spawns port_clash_env) SERVICES_CONFIG)).
Proof.
  apply (launch_all_fills_table port_clash_env SERVICES_CONFIG initial_state).
  - reflexivity.
  - intro t. reflexivity.
  - cbn. repeat constructor; cbn; intuition discriminate.
  - intros name _. reflexivity.
Defined.

(** *** A run that reaches the stable branch *)

(** X16. The run the launcher is made for.  When the start ends with
    every launched service healthy, [main] logs that all services are
    active, opens the browser and watches the table until the first signal
    arrives; the handler then shuts down the services still in the table,
    the [finally] clause finds the table empty, and the launcher leaves by
    [SystemExit(0)]: exit status 0, one second of monitoring per pass. *)
Theorem main_stable_run_exits_0
    (env : Env) (registry : dict ServiceConfig) (fuel k : nat) (s s1 : State)
    (Hstart : startup env registry (snd (banner env s)) = (Returns (Some true), s1))
    (Hflag : shutdown_requested s1 = false)
    (Hdict : NoDup (map fst (running_processes s1)))
    (Hesc : Forall escalation_succeeds (map snd (running_processes s1)))
    (Hquiet : forall j, (j < k)%nat -> signal_at env j = false)
    (Hsignal : signal_at env k = true)
    (Hfuel : (k < fuel)%nat) :
  exists s',
    main_with env registry fuel s = (Raises (SystemExit 0), s')
    /\ exit_status (fst (main_with env registry fuel s)) = Some 0
    /\ running_processes s' = []
    /\ clock s' = clock s1 + 1000 * (Z.of_nat k + 1)
    /\ exists t,
         trace s' = trace s1 ++ t
         /\ In (Log INFO "✅ TODOS LOS SERVICIOS ESTÁN ACTIVOS"%string) t
         /\ In (BrowserOpen "http://localhost:8501") t
         /\ terminated t
            = map pid (filter alive (map snd (survivors 0 k (running_processes s1)))).
Proof.
  destruct (stable_phase_reaches_monitor env registry fuel s1)
    as (t0 & Estable & Hactive & Hopen & Hterm0).
  destruct (monitor_loop_signal_run env k fuel 0 (logged s1 t0) Hflag Hdict Hesc
              Hquiet Hsignal Hfuel)
    as (s2 & Eloop & Htable & Hup & Hclock & Hterm).
  assert (Hbody : main_try env registry fuel (snd (banner env s))
                  = (Raises (SystemExit 0), s2)).
  { unfold main_try. rewrite (bind_run _ _ _ _ _ Hstart). cbn [verdict_branch].
    unfold bind. rewrite Estable. unfold try_except. rewrite Eloop. reflexivity. }
  assert (Hext : exists t2, trace s2 = trace s1 ++ t0 ++ t2 /\ terminated t2
                   = map pid (filter alive (map snd (survivors 0 k (running_processes s1))))).
  { destruct (emits_monitor_loop (fun _ => True) (fun _ _ => I) env fuel I O (logged s1 t0))
      as (t2 & Ht2 & _).
    rewrite Eloop in Ht2. cbn [snd trace logged] in Ht2.
    exists t2. split; [rewrite Ht2, app_assoc; reflexivity|].
    rewrite Ht2 in Hterm. cbn [trace logged running_processes] in Hterm.
    rewrite !terminated_app in Hterm. apply app_inv_head in Hterm. exact Hterm. }
  destruct Hext as (t2 & Ht2 & Hterm2).
  destruct (main_with_cases env registry fuel s _ s2 Hbody)
    as (t & _ & [(E & Hterm3 & _)|(msg & _ & Hno)]).
  - discriminate.
  - rewrite E. eexists. split; [reflexivity|]. split; [reflexivity|].
    cbn [running_processes clock trace].
    split; [reflexivity|]. split; [exact Hclock|].
    exists (t0 ++ t2 ++ t ++ [farewell]).
    split; [rewrite Ht2; cbn [critical_log is_Exception app]; rewrite <- !app_assoc;
            reflexivity|].
    split; [apply in_or_app; left; exact Hactive|].
    split; [apply in_or_app; left; exact Hopen|].
    rewrite !terminated_app, Hterm0, Hterm2, Hterm3, Htable. cbn.
    rewrite app_nil_r. reflexivity.
  - exfalso. apply Hno. rewrite Htable. constructor.
Qed.

Lemma main_stable_run_exits_0_witness :
  exists s',
    main_with port_clash_env SERVICES_CONFIG 5 initial_state = (Raises (SystemExit 0), s')
    /\ exit_status (fst (main_with port_clash_env SERVICES_CONFIG 5 initial_state)) = Some 0
    /\ running_processes s' = []
    /\ In (BrowserOpen "http://localhost:8501") (trace s').
Proof.
  destruct (main_stable_run_exits_0 port_clash_env SERVICES_CONFIG 5 1 initial_state
              (snd (startup port_clash_env SERVICES_CONFIG
                      (snd (banner port_clash_env initial_state)))))
    as (s' & E & Hexit & Htable & _ & t & Ht & _ & Hopen & _).
  - vm_compute. reflexivity.
  - vm_compute. reflexivity.
  - vm_compute. repeat constructor; cbn; intuition discriminate.
  - vm_compute. repeat constructor.
  - intros j Hj. destruct j as [|j]; [reflexivity|lia].
  - reflexivity.
  - lia.
  - exists s'. split; [exact E|]. split; [exact Hexit|]. split; [exact Htable|].
    rewrite Ht. apply in_or_app. right. exact Hopen.
Defined.

(** *** The timing of the health check *)

Lemma health_loop_first_success env config url start_time timeout :
  transport_failures_only env url ->
  forall k fuel s,
    (k < fuel)%nat ->
    probe_time env url (clock s) k - start_time < 1000 * timeout ->
    result (http_get env url (probe_time env url (clock s) k)) = Response 200 ->
    (forall j, (j < k)%nat ->
               result (http_get env url (probe_time env url (clock s) j)) <> Response 200) ->
    (forall j, (j < k)%nat ->
               health_signal env (answer_time env url (clock s) j) = false) ->
    fst (health_loop env fuel config url start_time timeout s) = Returns true
    /\ clock (snd (health_loop env fuel config url start_time timeout s))
       = answer_time env url (clock s) k.
Proof.
  intros Hbenign k. induction k as [|k IH]; intros fuel s Hfuel Hwin Hok Hfirst Hquiet;
    (destruct fuel as [|fuel]; [lia|]); rewrite health_loop_step;
    unfold answer_time in *; cbn [probe_time] in *.
  - destruct (Z.ltb_spec (clock s - start_time) (1000 * timeout)) as [_|Hout]; [|lia].
    rewrite Hok. cbn. split; reflexivity.
  - pose proof (probe_time_lower env url k
                  (clock s + Z.of_N (latency (http_get env url (clock s))) + 2000))
      as Hlow.
    pose proof (N2Z.is_nonneg (latency (http_get env url (clock s)))) as Hpos.
    destruct (Z.ltb_spec (clock s - start_time) (1000 * timeout)) as [_|Hout]; [|lia].
    assert (Hnot : result (http_get env url (clock s)) <> Response 200)
      by (apply (Hfirst O); lia).
    assert (Hnext :
        fst (bind (health_sleep env 2)
               (fun _ => health_loop env fuel config url start_time timeout)
               (after_probe env url s)) = Returns true
        /\ clock (snd (bind (health_sleep env 2)
                         (fun _ => health_loop env fuel config url start_time timeout)
                         (after_probe env url s)))
           = probe_time env url
               (clock s + Z.of_N (latency (http_get env url (clock s))) + 2000) k
             + Z.of_N (latency (http_get env url
                                  (probe_time env url
                                     (clock s
                                      + Z.of_N (latency (http_get env url (clock s)))
                                      + 2000) k)))).
    { destruct (health_sleep_cases env 2 (after_probe env url s)) as [(_ & E)|(Hs & _)].
      - rewrite (bind_run _ _ _ _ _ E).
        assert (Hc : clock (after_sleep 2 (after_probe env url s))
                     = clock s + Z.of_N (latency (http_get env url (clock s))) + 2000)
          by (cbn [clock after_sleep after_probe]; lia).
        rewrite <- Hc. apply IH.
        + lia.
        + rewrite Hc. exact Hwin.
        + rewrite Hc. exact Hok.
        + intros j Hj. rewrite Hc. apply (Hfirst (S j)). lia.
        + intros j Hj. rewrite Hc. apply (Hquiet (S j)). lia.
      - cbn [clock after_probe] in Hs.
        assert (H0 : (0 < S k)%nat) by lia.
        pose proof (Hquiet O H0) as Hq0. cbn [probe_time] in Hq0.
        rewrite Hq0 in Hs. discriminate. }
    destruct (result (http_get env url (clock s))) as [code|e] eqn:R.
    + destruct (Z.eqb_spec code 200) as [->|Hcode]; [contradiction|exact Hnext].
    + rewrite (Hbenign (clock s) e R). exact Hnext.
Qed.

(** X17. [check_service_health] returns as soon as a probe is answered
    with status 200: when only transport failures occur, the first probe
    to be answered 200 is the [k]-th one, issued inside the timeout
    window, and no signal arrives during the sleeps before it, the check
    returns [True] at the moment that answer arrives, without the
    two-second sleep. *)
Theorem check_service_health_first_success
    (env : Env) (name : string) (config : ServiceConfig) (timeout : Z) (s : State)
    (k : nat)
    (Htransport : transport_failures_only env (health_url config))
    (Hwindow : probe_time env (health_url config) (clock s) k - clock s < 1000 * timeout)
    (Hok : result (http_get env (health_url config)
                     (probe_time env (health_url config) (clock s) k))
           = Response 200)
    (Hfirst : forall j, (j < k)%nat ->
                result (http_get env (health_url config)
                          (probe_time env (health_url config) (clock s) j))
                <> Response 200)
    (Hquiet : forall j, (j < k)%nat ->
                health_signal env (answer_time env (health_url config) (clock s) j)
                = false) :
  fst (check_service_health env name config timeout s) = Returns true
  /\ clock (snd (check_service_health env name config timeout s))
     = probe_time env (health_url config) (clock s) k
       + Z.of_N (latency (http_get env (health_url config)
                            (probe_time env (health_url config) (clock s) k))).
Proof.
  rewrite check_service_health_unfold.
  pose proof (probe_time_lower env (health_url config) k (clock s)) as Hlow.
  match goal with
  | |- context [health_loop env ?f config ?u ?st timeout ?s0] =>
      pose proof (health_loop_first_success env config u st timeout Htransport k f s0)
        as Hloop
  end.
  cbn [clock] in Hloop. apply Hloop.
  - unfold health_fuel. lia.
  - exact Hwindow.
  - exact Hok.
  - exact Hfirst.
  - exact Hquiet.
Qed.

Lemma check_service_health_first_success_witness :
  fst (check_service_health slow_start_env "main_dashboard" (shipped "main_dashboard")
         30 initial_state) = Returns true
  /\ clock (snd (check_service_health slow_start_env "main_dashboard"
                   (shipped "main_dashboard") 30 initial_state))
     = probe_time slow_start_env (health_url (shipped "main_dashboard"))
         (clock initial_state) 2
       + Z.of_N (latency (http_get slow_start_env (health_url (shipped "main_dashboard"))
                            (probe_time slow_start_env
                               (health_url (shipped "main_dashboard"))
                               (clock initial_state) 2))).
Proof.
  apply (check_service_health_first_success slow_start_env "main_dashboard"
           (shipped "main_dashboard") 30 initial_state 2).
  - intros t e. cbn. destruct (t <? 3000); cbn; intro H; inversion H; reflexivity.
  - vm_compute. reflexivity.
  - vm_compute. reflexivity.
  - intros j Hj. destruct j as [|[|j]]; [vm_compute; discriminate..|lia].
  - intros j Hj. reflexivity.
Defined.

Lemma health_loop_gives_up_late env config url start_time timeout :
  forall fuel s,
    start_time <= clock s ->
    fst (health_loop env fuel config url start_time timeout s) = Returns false ->
    1000 * timeout <= clock (snd (health_loop env fuel config url start_time timeout s))
                      - start_time
    /\ exists t,
         trace (snd (health_loop env fuel config url start_time timeout s))
         = trace s
           ++ t ++ [Log WARNING ("⚠️ " ++ description config ++ ": No responde en "
                                 ++ url)%string].
Proof.
  induction fuel as [|fuel IH]; intros s Hstart; [discriminate|].
  rewrite health_loop_step.
  pose proof (N2Z.is_nonneg (latency (http_get env url (clock s)))) as Hpos.
  assert (Hnext :
      fst (bind (health_sleep env 2)
             (fun _ => health_loop env fuel config url start_time timeout)
             (after_probe env url s)) = Returns false ->
      1000 * timeout
      <= clock (snd (bind (health_sleep env 2)
                       (fun _ => health_loop env fuel config url start_time timeout)
                       (after_probe env url s))) - start_time
      /\ exists t,
           trace (snd (bind (health_sleep env 2)
                         (fun _ => health_loop env fuel config url start_time timeout)
                         (after_probe env url s)))
           = trace s
             ++ t ++ [Log WARNING ("⚠️ " ++ description config ++ ": No responde en "
                                   ++ url)%string]).
  { destruct (health_sleep_cases env 2 (after_probe env url s))
      as [(_ & E)|(_ & e & t & E & _)].
    - rewrite (bind_run _ _ _ _ _ E). intro Hret.
      destruct (IH (after_sleep 2 (after_probe env url s))) as (Hlate & t & Htr);
        [cbn [clock after_sleep after_probe]; lia|exact Hret|].
      split; [exact Hlate|].
      exists ([HttpGet url 5] ++ [Sleep 2] ++ t). rewrite Htr.
      cbn [trace after_sleep after_probe]. rewrite <- !app_assoc. reflexivity.
    - rewrite (bind_raise _ _ _ _ _ E). discriminate. }
  destruct (Z.ltb_spec (clock s - start_time) (1000 * timeout)) as [Hin|Hout].
  - destruct (result (http_get env url (clock s))) as [code|e].
    + destruct (code =? 200); [discriminate|exact Hnext].
    + destruct (is_RequestException e); [exact Hnext|discriminate].
  - intros _. cbn [snd clock trace logged]. split; [lia|]. exists []. reflexivity.
Qed.

(** X18. [check_service_health] does not give up early: it returns
    [False] only once the whole timeout has elapsed since it started, and
    the last thing it does then is to log the warning that names the
    service and the URL that does not answer. *)
Theorem check_service_health_gives_up_late
    (env : Env) (name : string) (config : ServiceConfig) (timeout : Z) (s : State)
    (Hfalse : fst (check_service_health env name config timeout s) = Returns false) :
  1000 * timeout <= clock (snd (check_service_health env name config timeout s)) - clock s
  /\ exists t,
       trace (snd (check_service_health env name config timeout s))
       = trace s
         ++ t ++ [Log WARNING ("⚠️ " ++ description config ++ ": No responde en "
                               ++ health_url config)%string].
Proof.
  rewrite check_service_health_unfold in *.
  match type of Hfalse with
  | fst (health_loop env ?f config ?u ?st timeout ?s') = _ =>
      destruct (health_loop_gives_up_late env config u st timeout f s')
        as (Hlate & t & Ht)
  end.
  - cbn [clock]. lia.
  - exact Hfalse.
  - split; [exact Hlate|]. cbn [trace] in Ht.
    eexists (_ :: t). rewrite Ht, <- app_assoc. reflexivity.
Qed.

Lemma check_service_health_gives_up_late_witness :
  1000 * 4
  <= clock (snd (check_service_health refusing_env "main_dashboard"
                   (shipped "main_dashboard") 4 initial_state))
     - clock initial_state
  /\ exists t,
       trace (snd (check_service_health refusing_env "main_dashboard"
                     (shipped "main_dashboard") 4 initial_state))
       = trace initial_state
         ++ t ++ [Log WARNING ("⚠️ " ++ description (shipped "main_dashboard")
                               ++ ": No responde en "
                               ++ health_url (shipped "main_dashboard"))%string].
Proof.
  apply (check_service_health_gives_up_late refusing_env "main_dashboard"
           (shipped "main_dashboard") 4 initial_state).
  vm_compute. reflexivity.
Defined.

(** *** The module target of the uvicorn command *)

Lemma contains_slash_cons (c : ascii) (s : string) :
  PyStr.contains "/" (String c s) = Ascii.eqb c "/" || PyStr.contains "/" s.
Proof.
  cbn [PyStr.contains String.prefix].
  destruct (ascii_dec "/" c) as [<-|Hne].
  - destruct s; reflexivity.
  - destruct (Ascii.eqb_spec c "/") as [->|_]; [contradiction|reflexivity].
Qed.

Lemma no_slash_app (a b : string) :
  PyStr.contains "/" a = false -> PyStr.contains "/" b = false ->
  PyStr.contains "/" (a ++ b) = false.
Proof.
  induction a as [|c a IH]; intros Ha Hb; [exact Hb|].
  cbn [String.append]. rewrite contains_slash_cons in *.
  apply orb_false_iff in Ha. destruct Ha as [Hc Ha].
  rewrite Hc, (IH Ha Hb). reflexivity.
Qed.

Lemma replace_slash_no_slash (s : string) :
  PyStr.contains "/" (PyStr.replace_scan "/" "." O s) = false.
Proof.
  induction s as [|c s IH]; [reflexivity|].
  cbn [PyStr.replace_scan String.prefix String.length Nat.sub].
  destruct (ascii_dec "/" c) as [<-|Hne].
  - replace (String.prefix EmptyString s) with true by (destruct s; reflexivity).
    cbn [String.append]. rewrite contains_slash_cons, IH. reflexivity.
  - rewrite contains_slash_cons, IH.
    destruct (Ascii.eqb_spec c "/") as [->|_]; [contradiction|reflexivity].
Qed.

Lemma replace_scan_keeps_no_slash (old : string) (s : string) :
  forall skip,
    PyStr.contains "/" s = false ->
    PyStr.contains "/" (PyStr.replace_scan old EmptyString skip s) = false.
Proof.
  induction s as [|c s IH]; intros skip H; [reflexivity|].
  rewrite contains_slash_cons in H. apply orb_false_iff in H. destruct H as [Hc Hs].
  cbn [PyStr.replace_scan]. destruct skip as [|skip]; [|apply IH; exact Hs].
  destruct (String.prefix old (String c s)).
  - cbn [String.append]. apply IH. exact Hs.
  - rewrite contains_slash_cons, Hc, (IH O Hs). reflexivity.
Qed.

(** X19. The module target [start_service] hands to uvicorn contains no
    slash, whatever the script path: every slash of the path has become a
    dot before the suffix is removed and [:app] is added. *)
Theorem module_target_has_no_slash (script_path : string) :
  PyStr.contains "/" (module_target script_path) = false.
Proof.
  unfold module_target. apply no_slash_app; [|reflexivity].
  unfold PyStr.replace at 1. cbn [PyStr.replace].
  apply replace_scan_keeps_no_slash. apply replace_slash_no_slash.
Qed.
